(** * Project Samarth: a shallow embedding of the query, analytics and
      fetch/cache core, and the properties its specification states.

    The Python sources embedded here are [src/config.py],
    [src/query_engine.py], [src/analytics.py] and [src/data_fetcher.py].
    Each definition carries the name of the function it is translated from.

    Conventions of the embedding.
    - The text of a query is the list of its code points; [str.lower],
      [\s], [\d], [\w], [\b], [int] and [re.IGNORECASE] read the tables of
      a [Unicode] structure, of which only the part below 128 is fixed.  The
      names of the configuration, keys and values are strings of bytes.
    - A Python [int] is a [Z] and a list is a [list]: the memory of the
      interpreter and its limit on the length of the text of a number are
      not modelled.
    - A Python [float] is a value of a type [F] that comes with the
      operations of the class [Kernel], which also holds the pandas, numpy
      and scipy calls; nothing is assumed of how they round.  The instance
      of module [XQ] (rationals extended with the two infinities and NaN) is
      used to run the model.  The confidence scores, which are float
      literals, are the rationals they denote.
    - A data frame is the list of its column names and its rows; a row has
      the six fields of the flat records the program handles.
    - [try]/[except] is the sum type [result]; code that reads the clock, the
      cache directory or the network is a function of an explicit [World].
      Time is in seconds, as a rational.
    - Library calls whose result is not fixed by the program (the MD5 digest,
      [json.dumps], [hash], the calendar) are fields of an environment
      record; the chart builders and the answer templates are taken as
      functions that may raise; logging is left out. *)

From Stdlib Require Import ZArith NArith QArith Qminmax Qabs List String Ascii
  Bool Lia Permutation Sorted DecimalString.
Import ListNotations.

Local Open Scope string_scope.
Local Open Scope Z_scope.

(* ================================================================== *)
(** * Part I.  The model                                               *)
(* ================================================================== *)

(** ** Python strings *)

(** *** Names, keys and values

    The names of the configuration, the keys of dicts and the values of
    requests are strings of bytes, the UTF-8 text of the [str]: equality,
    concatenation, [in], [startswith], [split] and [join] on a separator
    below 128 are the same on the bytes as on the characters. *)
Module Str.

(** [s[len(p):]] when [s.startswith(p)] *)
Fixpoint strip_prefix (p s : string) : option string :=
  match p, s with
  | EmptyString, _ => Some s
  | String a p', String b s' =>
      if Ascii.eqb a b then strip_prefix p' s' else None
  | String _ _, EmptyString => None
  end.

Definition startswith (p s : string) : bool :=
  match strip_prefix p s with Some _ => true | None => false end.

(** [needle in hay] *)
Fixpoint contains (needle hay : string) : bool :=
  match hay with
  | EmptyString => startswith needle EmptyString
  | String _ r => (startswith needle hay || contains needle r)%bool
  end.

Definition is_empty (s : string) : bool :=
  match s with EmptyString => true | _ => false end.

(** [s.split(',')]: always at least one piece. *)
Fixpoint split_on (sep : ascii) (s : string) : list string :=
  match s with
  | EmptyString => [EmptyString]
  | String c r =>
      if Ascii.eqb c sep then EmptyString :: split_on sep r
      else match split_on sep r with
           | p :: ps => String c p :: ps
           | [] => [String c EmptyString]
           end
  end.

(** [sep.join(l)] *)
Fixpoint join (sep : string) (l : list string) : string :=
  match l with
  | [] => EmptyString
  | [x] => x
  | x :: r => x ++ sep ++ join sep r
  end.

Definition mem (x : string) (l : list string) : bool :=
  existsb (String.eqb x) l.

End Str.

(** *** The text of a query

    The query is typed by the user: it is a [str] of any characters, the
    list of its code points.  What Python takes from the Unicode database
    ([str.lower], the classes [\d], [\s] and [\w] of [re], the value of a
    digit for [int], the letters [re.IGNORECASE] lets through) is a
    [Unicode] structure.  No table is written out: what is known of the
    tables is what they are below 128, that a digit has a value from 0 to
    9, that a digit is alphanumeric and that a space is not.  A statement
    proved for every [Unicode] holds of the tables of any version of
    Python. *)
Module Text.

Local Open Scope list_scope.

Definition char : Set := N.
Definition text : Set := list char.

(** A literal of the source, which holds characters below 128 only. *)
Definition lit (s : string) : text := map N_of_ascii (list_ascii_of_string s).

Definition between (lo hi c : N) : bool := ((lo <=? c) && (c <=? hi))%N%bool.

(** The classes below 128. *)
Definition ascii_upper : char -> bool := between 65 90.
Definition ascii_small : char -> bool := between 97 122.
Definition ascii_digit : char -> bool := between 48 57.

(** Tab to carriage return, the four separators 28..31, and the blank. *)
Definition ascii_space (c : char) : bool :=
  (between 9 13 c || between 28 31 c || (c =? 32)%N)%bool.

Definition ascii_alnum (c : char) : bool :=
  (ascii_upper c || ascii_small c || ascii_digit c)%bool.

Definition ascii_lower (c : char) : char :=
  if ascii_upper c then (c + 32)%N else c.

Definition below_128 (s : text) : Prop := Forall (fun c => (c < 128)%N) s.

Class Unicode : Type := {
  (** the value of a decimal digit (category Nd): [\d], and [int] *)
  decimal : char -> option Z;
  (** [str.isspace] of one character: [\s] *)
  is_space : char -> bool;
  (** [str.isalnum] of one character: [\w] is this or the underscore *)
  is_alnum : char -> bool;
  (** [str.lower] *)
  lower : text -> text;
  (** [caseless p c]: the character [c] matches the letter [p] of a
      pattern compiled with [re.IGNORECASE] *)
  caseless : char -> char -> bool;
  decimal_below_128 : forall c, (c < 128)%N ->
    decimal c = if ascii_digit c then Some (Z.of_N c - 48) else None;
  decimal_range : forall c v, decimal c = Some v -> 0 <= v <= 9;
  decimal_is_alnum : forall c v, decimal c = Some v -> is_alnum c = true;
  is_space_below_128 : forall c, (c < 128)%N -> is_space c = ascii_space c;
  is_space_not_alnum : forall c, is_space c = true -> is_alnum c = false;
  is_alnum_below_128 : forall c, (c < 128)%N -> is_alnum c = ascii_alnum c;
  lower_below_128 : forall s, below_128 s -> lower s = map ascii_lower s;
  caseless_below_128 : forall p c, (p < 128)%N -> (c < 128)%N ->
    caseless p c = (ascii_lower p =? ascii_lower c)%N
}.

(** [s[len(p):]] when [s.startswith(p)] *)
Fixpoint strip_prefix (p s : text) : option text :=
  match p, s with
  | [], _ => Some s
  | a :: p', b :: s' => if (a =? b)%N then strip_prefix p' s' else None
  | _ :: _, [] => None
  end.

Definition startswith (p s : text) : bool :=
  match strip_prefix p s with Some _ => true | None => false end.

(** [needle in hay] *)
Fixpoint contains (needle hay : text) : bool :=
  match hay with
  | [] => startswith needle []
  | _ :: r => (startswith needle hay || contains needle r)%bool
  end.

(** The longest prefix of [s] whose characters satisfy [p], and the rest:
    what a greedy [p+] or [p*] consumes. *)
Fixpoint span (p : char -> bool) (s : text) : text * text :=
  match s with
  | [] => ([], [])
  | c :: r =>
      if p c then let (a, b) := span p r in (c :: a, b)
      else ([], s)
  end.

Definition is_empty (s : text) : bool :=
  match s with [] => true | _ => false end.

(** [re.search]: the match at the leftmost position where the anchored
    matcher [m] succeeds; the end of the text is tried last. *)
Fixpoint search {A} (m : text -> option A) (s : text) : option A :=
  match m s with
  | Some x => Some x
  | None =>
      match s with
      | [] => None
      | _ :: r => search m r
      end
  end.

(** [s[k:]] *)
Fixpoint skip (k : nat) (s : text) : text :=
  match k, s with
  | O, _ => s
  | S k', _ :: r => skip k' r
  | S _, [] => []
  end.

Section Classes.
Context {U : Unicode}.

(** [\d] *)
Definition is_digit (c : char) : bool :=
  match decimal c with Some _ => true | None => false end.

(** [\w] *)
Definition is_word (c : char) : bool := (is_alnum c || (c =? 95)%N)%bool.

Definition digit_val (c : char) : Z :=
  match decimal c with Some v => v | None => 0 end.

(** [int(s)] for a text of decimal digits *)
Definition int_of_digits (s : text) : Z :=
  fold_left (fun acc c => 10 * acc + digit_val c) s 0.

(** [re.findall] for a pattern with one group: the groups of the matches
    from left to right, none overlapping another.  The anchored matcher [m]
    is told whether the character before is a word character, and gives the
    group and the length of the match; [busy] counts the characters of the
    last match that are still to be passed over. *)
Fixpoint findall (m : bool -> text -> option (text * nat))
    (busy : nat) (prev_word : bool) (s : text) : list text :=
  match s with
  | [] => []
  | c :: r =>
      match busy with
      | S k => findall m k (is_word c) r
      | O =>
          match m prev_word s with
          | Some (g, n) => g :: findall m (Nat.pred n) (is_word c) r
          | None => findall m 0 (is_word c) r
          end
      end
  end.

(** [\b] after a word character, in front of [s] *)
Definition boundary_before (s : text) : bool :=
  match s with
  | [] => true
  | c :: _ => negb (is_word c)
  end.

(** [re.search(r'\b(w1|w2|...)\b', s)] finds a match; every [wi] is a
    literal that begins and ends with a letter. *)
Fixpoint search_words (alts : list string) (prev_word : bool) (s : text)
    : bool :=
  match s with
  | [] => false
  | c :: r =>
      ((negb prev_word
        && existsb (fun a => match strip_prefix (lit a) s with
                             | Some rest => boundary_before rest
                             | None => false
                             end) alts)
       || search_words alts (is_word c) r)%bool
  end.

(** The literal [p] of a pattern compiled with [re.IGNORECASE], at the
    head of [s]. *)
Fixpoint caseless_prefix (p s : text) : bool :=
  match p, s with
  | [], _ => true
  | a :: p', b :: s' => (caseless a b && caseless_prefix p' s')%bool
  | _ :: _, [] => false
  end.

End Classes.

End Text.

(** ** [src/config.py] *)

Module Config.

Definition INDIAN_STATES : list string :=
  [ "Andhra Pradesh"; "Arunachal Pradesh"; "Assam"; "Bihar"; "Chhattisgarh";
    "Goa"; "Gujarat"; "Haryana"; "Himachal Pradesh"; "Jharkhand"; "Karnataka";
    "Kerala"; "Madhya Pradesh"; "Maharashtra"; "Manipur"; "Meghalaya"; "Mizoram";
    "Nagaland"; "Odisha"; "Punjab"; "Rajasthan"; "Sikkim"; "Tamil Nadu";
    "Telangana"; "Tripura"; "Uttar Pradesh"; "Uttarakhand"; "West Bengal";
    "Delhi"; "Jammu and Kashmir"; "Ladakh"; "Puducherry"; "Chandigarh";
    "Dadra and Nagar Haveli"; "Daman and Diu"; "Lakshadweep";
    "Andaman and Nicobar Islands" ].

Definition STATE_ABBREVIATIONS : list (string * string) :=
  [ ("AP", "Andhra Pradesh"); ("AR", "Arunachal Pradesh"); ("AS", "Assam");
    ("BR", "Bihar"); ("CG", "Chhattisgarh"); ("GA", "Goa"); ("GJ", "Gujarat");
    ("HR", "Haryana"); ("HP", "Himachal Pradesh"); ("JH", "Jharkhand");
    ("KA", "Karnataka"); ("KL", "Kerala"); ("MP", "Madhya Pradesh");
    ("MH", "Maharashtra"); ("MN", "Manipur"); ("ML", "Meghalaya"); ("MZ", "Mizoram");
    ("NL", "Nagaland"); ("OD", "Odisha"); ("PB", "Punjab"); ("RJ", "Rajasthan");
    ("SK", "Sikkim"); ("TN", "Tamil Nadu"); ("TG", "Telangana"); ("TR", "Tripura");
    ("UP", "Uttar Pradesh"); ("UK", "Uttarakhand"); ("WB", "West Bengal");
    ("DL", "Delhi"); ("JK", "Jammu and Kashmir"); ("LA", "Ladakh"); ("PY", "Puducherry") ].

Definition MAJOR_CROPS : list string :=
  [ "Rice"; "Wheat"; "Maize"; "Bajra"; "Jowar"; "Barley"; "Ragi";
    "Cotton"; "Sugarcane"; "Jute"; "Tobacco"; "Tea"; "Coffee";
    "Coconut"; "Groundnut"; "Soybean"; "Sunflower"; "Rapeseed"; "Mustard";
    "Potato"; "Onion"; "Tomato"; "Pulses"; "Chickpea"; "Lentil";
    "Arhar"; "Moong"; "Urad"; "Masoor"; "Fruits"; "Vegetables" ].

Definition CROP_CATEGORIES : list (string * list string) :=
  [ ("cereals", ["Rice"; "Wheat"; "Maize"; "Bajra"; "Jowar"; "Barley"; "Ragi"]);
    ("pulses", ["Chickpea"; "Arhar"; "Moong"; "Urad"; "Lentil"; "Masoor"]);
    ("oilseeds", ["Groundnut"; "Soybean"; "Sunflower"; "Rapeseed"; "Mustard"]);
    ("cash_crops", ["Cotton"; "Sugarcane"; "Jute"; "Tobacco"; "Tea"; "Coffee"]);
    ("horticulture", ["Fruits"; "Vegetables"; "Potato"; "Onion"; "Tomato"; "Coconut"]) ].

(** [API_ENDPOINTS]: the name of an endpoint, then its [base_url],
    [resource_id] and [name]. *)
Definition API_ENDPOINTS : list (string * (string * string * string)) :=
  [ ("imd_rainfall",
     ("https://api.data.gov.in/resource/",
      "9ef84268-d588-465a-a308-a864a43d0070", "IMD Rainfall Data"));
    ("agriculture_production",
     ("https://api.data.gov.in/resource/",
      "8d6c8e8e-e9cd-4f42-b37a-6d9f9e1e4c7a",
      "Agricultural Production Statistics"));
    ("crop_yield",
     ("https://api.data.gov.in/resource/",
      "a8e8c8d9-f3e1-4b5d-9c7e-1a2b3c4d5e6f", "Crop Yield Data"));
    ("district_wise_crops",
     ("https://api.data.gov.in/resource/",
      "b7d9f2e3-a1c4-4e8d-b9f2-3c4d5e6f7a8b",
      "District-wise Crop Production")) ].

(** Cache configuration and rate limiting *)
Definition CACHE_TTL : Z := 3600.
Definition ENABLE_CACHE : bool := true.
Definition API_RATE_LIMIT : nat := 100.
Definition API_TIMEOUT : Z := 30.

Definition APP_NAME : string := "Project Samarth".
Definition APP_VERSION : string := "1.0.0".

End Config.

(** ** [src/query_engine.py]: what [QueryEngine] reads off the query text *)

Module QueryParsing.

Import Text.
Local Open Scope list_scope.

(** The dict [_parse_query] returns. *)
Record ParsedQuery : Type := mk_parsed {
  original_query : text;
  intent : string;
  states : list string;
  crops : list string;
  years : list Z;
  top_n : Z;
  districts : list text;
  metrics : list string
}.

(** [list(range(a, b))] *)
Definition range (a b : Z) : list Z :=
  map (fun i => a + Z.of_nat i) (seq 0 (Z.to_nat (b - a))).

(** [sorted(set(l))] *)
Fixpoint insert_uniq (x : Z) (l : list Z) : list Z :=
  match l with
  | [] => [x]
  | y :: r =>
      if x <? y then x :: l
      else if x =? y then l
      else y :: insert_uniq x r
  end.

Definition sorted_set (l : list Z) : list Z := fold_right insert_uniq [] l.

(** [list(set(l))]: the elements of [l], each once.  Python leaves the
    order of a set open; the embedding lists them in the order [nodup]
    gives, and every statement about the result is up to permutation. *)
Definition list_of_set (l : list string) : list string :=
  nodup string_dec l.

Section Parsing.
Context {U : Unicode}.

(** *** [_extract_states] *)

(** [f" {abbr.lower()} " in f" {query.lower()} " or
     f" {abbr.lower()}," in f" {query.lower()},"] *)
Definition abbr_in_query (abbr : string) (query : text) : bool :=
  (contains (lit " " ++ lower (lit abbr) ++ lit " ")
            (lit " " ++ lower query ++ lit " ")
   || contains (lit " " ++ lower (lit abbr) ++ lit ",")
               (lit " " ++ lower query ++ lit ","))%bool.

Definition add_abbreviation (query : text) (found : list string)
    (item : string * string) : list string :=
  let (abbr, full_name) := item in
  if abbr_in_query abbr query then
    if Str.mem full_name found then found else found ++ [full_name]
  else found.

Definition _extract_states (query : text) : list string :=
  let found_states :=
    filter (fun state => contains (lower (lit state)) (lower query))
           Config.INDIAN_STATES in
  fold_left (add_abbreviation query) Config.STATE_ABBREVIATIONS found_states.

(** *** [_extract_crops] *)
Definition _extract_crops (query : text) : list string :=
  let query_lower := lower query in
  let found_crops :=
    filter (fun crop => contains (lower (lit crop)) query_lower)
           Config.MAJOR_CROPS in
  let found_crops :=
    fold_left
      (fun (found : list string) (item : string * list string) =>
         let (category, crop_list) := item in
         if contains (lit category) query_lower then found ++ crop_list
         else found)
      Config.CROP_CATEGORIES found_crops in
  list_of_set found_crops.

(** *** [_extract_years] *)

(** [\b(19|20)\d{2}\b] anchored at the head of [s]; [prev_word] tells
    whether the character before [s] is a word character.  The value is
    what [re.findall] yields for a pattern with one group: the text of the
    group, ["19"] or ["20"], with the length of the match. *)
Definition match_year_at (prev_word : bool) (s : text)
    : option (text * nat) :=
  if prev_word then None
  else
    let century :=
      match strip_prefix (lit "19") s with
      | Some r => Some (lit "19", r)
      | None =>
          match strip_prefix (lit "20") s with
          | Some r => Some (lit "20", r)
          | None => None
          end
      end in
    match century with
    | Some (g, c :: d :: r) =>
        if (is_digit c && is_digit d && boundary_before r)%bool
        then Some (g, 4%nat) else None
    | _ => None
    end.

(** [last\s+(\d+)\s+years?] anchored at the head of [s]; the value is
    group 1. *)
Definition match_last_n_at (s : text) : option text :=
  match strip_prefix (lit "last") s with
  | None => None
  | Some r =>
      let (ws1, r1) := span is_space r in
      let (ds, r2) := span is_digit r1 in
      let (ws2, r3) := span is_space r2 in
      if (is_empty ws1 || is_empty ds || is_empty ws2)%bool then None
      else if startswith (lit "year") r3 then Some ds else None
  end.

(** [over (?:the )?(?:last |past )?decade] anchored at the head of [s] *)
Definition match_decade_at (s : text) : option unit :=
  match strip_prefix (lit "over ") s with
  | None => None
  | Some r =>
      let r1 :=
        match strip_prefix (lit "the ") r with Some x => x | None => r end in
      let r2 :=
        match strip_prefix (lit "last ") r1 with
        | Some x => x
        | None =>
            match strip_prefix (lit "past ") r1 with
            | Some x => x
            | None => r1
            end
        end in
      if startswith (lit "decade") r2 then Some tt else None
  end.

(** [current_year] is [datetime.now().year]. *)
Definition _extract_years (current_year : Z) (query : text) : list Z :=
  let year_matches := findall match_year_at 0 false query in
  let years := map int_of_digits year_matches in
  let years :=
    match search match_last_n_at (lower query) with
    | Some g => let n := int_of_digits g in range (current_year - n) current_year
    | None => years
    end in
  let years :=
    match search match_decade_at (lower query) with
    | Some _ => range (current_year - 10) current_year
    | None => years
    end in
  let years :=
    match years with
    | [] => range (current_year - 5) current_year
    | _ => years
    end in
  sorted_set years.

(** *** [_extract_top_n] *)

(** [top\s+(\d+)] anchored at the head of [s]; the value is group 1. *)
Definition match_top_at (s : text) : option text :=
  match strip_prefix (lit "top") s with
  | None => None
  | Some r =>
      let (ws, r1) := span is_space r in
      let (ds, _) := span is_digit r1 in
      if (is_empty ws || is_empty ds)%bool then None else Some ds
  end.

(** [(\d+)\s+(?:most|best|highest)] anchored at the head of [s] *)
Definition match_n_most_at (s : text) : option text :=
  let (ds, r) := span is_digit s in
  let (ws, r1) := span is_space r in
  if (is_empty ds || is_empty ws)%bool then None
  else if (startswith (lit "most") r1 || startswith (lit "best") r1
           || startswith (lit "highest") r1)%bool
  then Some ds else None.

Definition _extract_top_n (query : text) : Z :=
  match search match_top_at (lower query) with
  | Some g => int_of_digits g
  | None =>
      match search match_n_most_at (lower query) with
      | Some g => int_of_digits g
      | None => 5
      end
  end.

(** *** [_extract_districts] *)

(** [(\w+)\s+district] with [re.IGNORECASE], anchored at the head of [s] *)
Definition match_district_at (prev_word : bool) (s : text)
    : option (text * nat) :=
  let (w, r) := span is_word s in
  let (ws, r1) := span is_space r in
  if (is_empty w || is_empty ws)%bool then None
  else if caseless_prefix (lit "district") r1
  then Some (w, (List.length w + List.length ws + 8)%nat)
  else None.

Definition _extract_districts (query : text) : list text :=
  findall match_district_at 0 false query.

(** *** [_detect_intent] *)

(** ['top': r'\b(top|best|highest|maximum|most)\s+(\d+)\b'] is found in [s] *)
Fixpoint search_top_pattern (prev_word : bool) (s : text) : bool :=
  match s with
  | [] => false
  | c :: r =>
      ((negb prev_word
        && existsb
             (fun a =>
                match strip_prefix (lit a) s with
                | Some rest =>
                    let (ws, r1) := span is_space rest in
                    let (ds, r2) := span is_digit r1 in
                    (negb (is_empty ws) && negb (is_empty ds)
                     && boundary_before r2)
                | None => false
                end)
             ["top"; "best"; "highest"; "maximum"; "most"])
       || search_top_pattern (is_word c) r)%bool
  end.

(** The four entries of [self.patterns] that can decide the intent, in
    the order of the dict; the entries after them never return. *)
Definition intent_patterns : list (string * (text -> bool)) :=
  [ ("compare",
     search_words ["compare"; "versus"; "vs"; "difference between"] false);
    ("top", search_top_pattern false);
    ("trend",
     search_words ["trend"; "over time"; "historical"; "growth"; "decline"] false);
    ("correlation",
     search_words ["correlation"; "relationship"; "impact"; "effect"] false) ].

Definition _detect_intent (query : text) : string :=
  match find (fun p => snd p query) intent_patterns with
  | Some (intent, _) => intent
  | None =>
      if existsb (fun word => contains (lit word) query) ["what"; "which"; "list"]
      then "retrieve" else "compare"
  end.

(** *** [_parse_query] *)
Definition _parse_query (current_year : Z) (query : text) : ParsedQuery :=
  let query_lower := lower query in
  let intent := _detect_intent query_lower in
  let states := _extract_states query in
  let crops := _extract_crops query in
  let years := _extract_years current_year query in
  let top_n := _extract_top_n query in
  let districts := _extract_districts query in
  let metrics :=
    (if search_words ["rainfall"; "precipitation"; "monsoon"] false query_lower
     then ["rainfall"] else [])
    ++ (if search_words ["production"; "yield"; "output"; "harvest"] false query_lower
        then ["production"] else []) in
  mk_parsed query intent states crops years top_n districts
    (match metrics with [] => ["production"; "rainfall"] | _ => metrics end).

End Parsing.

End QueryParsing.

(** ** Python exceptions and [try]/[except] *)

Module Py.

Inductive exn_class : Set :=
| KeyError | ValueError | TypeError | AttributeError | RequestException.

(** An instance of a subclass of [Exception]; [exn_str] is [str(e)]. *)
Record exn : Set := mk_exn { exn_kind : exn_class; exn_str : string }.

Inductive result (A : Type) : Type :=
| Ok (a : A)
| Raise (e : exn).
Arguments Ok {A} a.
Arguments Raise {A} e.

Definition bind {A B} (r : result A) (k : A -> result B) : result B :=
  match r with
  | Ok a => k a
  | Raise e => Raise e
  end.

Definition is_ok {A} (r : result A) : bool :=
  match r with Ok _ => true | Raise _ => false end.

(** [KeyError(k)]: [str] of a [KeyError] is the [repr] of its key. *)
Definition key_error (k : string) : exn := mk_exn KeyError ("'" ++ k ++ "'").

(** A dict that keeps insertion order. *)
Definition dict (V : Type) : Type := list (string * V).

Fixpoint dict_get {V} (k : string) (d : dict V) : option V :=
  match d with
  | [] => None
  | (k', v) :: r => if String.eqb k k' then Some v else dict_get k r
  end.

(** [d[k] = v] *)
Fixpoint dict_set {V} (k : string) (v : V) (d : dict V) : dict V :=
  match d with
  | [] => [(k, v)]
  | (k', v') :: r =>
      if String.eqb k k' then (k, v) :: r else (k', v') :: dict_set k v r
  end.

Definition dict_has {V} (k : string) (d : dict V) : bool :=
  match dict_get k d with Some _ => true | None => false end.

End Py.

Declare Scope py_scope.
Delimit Scope py_scope with py.
Notation "x <- c ;; k" := (Py.bind c (fun x => k))
  (at level 61, c at next level, right associativity) : py_scope.

(** ** pandas data frames *)

Module Pandas.

Import Py.
Local Open Scope py_scope.

(** One row of the flat tables the program handles. *)
Record Row (F : Type) : Type := mk_row {
  state : string;
  district : string;
  crop : string;
  year : Z;
  annual_rainfall_mm : F;
  production_tonnes : F
}.
Arguments mk_row {F}.
Arguments state {F}.
Arguments district {F}.
Arguments crop {F}.
Arguments year {F}.
Arguments annual_rainfall_mm {F}.
Arguments production_tonnes {F}.

(** A frame: the names of the columns it has, and its rows.  A field of a
    row whose column is not among [columns] is not part of the frame. *)
Record DataFrame (F : Type) : Type := mk_df {
  columns : list string;
  rows : list (Row F)
}.
Arguments mk_df {F}.
Arguments columns {F}.
Arguments rows {F}.

(** [pd.DataFrame()] *)
Definition empty_frame {F} : DataFrame F := mk_df [] [].

Section Frames.
Context {F : Type}.

(** [len(df)] *)
Definition len (df : DataFrame F) : Z := Z.of_nat (List.length (rows df)).

(** [df.empty]: some axis has length 0 *)
Definition empty (df : DataFrame F) : bool :=
  match rows df, columns df with
  | [], _ => true
  | _, [] => true
  | _, _ => false
  end.

(** ['c' in df.columns] *)
Definition has_column (c : string) (df : DataFrame F) : bool :=
  Str.mem c (columns df).

(** [df[c]] *)
Definition column {A} (c : string) (proj : Row F -> A) (df : DataFrame F)
    : result (list A) :=
  if has_column c df then Ok (map proj (rows df)) else Raise (key_error c).

(** [x.head(n)] *)
Definition head {A} (n : Z) (l : list A) : list A :=
  if 0 <=? n then firstn (Z.to_nat n) l
  else firstn (List.length l - Z.to_nat (- n)) l.

(** [df[c].unique()]: the values in order of first appearance *)
Fixpoint unique (l : list string) : list string :=
  match l with
  | [] => []
  | x :: r => x :: filter (fun y => negb (String.eqb x y)) (unique r)
  end.
End Frames.

(** [groupby]: the values of each key, the keys in increasing order. *)
Section GroupBy.
Context {K V : Type} (eqb leb : K -> K -> bool).

Fixpoint add_to_group (k : K) (v : V) (g : list (K * list V))
    : list (K * list V) :=
  match g with
  | [] => [(k, [v])]
  | (k', vs) :: r =>
      if eqb k k' then (k', vs ++ [v])%list :: r
      else if leb k k' then (k, [v]) :: g
      else (k', vs) :: add_to_group k v r
  end.

Definition groups (l : list (K * V)) : list (K * list V) :=
  fold_left (fun g kv => add_to_group (fst kv) (snd kv) g) l [].

(** [groupby(key)[val].agg()] on the key and value columns zipped. *)
Definition aggregate {R} (agg : list V -> R) (l : list (K * V))
    : list (K * R) :=
  map (fun g => (fst g, agg (snd g))) (groups l).
End GroupBy.

Section GroupFrames.
Context {F : Type}.

(** [df.groupby(kc)[vc]]: [KeyError] for a missing column. *)
Definition groupby_column {K} (kc : string) (key : Row F -> K)
    (vc : string) (val : Row F -> F) (df : DataFrame F)
    : result (list (K * F)) :=
  if negb (has_column kc df) then Raise (key_error kc)
  else if negb (has_column vc df)
  then Raise (key_error ("Column not found: " ++ vc))
  else Ok (map (fun r => (key r, val r)) (rows df)).

Definition by_string {R} (agg : list F -> R) (l : list (string * F))
    : list (string * R) :=
  aggregate String.eqb String.leb agg l.

Definition by_year {R} (agg : list F -> R) (l : list (Z * F))
    : list (Z * R) :=
  aggregate Z.eqb Z.leb agg l.

(** [pd.merge(left, right, on=['state', 'year'], how='inner')]: the
    pairs of a left and a right row with the same state and year, in the
    order of the left rows. *)
Definition same_key (l r : Row F) : bool :=
  (String.eqb (state l) (state r) && (year l =? year r))%bool.

Definition inner_join (left right : list (Row F)) : list (Row F * Row F) :=
  flat_map (fun l => map (pair l) (filter (same_key l) right)) left.

Record Merged : Type := mk_merged {
  left_columns : list string;
  right_columns : list string;
  pairs : list (Row F * Row F)
}.

Definition merge (left right : DataFrame F) : result Merged :=
  if negb (has_column "state" left && has_column "state" right)%bool
  then Raise (key_error "state")
  else if negb (has_column "year" left && has_column "year" right)%bool
  then Raise (key_error "year")
  else Ok (mk_merged (columns left) (columns right)
                     (inner_join (rows left) (rows right))).

(** [merged[c]] for a column [c] that is not a join key: a name that both
    frames carry is renamed [c_x] and [c_y] by the merge, so [c] itself is
    found only when exactly one side has it. *)
Definition merged_column (c : string) (proj : Row F -> F) (m : Merged)
    : result (list F) :=
  match Str.mem c (left_columns m), Str.mem c (right_columns m) with
  | true, false => Ok (map (fun p => proj (fst p)) (pairs m))
  | false, true => Ok (map (fun p => proj (snd p)) (pairs m))
  | _, _ => Raise (key_error c)
  end.
End GroupFrames.

End Pandas.

(** ** JSON values *)

Module Json.

Import Py.

(** What [json.load] and [response.json()] give, and what [json.dump]
    takes.  A value written with [json.dump] is read back unchanged by
    [json.load]; the text in the file is not modelled. *)
Local Unset Elimination Schemes.
Inductive json (F : Type) : Type :=
| JNull
| JBool (b : bool)
| JInt (z : Z)
| JFloat (x : F)
| JStr (s : string)
| JList (l : list (json F))
| JDict (d : list (string * json F)).
Local Set Elimination Schemes.
Arguments JNull {F}.
Arguments JBool {F} b.
Arguments JInt {F} z.
Arguments JFloat {F} x.
Arguments JStr {F} s.
Arguments JList {F} l.
Arguments JDict {F} d.

Section Values.
Context {F : Type}.

(** [x[k]] *)
Definition get_item (k : string) (x : json F) : result (json F) :=
  match x with
  | JDict d =>
      match dict_get k d with
      | Some v => Ok v
      | None => Raise (key_error k)
      end
  | JList _ =>
      Raise (mk_exn TypeError "list indices must be integers or slices, not str")
  | JStr _ =>
      Raise (mk_exn TypeError "string indices must be integers")
  | _ => Raise (mk_exn TypeError "object is not subscriptable")
  end.

(** [x[k] = v] *)
Definition set_item (k : string) (v : json F) (x : json F) : result (json F) :=
  match x with
  | JDict d => Ok (JDict (dict_set k v d))
  | JList _ =>
      Raise (mk_exn TypeError "list indices must be integers or slices, not str")
  | _ => Raise (mk_exn TypeError "object does not support item assignment")
  end.

(** [len(x)] *)
Definition py_len (x : json F) : result Z :=
  match x with
  | JList l => Ok (Z.of_nat (List.length l))
  | JDict d => Ok (Z.of_nat (List.length d))
  | JStr s => Ok (Z.of_nat (String.length s))
  | _ => Raise (mk_exn TypeError "object has no len()")
  end.

Definition is_dict (x : json F) : bool :=
  match x with JDict _ => true | _ => false end.
End Values.

End Json.

(** ** The numeric kernel: Python floats, pandas, numpy and scipy *)

(** What the program asks of [float], of a pandas [Series] of floats and of
    the two libraries behind it.  Nothing is assumed of these operations, so
    a statement proved for every [Kernel] holds of IEEE doubles with their
    rounding, their infinities and NaN. *)
Class Kernel (F : Type) : Type := {
  of_Q : Q -> F;                         (* a float literal *)
  of_Z : Z -> F;                         (* [float(n)], an int in a float column *)
  fmul : F -> F -> F;
  fdiv : F -> F -> F;
  fgt : F -> F -> bool;                  (* [a > b] *)
  flt : F -> F -> bool;                  (* [a < b] *)
  fabs : F -> F;
  is_zero : F -> bool;                   (* [not x] *)
  series_sum : list F -> F;              (* [Series.sum()] *)
  series_mean : list F -> F;             (* [Series.mean()] *)
  series_median : list F -> F;
  series_min : list F -> F;
  series_max : list F -> F;
  series_std : list F -> F;
  pct_change : list F -> list F;         (* [Series.pct_change()] *)
  sort_values_desc :                     (* [Series.sort_values(ascending=False)] *)
    list (string * F) -> list (string * F);
  idxmax : list F -> Py.result nat;      (* position of [Series.idxmax()] *)
  idxmin : list F -> Py.result nat;
  pearsonr :                             (* [scipy.stats.pearsonr] *)
    list F -> list F -> Py.result (F * F);
  frame_of_records :                     (* [pd.DataFrame(records)] *)
    Json.json F -> Py.result (Pandas.DataFrame F)
}.

(** ** Values shared by the components *)

Module Types.

Import Py Pandas.
Export QueryParsing(ParsedQuery, mk_parsed, original_query, intent, states,
  crops, years, top_n, districts, metrics).

(** A value of a request or citation parameter. *)
Inductive pyval : Set :=
| PNone
| PStr (s : string)
| PInt (z : Z)
| PStrs (l : list string)
| PInts (l : list Z).

(** [str(n)] *)
Definition str_of_Z (n : Z) : string := NilZero.string_of_int (Z.to_int n).

(** The dict [get_source_citation] returns. *)
Record Citation : Type := mk_citation {
  cit_name : string;
  cit_endpoint : string;
  cit_url : string;
  cit_parameters : dict pyval;
  cit_timestamp : string;
  cit_source : string;
  cit_provider : string
}.

(** An entry of [data_results]: [{'dataframe': ..., 'source': ...}]. *)
Record DataInfo (F : Type) : Type := mk_info {
  dataframe : DataFrame F;
  source : Citation
}.
Arguments mk_info {F}.
Arguments dataframe {F}.
Arguments source {F}.

Definition DataResults (F : Type) : Type := dict (DataInfo F).

End Types.

(** ** [src/analytics.py] *)

Module AnalyticsEngine.

Import Py Pandas Types.
Local Open Scope py_scope.

Section Analytics.
Context {F : Type} {kernel : Kernel F}.

(** *** The dicts the analyses return *)

Record CompareSummary : Type := mk_compare {
  rainfall_comparison : option (list (string * F));
  crop_comparison : option (dict (list (string * F)))
}.

Record TopResult : Type := mk_top {
  top_name : string;
  top_value : F;
  top_unit : string
}.

Record TrendSummary : Type := mk_trend {
  direction : string;
  growth_rate : F;
  start_year : Z;
  end_year : Z;
  start_value : F;
  end_value : F;
  yearly_data : list (Z * F)
}.

Record CorrelationResults : Type := mk_corr {
  correlation_coefficient : F;
  p_value : F;
  significance : string;
  interpretation : string;
  sample_size : Z
}.

Record ColumnStats : Type := mk_stats {
  stat_mean : F; stat_median : F; stat_min : F; stat_max : F; stat_std : F
}.

Record GeneralEntry : Type := mk_general {
  record_count : Z;
  entry_columns : list string;
  sample_data : list (Row F);
  column_stats : dict ColumnStats
}.

Record DistrictRecord : Type := mk_district_record {
  district_name : string;
  district_production : F;
  district_crop : string
}.

Record DistrictEntry : Type := mk_district {
  highest_district : DistrictRecord;
  lowest_district : DistrictRecord;
  average_production : F;
  total_districts : Z
}.

(** The first entry of the result, which differs from one analysis to
    the other; an empty dict is [None] or [[]]. *)
Inductive Body : Type :=
| summary_compare (s : CompareSummary)
| top_results (l : list TopResult)
| trend_summary (t : option TrendSummary)
| correlation_results (c : option CorrelationResults)
| summary_general (s : dict GeneralEntry)
| district_summary (s : dict DistrictEntry).

Record Analysis : Type := mk_analysis {
  body : Body;
  data : DataResults F;
  confidence : Q;
  data_points : Z
}.

(** *** [_calculate_confidence] *)
Definition _calculate_confidence (data_points : Z) : Q :=
  if data_points =? 0 then 0
  else if data_points <? 10 then 5 # 10
  else if data_points <? 50 then 7 # 10
  else if data_points <? 100 then 85 # 100
  else 95 # 100.

(** *** [_interpret_correlation] *)
Definition _interpret_correlation (corr_coef : F) : string :=
  let abs_corr := fabs corr_coef in
  let strength :=
    if fgt abs_corr (of_Q (7 # 10)) then "strong"
    else if fgt abs_corr (of_Q (4 # 10)) then "moderate"
    else if fgt abs_corr (of_Q (2 # 10)) then "weak"
    else "very weak" in
  let direction := if fgt corr_coef (of_Z 0) then "positive" else "negative" in
  strength ++ " " ++ direction ++ " correlation".

(** *** [compare_analysis] *)

(** [state_data.groupby('crop')['production_tonnes'].sum()
      .sort_values(ascending=False)] then [head(5)] *)
Definition top_crops_of (state_rows : list (Row F)) : list (string * F) :=
  head 5 (sort_values_desc
            (by_string series_sum
               (map (fun r => (crop r, production_tonnes r)) state_rows))).

Definition crop_summary_of (df : DataFrame F)
    : result (dict (list (string * F))) :=
  names <- column "state" state df ;;
  if negb (has_column "crop" df) then Raise (key_error "crop")
  else if negb (has_column "production_tonnes" df)
  then Raise (key_error "Column not found: production_tonnes")
  else
    Ok (fold_left
          (fun acc st =>
             let state_data :=
               filter (fun r => String.eqb (state r) st) (rows df) in
             dict_set st (top_crops_of state_data) acc)
          (unique names) []).

Definition compare_analysis (parsed_query : ParsedQuery)
    (data_results : DataResults F) : result Analysis :=
  rain <-
    match dict_get "rainfall" data_results with
    | Some info =>
        let rainfall_df := dataframe info in
        if negb (empty rainfall_df) then
          kv <- groupby_column "state" state
                  "annual_rainfall_mm" annual_rainfall_mm rainfall_df ;;
          Ok (Some (by_string series_mean kv), len rainfall_df)
        else Ok (None, 0)
    | None => Ok (None, 0)
    end ;;
  prod <-
    match dict_get "production" data_results with
    | Some info =>
        let production_df := dataframe info in
        if negb (empty production_df) then
          cs <- crop_summary_of production_df ;;
          Ok (Some cs, len production_df)
        else Ok (None, 0)
    | None => Ok (None, 0)
    end ;;
  let data_points := 0 + snd rain + snd prod in
  Ok (mk_analysis (summary_compare (mk_compare (fst rain) (fst prod)))
                  data_results
                  (_calculate_confidence data_points)
                  data_points).

(** *** [top_n_analysis] *)
Definition as_top (unit : string) (l : list (string * F)) : list TopResult :=
  map (fun kv => mk_top (fst kv) (snd kv) unit) l.

Definition top_n_analysis (parsed_query : ParsedQuery)
    (data_results : DataResults F) : result Analysis :=
  let n := top_n parsed_query in
  found <-
    match dict_get "production" data_results with
    | Some info =>
        let production_df := dataframe info in
        if negb (empty production_df) then
          kv <- groupby_column "crop" crop
                  "production_tonnes" production_tonnes production_df ;;
          let crop_totals := sort_values_desc (by_string series_sum kv) in
          Ok (as_top "tonnes" (head n crop_totals), len production_df)
        else Ok ([], 0)
    | None =>
        match dict_get "rainfall" data_results with
        | Some info =>
            let rainfall_df := dataframe info in
            if negb (empty rainfall_df) then
              kv <- groupby_column "state" state
                      "annual_rainfall_mm" annual_rainfall_mm rainfall_df ;;
              let state_rainfall :=
                sort_values_desc (by_string series_mean kv) in
              Ok (as_top "mm" (head n state_rainfall), len rainfall_df)
            else Ok ([], 0)
        | None => Ok ([], 0)
        end
    end ;;
  let data_points := snd found in
  Ok (mk_analysis (top_results (fst found)) data_results
                  (_calculate_confidence data_points) data_points).

(** *** [trend_analysis] *)

(** The three-way test on the mean growth rate, at threshold [t]:
    [t] is 2 for production and 1 for rainfall. *)
Definition classify (t : Z) (avg_growth : F) : string :=
  if fgt avg_growth (of_Z t) then "increasing"
  else if flt avg_growth (of_Z (- t)) then "decreasing"
  else "stable".

(** [growth_rates = yearly.pct_change() * 100; avg_growth = growth_rates.mean()] *)
Definition average_growth (yearly : list (Z * F)) : F :=
  let growth_rates := map (fun g => fmul g (of_Z 100))
                          (pct_change (map snd yearly)) in
  series_mean growth_rates.

(** The body of [if len(yearly) > 1:], for a series [yearly] indexed by
    year in increasing order. *)
Definition summarize_trend (t : Z) (yearly : list (Z * F))
    : option TrendSummary :=
  match yearly, rev yearly with
  | (y0, v0) :: _ :: _, (y1, v1) :: _ =>
      let avg_growth := average_growth yearly in
      Some (mk_trend (classify t avg_growth) avg_growth y0 y1 v0 v1 yearly)
  | _, _ => None
  end.

Definition trend_of (t : Z) (vc : string) (val : Row F -> F)
    (agg : list F -> F) (df : DataFrame F)
    : result (option TrendSummary * Z) :=
  if (negb (empty df) && has_column "year" df)%bool then
    kv <- groupby_column "year" year vc val df ;;
    let yearly := by_year agg kv in
    if 1 <? Z.of_nat (List.length yearly) then
      Ok (summarize_trend t yearly, len df)
    else Ok (None, 0)
  else Ok (None, 0).

Definition trend_analysis (parsed_query : ParsedQuery)
    (data_results : DataResults F) : result Analysis :=
  found <-
    match dict_get "production" data_results with
    | Some info =>
        trend_of 2 "production_tonnes" production_tonnes series_sum
                 (dataframe info)
    | None =>
        match dict_get "rainfall" data_results with
        | Some info =>
            trend_of 1 "annual_rainfall_mm" annual_rainfall_mm series_mean
                     (dataframe info)
        | None => Ok (None, 0)
        end
    end ;;
  let data_points := snd found in
  Ok (mk_analysis (trend_summary (fst found)) data_results
                  (_calculate_confidence data_points) data_points).

(** *** [correlation_analysis] *)
Definition correlate (rainfall_df production_df : DataFrame F)
    : result (option CorrelationResults * Z) :=
  if (negb (empty rainfall_df) && negb (empty production_df))%bool then
    if (has_column "year" rainfall_df && has_column "year" production_df)%bool
    then
      merged <- merge rainfall_df production_df ;;
      if 5 <? Z.of_nat (List.length (pairs merged)) then
        xs <- merged_column "annual_rainfall_mm" annual_rainfall_mm merged ;;
        ys <- merged_column "production_tonnes" production_tonnes merged ;;
        cp <- pearsonr xs ys ;;
        let corr_coef := fst cp in
        let p := snd cp in
        Ok (Some (mk_corr corr_coef p
                    (if flt p (of_Q (5 # 100)) then "significant"
                     else "not significant")
                    (_interpret_correlation corr_coef)
                    (Z.of_nat (List.length (pairs merged)))),
            Z.of_nat (List.length (pairs merged)))
      else Ok (None, 0)
    else Ok (None, 0)
  else Ok (None, 0).

Definition correlation_analysis (parsed_query : ParsedQuery)
    (data_results : DataResults F) : result Analysis :=
  found <-
    match dict_get "rainfall" data_results, dict_get "production" data_results with
    | Some rain, Some prod => correlate (dataframe rain) (dataframe prod)
    | _, _ => Ok (None, 0)
    end ;;
  let data_points := snd found in
  Ok (mk_analysis (correlation_results (fst found)) data_results
                  (_calculate_confidence data_points) data_points).

(** *** [general_analysis] *)

(** [df.select_dtypes(include=[np.number]).columns] with the values of
    each: the numeric columns of a row are the year and the two
    measures. *)
Definition numeric_columns (df : DataFrame F) : list (string * list F) :=
  flat_map
    (fun c =>
       if String.eqb c "year"
       then [(c, map (fun r => of_Z (year r)) (rows df))]
       else if String.eqb c "annual_rainfall_mm"
       then [(c, map annual_rainfall_mm (rows df))]
       else if String.eqb c "production_tonnes"
       then [(c, map production_tonnes (rows df))]
       else [])
    (columns df).

Definition describe (vs : list F) : ColumnStats :=
  mk_stats (series_mean vs) (series_median vs) (series_min vs)
           (series_max vs) (series_std vs).

Definition general_entry (df : DataFrame F) : GeneralEntry :=
  mk_general (len df) (columns df) (head 5 (rows df))
    (fold_left (fun acc cv => dict_set (fst cv ++ "_stats") (describe (snd cv)) acc)
               (numeric_columns df) []).

Definition general_step (acc : dict GeneralEntry * Z)
    (item : string * DataInfo F) : dict GeneralEntry * Z :=
  let df := dataframe (snd item) in
  if negb (empty df)
  then (dict_set (fst item) (general_entry df) (fst acc), snd acc + len df)
  else acc.

Definition general_analysis (parsed_query : ParsedQuery)
    (data_results : DataResults F) : result Analysis :=
  let found := fold_left general_step data_results ([], 0) in
  let data_points := snd found in
  Ok (mk_analysis (summary_general (fst found)) data_results
                  (_calculate_confidence data_points) data_points).

(** *** [district_analysis] *)

(** [df.loc[label]] for the label an [idxmax] or [idxmin] gave. *)
Definition loc (df : DataFrame F) (i : nat) : result (Row F) :=
  match nth_error (rows df) i with
  | Some r => Ok r
  | None => Raise (key_error "label")
  end.

Definition district_record (df : DataFrame F) (r : Row F) : DistrictRecord :=
  mk_district_record (district r) (production_tonnes r)
    (if has_column "crop" df then crop r else "N/A").

Definition district_entry (df : DataFrame F) : result DistrictEntry :=
  let prods := map production_tonnes (rows df) in
  hi <- idxmax prods ;;
  highest <- loc df hi ;;
  lo <- idxmin prods ;;
  lowest <- loc df lo ;;
  Ok (mk_district (district_record df highest) (district_record df lowest)
                  (series_mean prods)
                  (Z.of_nat (List.length (unique (map district (rows df)))))).

Definition district_step (acc : result (dict DistrictEntry * Z))
    (item : string * DataInfo F) : result (dict DistrictEntry * Z) :=
  a <- acc ;;
  let df := dataframe (snd item) in
  if (Str.contains "district" (fst item)
      && negb (empty df) && has_column "district" df
      && has_column "production_tonnes" df)%bool
  then
    e <- district_entry df ;;
    Ok (dict_set (fst item) e (fst a), snd a + len df)
  else Ok a.

Definition district_analysis (parsed_query : ParsedQuery)
    (data_results : DataResults F) : result Analysis :=
  found <- fold_left district_step data_results (Ok ([], 0)) ;;
  let data_points := snd found in
  Ok (mk_analysis (district_summary (fst found)) data_results
                  (_calculate_confidence data_points) data_points).

End Analytics.

Arguments Analysis F : clear implicits.
Arguments Body F : clear implicits.
Arguments TrendSummary F : clear implicits.
Arguments CorrelationResults F : clear implicits.

End AnalyticsEngine.

(** ** [src/data_fetcher.py] *)

Module DataFetcher.

Import Py Json Pandas Types.
Local Open Scope py_scope.

(** What the fetcher takes from the process environment and from
    [hashlib], [json] and [datetime]. *)
Record Env : Type := mk_env {
  DATA_GOV_API_KEY : string;        (* [os.getenv('DATA_GOV_API_KEY', ...)] *)
  cache_dir : string;               (* [Config.CACHE_DIR] *)
  md5_hexdigest : string -> string; (* [hashlib.md5(s.encode()).hexdigest()] *)
  json_dumps : dict pyval -> string;(* [json.dumps(params, sort_keys=True)] *)
  py_hash : string -> Z;            (* [hash(s)] *)
  isoformat : Q -> string;          (* [datetime.now().isoformat()] at a time *)
  year_of : Q -> Z;                 (* [datetime.now().year] at a time *)
  py_strip : string -> string       (* [s.strip()], which reads the Unicode tables *)
}.

(** [a < b] on times, which are seconds as rationals. *)
Definition Qltb (a b : Q) : bool :=
  match Qcompare a b with Lt => true | _ => false end.

Section Fetcher.
Context {F : Type} {kernel : Kernel F} (env : Env).

(** *** The world outside the interpreter *)

(** A file of the cache directory: its modification time, and the value
    [json.load] reads from it, [None] when its text is not JSON. *)
Record File : Type := mk_file {
  st_mtime : Q;
  content : option (json F)
}.

(** A [GET] of [session.get(url, params=..., timeout=...)]. *)
Record Request : Type := mk_request {
  req_url : string;
  req_params : dict pyval;
  req_timeout : Z
}.

(** What came of a [GET]: [Failed] when [session.get] or
    [raise_for_status] raised a [requests.exceptions.RequestException];
    [Undecodable] when the response came and [response.json()] raised
    [requests.exceptions.JSONDecodeError], which is a [RequestException]
    too (requests 2.27 and later); the decoded body otherwise. *)
Inductive Response : Type :=
| Failed (reason : string)
| Undecodable (reason : string)
| Body (data : json F).

(** [clock] is what [time.time()] reads; [files] is the cache directory;
    [writable] tells whether [open(path, 'w')] succeeds;
    [request_times] is the field of the [DataFetcher] object; [sent]
    lists the requests issued so far and [network] answers the last of
    the requests it is given.  Running the code takes no time; only
    [time.sleep] moves the clock. *)
Record World : Type := mk_world {
  clock : Q;
  files : dict File;
  writable : bool;
  request_times : list Q;
  sent : list Request;
  network : list Request -> Response
}.

Definition set_clock (t : Q) (w : World) : World :=
  mk_world t (files w) (writable w) (request_times w) (sent w) (network w).
Definition set_files (fs : dict File) (w : World) : World :=
  mk_world (clock w) fs (writable w) (request_times w) (sent w) (network w).
Definition set_request_times (l : list Q) (w : World) : World :=
  mk_world (clock w) (files w) (writable w) l (sent w) (network w).
Definition set_sent (l : list Request) (w : World) : World :=
  mk_world (clock w) (files w) (writable w) (request_times w) l (network w).

(** A computation that may raise and may change the world; what it did
    to the world stays done when it raises. *)
Definition M (A : Type) : Type := World -> result A * World.

Definition ret {A} (a : A) : M A := fun w => (Ok a, w).
Definition throw {A} (e : exn) : M A := fun w => (Raise e, w).
Definition lift {A} (r : result A) : M A := fun w => (r, w).
Definition mbind {A B} (c : M A) (k : A -> M B) : M B :=
  fun w =>
    match c w with
    | (Ok a, w') => k a w'
    | (Raise e, w') => (Raise e, w')
    end.

(** [try: c  except Exception as e: h(e)] *)
Definition try_except {A} (c : M A) (h : exn -> M A) : M A :=
  fun w =>
    match c w with
    | (Ok a, w') => (Ok a, w')
    | (Raise e, w') => h e w'
    end.

(** *** [Config.get_api_url], [get_api_params], [is_demo_mode] *)
Definition get_api_url (endpoint_name : string) : result string :=
  match dict_get endpoint_name Config.API_ENDPOINTS with
  | Some (base_url, resource_id, _) => Ok (base_url ++ resource_id)
  | None => Raise (mk_exn ValueError ("Unknown endpoint: " ++ endpoint_name))
  end.

Definition get_or {V} (k : string) (default : V) (d : dict V) : V :=
  match dict_get k d with Some v => v | None => default end.

Definition is_none (v : pyval) : bool :=
  match v with PNone => true | _ => false end.

Definition get_api_params (kwargs : dict pyval) : dict pyval :=
  let params :=
    [ ("api-key", PStr (DATA_GOV_API_KEY env));
      ("format", PStr "json");
      ("limit", get_or "limit" (PInt 1000) kwargs);
      ("offset", get_or "offset" (PInt 0) kwargs) ] in
  fold_left
    (fun params kv =>
       if (negb (Str.mem (fst kv) ["limit"; "offset"]) && negb (is_none (snd kv)))%bool
       then dict_set ("filters[" ++ fst kv ++ "]") (snd kv) params
       else params)
    kwargs params.

Definition validate_config : bool :=
  negb (String.eqb (DATA_GOV_API_KEY env) "YOUR_API_KEY_HERE").

Definition is_demo_mode : bool := negb validate_config.

(** *** Conversions *)
Definition json_of_pyval (v : pyval) : json F :=
  match v with
  | PNone => JNull
  | PStr s => JStr s
  | PInt z => JInt z
  | PStrs l => JList (map JStr l)
  | PInts l => JList (map JInt l)
  end.

Definition json_of_dict (d : dict pyval) : json F :=
  JDict (map (fun kv => (fst kv, json_of_pyval (snd kv))) d).

(** [str(v)] *)
Definition py_str (v : pyval) : string :=
  match v with
  | PNone => "None"
  | PStr s => s
  | PInt z => str_of_Z z
  | PStrs l => "[" ++ Str.join ", " (map (fun s => "'" ++ s ++ "'") l) ++ "]"
  | PInts l => "[" ++ Str.join ", " (map str_of_Z l) ++ "]"
  end.

(** [bool(x)] *)
Definition truthy (x : json F) : bool :=
  match x with
  | JNull => false
  | JBool b => b
  | JInt z => negb (z =? 0)
  | JFloat v => negb (is_zero v)
  | JStr s => negb (Str.is_empty s)
  | JList l => match l with [] => false | _ => true end
  | JDict d => match d with [] => false | _ => true end
  end.

(** *** The cache *)
Definition _get_cache_key (endpoint : string) (params : dict pyval) : string :=
  let cache_str := endpoint ++ "_" ++ json_dumps env params in
  md5_hexdigest env cache_str.

Definition _get_cache_path (cache_key : string) : string :=
  cache_dir env ++ "/" ++ cache_key ++ ".json".

(** [cache_path.exists()] *)
Definition path_exists (cache_path : string) (w : World) : bool :=
  dict_has cache_path (files w).

Definition _is_cache_valid (cache_path : string) (w : World) : bool :=
  match dict_get cache_path (files w) with
  | None => false
  | Some f =>
      if negb Config.ENABLE_CACHE then false
      else
        let cache_age := (clock w - st_mtime f)%Q in
        Qltb cache_age (inject_Z Config.CACHE_TTL)
  end.

(** [open] or [json.load] raising is caught and gives [None]. *)
Definition _read_cache (cache_path : string) (w : World) : option (json F) :=
  match dict_get cache_path (files w) with
  | Some f => content f
  | None => None
  end.

(** A failing [open] is caught and leaves the directory as it was. *)
Definition _write_cache (cache_path : string) (data : json F) (w : World)
    : World :=
  if writable w
  then set_files (dict_set cache_path (mk_file (clock w) (Some data)) (files w)) w
  else w.

(** *** [_check_rate_limit] *)
Definition _check_rate_limit (w : World) : World :=
  let now := clock w in
  let recent :=
    filter (fun t => Qltb (now - t)%Q (inject_Z 3600)) (request_times w) in
  let w := set_request_times recent w in
  if Nat.leb Config.API_RATE_LIMIT (List.length recent) then
    match recent with
    | [] => w
    | t :: ts =>
        let oldest_request := fold_left Qmin ts t in
        let wait_time := (inject_Z 3600 - (now - oldest_request))%Q in
        if Qltb 0%Q wait_time then set_clock (clock w + wait_time)%Q w else w
    end
  else w.

(** *** [_get_demo_data] *)

(** [filters.get('state', default).split(',')] *)
Definition split_states (default : string) (filters : dict pyval)
    : result (list string) :=
  match get_or "state" (PStr default) filters with
  | PStr s => Ok (Str.split_on "," s)
  | PNone =>
      Raise (mk_exn AttributeError "'NoneType' object has no attribute 'split'")
  | PInt _ =>
      Raise (mk_exn AttributeError "'int' object has no attribute 'split'")
  | PStrs _ | PInts _ =>
      Raise (mk_exn AttributeError "'list' object has no attribute 'split'")
  end.

Definition demo_years : list Z := QueryParsing.range 2018 2024.

Definition demo_rainfall_records (states : list string) : list (json F) :=
  flat_map
    (fun state =>
       map (fun year =>
              let base_rainfall :=
                if String.eqb (py_strip env state) "Punjab" then 1200 else 1100 in
              JDict
                [ ("state", JStr (py_strip env state));
                  ("year", JInt year);
                  ("annual_rainfall_mm",
                   JInt (base_rainfall + (year - 2018) * 50
                         + (py_hash env state mod 200 - 100)));
                  ("monsoon_rainfall_mm",
                   JFloat (fmul (of_Z base_rainfall) (of_Q (7 # 10))));
                  ("district", JStr (py_strip env state ++ "_District_1")) ])
           demo_years)
    states.

Definition base_prod (crop : string) : Z :=
  get_or crop 3000
    [ ("Rice", 5000); ("Wheat", 6000); ("Cotton", 3000);
      ("Sugarcane", 8000); ("Maize", 4000) ].

Definition demo_production_records (states : list string) : list (json F) :=
  flat_map
    (fun state =>
       flat_map
         (fun crop =>
            map (fun year =>
                   let production :=
                     base_prod crop + (year - 2018) * 200
                     + py_hash env (state ++ crop) mod 1000 in
                   JDict
                     [ ("state", JStr (py_strip env state));
                       ("crop", JStr crop);
                       ("year", JInt year);
                       ("production_tonnes", JInt production);
                       ("area_hectares",
                        JFloat (fdiv (of_Z production) (of_Q (25 # 10))));
                       ("yield_kg_per_hectare", JInt 2500) ])
                demo_years)
         ["Rice"; "Wheat"; "Cotton"; "Sugarcane"; "Maize"])
    states.

Definition demo_district_records (state : pyval) : list (json F) :=
  let districts :=
    map (fun i => py_str state ++ "_District_" ++ str_of_Z i)
        (QueryParsing.range 1 6) in
  flat_map
    (fun district =>
       map (fun crop =>
              let production := 1000 + py_hash env (district ++ crop) mod 5000 in
              JDict
                [ ("state", json_of_pyval state);
                  ("district", JStr district);
                  ("crop", JStr crop);
                  ("production_tonnes", JInt production);
                  ("year", JInt 2023) ])
           ["Wheat"; "Rice"; "Sugarcane"; "Potato"])
    districts.

Definition demo_payload (endpoint_name : string) (filters : dict pyval)
    (records : list (json F)) (now : Q) : json F :=
  JDict
    [ ("data", JDict [("records", JList records)]);
      ("endpoint", JStr endpoint_name);
      ("url", JStr ("demo://" ++ endpoint_name));
      ("parameters", json_of_dict filters);
      ("timestamp", JStr (isoformat env now));
      ("from_cache", JBool false);
      ("demo_mode", JBool true);
      ("records_count", JInt (Z.of_nat (List.length records))) ].

Definition demo_records (endpoint_name : string) (filters : dict pyval)
    : result (list (json F)) :=
  if String.eqb endpoint_name "imd_rainfall" then
    states <- split_states "Punjab,Haryana" filters ;;
    Ok (demo_rainfall_records states)
  else if String.eqb endpoint_name "agriculture_production" then
    states <- split_states "Punjab,Haryana,Maharashtra" filters ;;
    Ok (demo_production_records states)
  else if String.eqb endpoint_name "district_wise_crops" then
    Ok (demo_district_records (get_or "state" (PStr "Uttar Pradesh") filters))
  else Ok [].

Definition _get_demo_data (endpoint_name : string) (filters : dict pyval)
    : M (json F) :=
  fun w =>
    (records <- demo_records endpoint_name filters ;;
     Ok (demo_payload endpoint_name filters records (clock w)), w).

(** *** [fetch_data] *)

(** [len(data.get('records', [])) if isinstance(data, dict) else len(data)] *)
Definition records_count_of (data : json F) : result Z :=
  match data with
  | JDict d => py_len (get_or "records" (JList []) d)
  | _ => py_len data
  end.

(** The dict built from a decoded response. *)
Definition live_payload (endpoint_name url : string) (params : dict pyval)
    (data : json F) (count : Z) (now : Q) : json F :=
  JDict
    [ ("data", data);
      ("endpoint", JStr endpoint_name);
      ("url", JStr url);
      ("parameters", json_of_dict params);
      ("timestamp", JStr (isoformat env now));
      ("from_cache", JBool false);
      ("records_count", JInt count) ].

(** [cached_data['from_cache'] = True; return cached_data] *)
Definition mark_from_cache (cached_data : json F) : result (json F) :=
  set_item "from_cache" (JBool true) cached_data.

(** The same with [cached_data['cache_expired'] = True] after it. *)
Definition mark_expired (cached_data : json F) : result (json F) :=
  d <- set_item "from_cache" (JBool true) cached_data ;;
  set_item "cache_expired" (JBool true) d.

(** The [except requests.exceptions.RequestException] clause. *)
Definition on_request_failure (endpoint_name : string) (filters : dict pyval)
    (cache_path : string) : M (json F) :=
  fun w =>
    let stale :=
      if path_exists cache_path w then
        match _read_cache cache_path w with
        | Some cached_data =>
            if truthy cached_data then Some cached_data else None
        | None => None
        end
      else None in
    match stale with
    | Some cached_data => (mark_expired cached_data, w)
    | None => _get_demo_data endpoint_name filters w
    end.

(** The [try] block that talks to the API. *)
Definition fetch_live (endpoint_name url : string) (params filters : dict pyval)
    (cache_path : string) : M (json F) :=
  fun w =>
    let w := _check_rate_limit w in
    let request := mk_request url params Config.API_TIMEOUT in
    let w := set_sent (sent w ++ [request])%list w in
    match network w (sent w) with
    | Failed _ => on_request_failure endpoint_name filters cache_path w
    | Undecodable _ =>
        let w := set_request_times (request_times w ++ [clock w])%list w in
        on_request_failure endpoint_name filters cache_path w
    | Body data =>
        let w := set_request_times (request_times w ++ [clock w])%list w in
        match records_count_of data with
        | Raise e => (Raise e, w)
        | Ok count =>
            let result :=
              live_payload endpoint_name url params data count (clock w) in
            (Ok result, _write_cache cache_path result w)
        end
    end.

Definition fetch_data (endpoint_name : string) (filters : dict pyval)
    : M (json F) :=
  fun w =>
    match get_api_url endpoint_name with
    | Raise _ => _get_demo_data endpoint_name filters w
    | Ok url =>
        let params := get_api_params filters in
        let cache_key := _get_cache_key endpoint_name params in
        let cache_path := _get_cache_path cache_key in
        let hit :=
          if _is_cache_valid cache_path w then
            match _read_cache cache_path w with
            | Some cached_data =>
                if truthy cached_data then Some cached_data else None
            | None => None
            end
          else None in
        match hit with
        | Some cached_data => (mark_from_cache cached_data, w)
        | None =>
            if is_demo_mode then _get_demo_data endpoint_name filters w
            else fetch_live endpoint_name url params filters cache_path w
        end
    end.

(** *** [fetch_rainfall_data], [fetch_crop_production], [fetch_district_data] *)

(** [x > 0] *)
Definition positive (x : json F) : result bool :=
  match x with
  | JInt z => Ok (0 <? z)
  | JBool b => Ok b
  | JFloat v => Ok (fgt v (of_Z 0))
  | _ => Raise (mk_exn TypeError "'>' not supported between instances")
  end.

(** The tail the three fetchers share. *)
Definition frame_of_result (result : json F) : Py.result (DataFrame F) :=
  count <- get_item "records_count" result ;;
  some <- positive count ;;
  if some then
    data <- get_item "data" result ;;
    records <- get_item "records" data ;;
    frame_of_records records
  else Ok empty_frame.

Definition fetch_frame (endpoint_name : string) (filters : dict pyval)
    : M (DataFrame F) :=
  mbind (fetch_data endpoint_name filters)
        (fun result => lift (frame_of_result result)).

Definition join_years (years : list Z) : string :=
  Str.join "," (map str_of_Z years).

Definition fetch_rainfall_data (states : list string) (years : option (list Z))
    : M (DataFrame F) :=
  fun w =>
    let years :=
      match years with
      | Some l => l
      | None =>
          let current_year := year_of env (clock w) in
          QueryParsing.range (current_year - 5) current_year
      end in
    let filters :=
      [ ("state", PStr (Str.join "," states));
        ("year", PStr (join_years years)) ] in
    fetch_frame "imd_rainfall" filters w.

Definition fetch_crop_production (states : list string)
    (crops : option (list string)) (years : option (list Z))
    : M (DataFrame F) :=
  let filters := [("state", PStr (Str.join "," states))] in
  let filters :=
    match crops with
    | Some (c :: cs) => dict_set "crop" (PStr (Str.join "," (c :: cs))) filters
    | _ => filters
    end in
  let filters :=
    match years with
    | Some (y :: ys) => dict_set "year" (PStr (join_years (y :: ys))) filters
    | _ => filters
    end in
  fetch_frame "agriculture_production" filters.

Definition fetch_district_data (state : string) (crop : option string)
    : M (DataFrame F) :=
  let filters := [("state", PStr state)] in
  let filters :=
    match crop with
    | Some c => if Str.is_empty c then filters else dict_set "crop" (PStr c) filters
    | None => filters
    end in
  fetch_frame "district_wise_crops" filters.

(** *** [get_source_citation] *)
Definition get_source_citation (endpoint_name : string)
    (parameters : dict pyval) : M Citation :=
  fun w =>
    let name :=
      match dict_get endpoint_name Config.API_ENDPOINTS with
      | Some (_, _, n) => n
      | None => endpoint_name
      end in
    let url :=
      if negb is_demo_mode then get_api_url endpoint_name
      else Ok ("demo://" ++ endpoint_name) in
    (u <- url ;;
     Ok (mk_citation name endpoint_name u parameters
           (isoformat env (clock w))
           "data.gov.in Open Government Data Platform"
           "Government of India"), w).

(** *** [check_api_status] *)

(** [not result.get('demo_mode', False)] *)
Definition not_demo_mode (result : json F) : Py.result bool :=
  match result with
  | JDict d => Ok (negb (truthy (get_or "demo_mode" (JBool false) d)))
  | _ => Raise (mk_exn AttributeError "object has no attribute 'get'")
  end.

(** One turn of the loop: the [try] with its [except Exception]. *)
Definition check_endpoint (endpoint_name : string) (status : dict bool)
    : M (dict bool) :=
  try_except
    (mbind (fetch_data endpoint_name [("limit", PInt 1)])
       (fun result =>
          mbind (lift (not_demo_mode result))
            (fun up => ret (dict_set endpoint_name up status))))
    (fun _ => ret (dict_set endpoint_name false status)).

Definition check_api_status : M (dict bool) :=
  fold_left (fun acc endpoint_name => mbind acc (check_endpoint endpoint_name))
            (map fst Config.API_ENDPOINTS) (ret []).

End Fetcher.

Arguments World F : clear implicits.
Arguments File F : clear implicits.
Arguments Response F : clear implicits.
Arguments M F A : clear implicits.

End DataFetcher.

(** ** [src/query_engine.py]: the pipeline *)

Module QueryEngine.

Import Py Json Pandas Types AnalyticsEngine DataFetcher.

(** The two steps that only present a result: the chart builders of
    [visualizer.py] and the answer templates of [_generate_answer].  Their
    code is not embedded; each is an arbitrary function that may raise. *)
Record Presentation (F : Type) `{Kernel F} : Type := mk_presentation {
  chart : Type;
  create_visualizations : ParsedQuery -> Analysis F -> result (list chart);
  generate_answer : ParsedQuery -> Analysis F -> result string
}.
Arguments chart {F _} p.
Arguments create_visualizations {F _} p.
Arguments generate_answer {F _} p.

Section Engine.
Context {U : Text.Unicode} {F : Type} {kernel : Kernel F} (env : Env)
  (ui : Presentation F).

(** The dict [process_query] returns; [query_type] is absent from the
    error reply and [error] from the other. *)
Record Reply : Type := mk_reply {
  answer : string;
  reply_data : DataResults F;
  visualizations : list (chart ui);
  sources : list Citation;
  reply_confidence : Q;
  processing_time : Q;
  reply_data_points : Z;
  query_type : option string;
  error : option string
}.

(** *** [_fetch_data_for_query] *)
Definition fetch_rainfall_entry (pq : ParsedQuery) (data_results : DataResults F)
    : M F (DataResults F) :=
  try_except
    (mbind (fetch_rainfall_data env (states pq) (Some (years pq)))
       (fun rainfall_df =>
          mbind (get_source_citation env "imd_rainfall"
                   [("states", PStrs (states pq)); ("years", PInts (years pq))])
            (fun cit =>
               ret (dict_set "rainfall" (mk_info rainfall_df cit) data_results))))
    (fun _ => ret data_results).

Definition fetch_production_entry (pq : ParsedQuery)
    (data_results : DataResults F) : M F (DataResults F) :=
  try_except
    (mbind (fetch_crop_production env (states pq)
              (match crops pq with [] => None | l => Some l end)
              (Some (years pq)))
       (fun production_df =>
          mbind (get_source_citation env "agriculture_production"
                   [("states", PStrs (states pq)); ("crops", PStrs (crops pq));
                    ("years", PInts (years pq))])
            (fun cit =>
               ret (dict_set "production" (mk_info production_df cit)
                             data_results))))
    (fun _ => ret data_results).

Definition fetch_district_entry (pq : ParsedQuery) (state : string)
    (data_results : DataResults F) : M F (DataResults F) :=
  let crop := match crops pq with c :: _ => Some c | [] => None end in
  try_except
    (mbind (fetch_district_data env state crop)
       (fun district_df =>
          mbind (get_source_citation env "district_wise_crops"
                   [("state", PStr state);
                    ("crop", match crop with Some c => PStr c | None => PNone end)])
            (fun cit =>
               ret (dict_set ("district_" ++ state) (mk_info district_df cit)
                             data_results))))
    (fun _ => ret data_results).

Definition nonempty {A} (l : list A) : bool :=
  match l with [] => false | _ => true end.

Definition _fetch_data_for_query (pq : ParsedQuery) : M F (DataResults F) :=
  let step1 data_results :=
    if (Str.mem "rainfall" (metrics pq) && nonempty (states pq))%bool
    then fetch_rainfall_entry pq data_results else ret data_results in
  let step2 data_results :=
    if (Str.mem "production" (metrics pq) && nonempty (states pq))%bool
    then fetch_production_entry pq data_results else ret data_results in
  let step3 data_results :=
    if (nonempty (districts pq)
        || Text.contains (Text.lit "district")
                         (Text.lower (original_query pq)))%bool
    then
      fold_left
        (fun acc state => mbind acc (fetch_district_entry pq state))
        (states pq) (ret data_results)
    else ret data_results in
  mbind (step1 []) (fun d1 => mbind (step2 d1) step3).

(** *** [_analyze_data] *)
Definition _analyze_data (pq : ParsedQuery) (data_results : DataResults F)
    : result (Analysis F) :=
  if String.eqb (intent pq) "compare" then compare_analysis pq data_results
  else if String.eqb (intent pq) "top" then top_n_analysis pq data_results
  else if String.eqb (intent pq) "trend" then trend_analysis pq data_results
  else if String.eqb (intent pq) "correlation"
  then correlation_analysis pq data_results
  else general_analysis pq data_results.

Definition _generate_visualizations (pq : ParsedQuery) (analysis : Analysis F)
    : result (list (chart ui)) :=
  create_visualizations ui pq analysis.

Definition _generate_answer (pq : ParsedQuery) (analysis : Analysis F)
    : result string :=
  generate_answer ui pq analysis.

(** *** [_collect_sources] *)
Definition _collect_sources (data_results : DataResults F) : list Citation :=
  map (fun item => source (snd item)) data_results.

(** *** [process_query] *)

(** The body of the [try]: steps 1 to 6 and the reply built from them.
    [start_time] is the clock read on entry. *)
Definition pipeline (start_time : Q) (query : Text.text) : M F Reply :=
  fun w =>
    let parsed_query := QueryParsing._parse_query (year_of env (clock w)) query in
    mbind (_fetch_data_for_query parsed_query)
      (fun data_results =>
         mbind (lift (_analyze_data parsed_query data_results))
           (fun analysis_results =>
              mbind (lift (_generate_visualizations parsed_query analysis_results))
                (fun visualizations =>
                   mbind (lift (_generate_answer parsed_query analysis_results))
                     (fun answer w' =>
                        let sources := _collect_sources data_results in
                        let processing_time := (clock w' - start_time)%Q in
                        (Ok (mk_reply answer (data analysis_results)
                               visualizations sources
                               (confidence analysis_results) processing_time
                               (data_points analysis_results)
                               (Some (intent parsed_query)) None), w')))))
      w.

(** The dict of the [except Exception as e] clause. *)
Definition error_reply (e : exn) (processing_time : Q) : Reply :=
  mk_reply
    ("I encountered an error processing your query: " ++ exn_str e
     ++ ". Please try rephrasing your question.")
    [] [] [] 0%Q processing_time 0 None (Some (exn_str e)).

Definition process_query (query : Text.text) : M F Reply :=
  fun w =>
    let start_time := clock w in
    try_except (pipeline start_time query)
      (fun e w' => (Ok (error_reply e (clock w' - start_time)%Q), w'))
      w.

End Engine.

End QueryEngine.

(** ** [src/query_engine.py]: the answer templates *)

Module AnswerTemplates.

Import Py Pandas Types AnalyticsEngine.

(** The texts the four templates build from a result that is not empty.
    Their code is not embedded: each is an arbitrary function of the parsed
    query and of the result, and may raise. *)
Record Texts (F : Type) `{Kernel F} : Type := mk_texts {
  comparison_text : ParsedQuery -> Analysis F -> result string;
  top_n_text : ParsedQuery -> Analysis F -> result string;
  trend_text : ParsedQuery -> Analysis F -> result string;
  general_text : ParsedQuery -> Analysis F -> result string
}.
Arguments comparison_text {F _} t.
Arguments top_n_text {F _} t.
Arguments trend_text {F _} t.
Arguments general_text {F _} t.

Section Templates.
Context {F : Type} {kernel : Kernel F} (texts : Texts F).

(** [bool(analysis.get('summary'))]: the result has a summary, and that
    dict is not empty. *)
Definition has_summary (analysis : Analysis F) : bool :=
  match body analysis with
  | summary_compare s =>
      match rainfall_comparison s, crop_comparison s with
      | None, None => false
      | _, _ => true
      end
  | summary_general s => match s with [] => false | _ => true end
  | _ => false
  end.

(** [bool(analysis.get('top_results'))] *)
Definition has_top_results (analysis : Analysis F) : bool :=
  match body analysis with
  | top_results (_ :: _) => true
  | _ => false
  end.

(** [bool(analysis.get('trend_summary'))] *)
Definition has_trend_summary (analysis : Analysis F) : bool :=
  match body analysis with
  | trend_summary (Some _) => true
  | _ => false
  end.

Definition _generate_comparison_answer (parsed_query : ParsedQuery)
    (analysis : Analysis F) : result string :=
  if negb (has_summary analysis)
  then Ok "I found limited data for this comparison. Please try a different query."
  else comparison_text texts parsed_query analysis.

Definition _generate_top_n_answer (parsed_query : ParsedQuery)
    (analysis : Analysis F) : result string :=
  if negb (has_top_results analysis)
  then Ok ("No data available for top " ++ str_of_Z (top_n parsed_query)
           ++ " analysis.")
  else top_n_text texts parsed_query analysis.

Definition _generate_trend_answer (parsed_query : ParsedQuery)
    (analysis : Analysis F) : result string :=
  if negb (has_trend_summary analysis)
  then Ok "Insufficient data for trend analysis."
  else trend_text texts parsed_query analysis.

Definition _generate_general_answer (parsed_query : ParsedQuery)
    (analysis : Analysis F) : result string :=
  if negb (has_summary analysis)
  then Ok "I found some data but couldn't generate a comprehensive answer. Please refine your query."
  else general_text texts parsed_query analysis.

Definition _generate_answer (parsed_query : ParsedQuery)
    (analysis : Analysis F) : result string :=
  if String.eqb (intent parsed_query) "compare"
  then _generate_comparison_answer parsed_query analysis
  else if String.eqb (intent parsed_query) "top"
  then _generate_top_n_answer parsed_query analysis
  else if String.eqb (intent parsed_query) "trend"
  then _generate_trend_answer parsed_query analysis
  else _generate_general_answer parsed_query analysis.

End Templates.

End AnswerTemplates.

(* ================================================================== *)
(** * Part II.  A kernel that runs                                     *)
(* ================================================================== *)

(** Floats without rounding: the rationals, the two infinities and NaN, with
    the pandas conventions (reductions skip NaN, a division by zero gives an
    infinity or NaN).  The standard deviation and [pearsonr] leave the
    rationals and are arguments of the kernel. *)

Module XQ.

Import Py Json Pandas.
Local Open Scope Q_scope.

Inductive xq : Set :=
| Fin (q : Q)
| PInf
| NInf
| NaN.

Definition is_nan (x : xq) : bool :=
  match x with NaN => true | _ => false end.

Definition sign (q : Q) : comparison := Qcompare q 0.

Definition xneg (x : xq) : xq :=
  match x with
  | Fin q => Fin (- q)
  | PInf => NInf
  | NInf => PInf
  | NaN => NaN
  end.

Definition xadd (x y : xq) : xq :=
  match x, y with
  | NaN, _ | _, NaN => NaN
  | Fin a, Fin b => Fin (Qred (a + b))
  | PInf, NInf | NInf, PInf => NaN
  | PInf, _ | _, PInf => PInf
  | NInf, _ | _, NInf => NInf
  end.

Definition xsub (x y : xq) : xq := xadd x (xneg y).

Definition scale_inf (pos : bool) (c : comparison) : xq :=
  match c with
  | Eq => NaN
  | Gt => if pos then PInf else NInf
  | Lt => if pos then NInf else PInf
  end.

Definition xsign (x : xq) : comparison :=
  match x with
  | Fin q => sign q
  | PInf => Gt
  | NInf => Lt
  | NaN => Eq
  end.

Definition xmul (x y : xq) : xq :=
  match x, y with
  | NaN, _ | _, NaN => NaN
  | Fin a, Fin b => Fin (Qred (a * b))
  | PInf, _ => scale_inf true (xsign y)
  | NInf, _ => scale_inf false (xsign y)
  | _, PInf => scale_inf true (xsign x)
  | _, NInf => scale_inf false (xsign x)
  end.

Definition xdiv (x y : xq) : xq :=
  match x, y with
  | NaN, _ | _, NaN => NaN
  | Fin a, Fin b =>
      match sign b with
      | Eq => scale_inf true (sign a)
      | _ => Fin (Qred (a / b))
      end
  | Fin _, _ => Fin 0
  | _, Fin b =>
      match sign b with
      | Lt => xneg x
      | _ => x
      end
  | _, _ => NaN
  end.

(** [x < y] *)
Definition xlt (x y : xq) : bool :=
  match x, y with
  | NaN, _ | _, NaN => false
  | Fin a, Fin b => DataFetcher.Qltb a b
  | NInf, NInf | PInf, _ | Fin _, NInf => false
  | NInf, _ | Fin _, PInf => true
  end.

Definition xgt (x y : xq) : bool := xlt y x.

Definition xabs (x : xq) : xq :=
  match x with
  | Fin q => Fin (Qabs q)
  | NInf => PInf
  | _ => x
  end.

Definition xis_zero (x : xq) : bool :=
  match x with Fin q => Qeq_bool q 0 | _ => false end.

Definition dropna (l : list xq) : list xq := filter (fun x => negb (is_nan x)) l.

Definition xsum (l : list xq) : xq := fold_left xadd (dropna l) (Fin 0).

Definition xcount (l : list xq) : xq :=
  Fin (inject_Z (Z.of_nat (List.length (dropna l)))).

Definition xmean (l : list xq) : xq :=
  match dropna l with
  | [] => NaN
  | _ => xdiv (xsum l) (xcount l)
  end.

Fixpoint insert_sorted (x : xq) (l : list xq) : list xq :=
  match l with
  | [] => [x]
  | y :: r => if xlt y x then y :: insert_sorted x r else x :: l
  end.

Definition xsort (l : list xq) : list xq := fold_right insert_sorted [] (dropna l).

Definition xmin (l : list xq) : xq := hd NaN (xsort l).
Definition xmax (l : list xq) : xq := last (xsort l) NaN.

Definition xmedian (l : list xq) : xq :=
  let s := xsort l in
  let n := List.length s in
  match n with
  | O => NaN
  | _ =>
      if Nat.even n
      then xdiv (xadd (nth (n / 2 - 1) s NaN) (nth (n / 2) s NaN)) (Fin 2)
      else nth (n / 2) s NaN
  end.

(** Missing values take the last value before them, then each value is
    divided by the one before it. *)
Fixpoint pad (prev : xq) (l : list xq) : list xq :=
  match l with
  | [] => []
  | x :: r => let v := if is_nan x then prev else x in v :: pad v r
  end.

Fixpoint ratios (prev : xq) (l : list xq) : list xq :=
  match l with
  | [] => []
  | x :: r => xsub (xdiv x prev) (Fin 1) :: ratios x r
  end.

Definition xpct_change (l : list xq) : list xq :=
  match pad NaN l with
  | [] => []
  | x :: r => NaN :: ratios x r
  end.

(** Largest first, missing values last, ties in their first order. *)
Fixpoint insert_desc (kv : string * xq) (l : list (string * xq))
    : list (string * xq) :=
  match l with
  | [] => [kv]
  | y :: r =>
      if (is_nan (snd y) || xlt (snd y) (snd kv))%bool && negb (is_nan (snd kv))
      then kv :: l else y :: insert_desc kv r
  end.

Definition xsort_desc (l : list (string * xq)) : list (string * xq) :=
  fold_right insert_desc [] l.

(** The position of the first value that [better] prefers to all others. *)
Fixpoint arg_best (better : xq -> xq -> bool) (i : nat) (best : option (nat * xq))
    (l : list xq) : option (nat * xq) :=
  match l with
  | [] => best
  | x :: r =>
      let best' :=
        if is_nan x then best
        else match best with
             | Some (_, b) => if better x b then Some (i, x) else best
             | None => Some (i, x)
             end in
      arg_best better (S i) best' r
  end.

Definition arg_of (better : xq -> xq -> bool) (l : list xq) : result nat :=
  match arg_best better 0 None l with
  | Some (i, _) => Ok i
  | None => Raise (mk_exn ValueError "attempt to get argmax of an empty sequence")
  end.

(** [pd.DataFrame(records)] for a list of dicts: the columns are the keys
    in order of first appearance; a field that is missing or of another
    type is empty, zero or NaN. *)
Definition field_str (k : string) (d : dict (json xq)) : string :=
  match dict_get k d with Some (JStr s) => s | _ => EmptyString end.
Definition field_int (k : string) (d : dict (json xq)) : Z :=
  match dict_get k d with Some (JInt z) => z | _ => 0%Z end.
Definition field_num (k : string) (d : dict (json xq)) : xq :=
  match dict_get k d with
  | Some (JInt z) => Fin (inject_Z z)
  | Some (JFloat x) => x
  | _ => NaN
  end.

Definition row_of (d : dict (json xq)) : Row xq :=
  mk_row (field_str "state" d) (field_str "district" d) (field_str "crop" d)
         (field_int "year" d) (field_num "annual_rainfall_mm" d)
         (field_num "production_tonnes" d).

Definition keys_of (x : json xq) : list string :=
  match x with JDict d => map fst d | _ => [] end.

Definition xframe (records : json xq) : result (DataFrame xq) :=
  match records with
  | JList l =>
      if forallb is_dict l then
        Ok (mk_df (unique (flat_map keys_of l))
                  (map (fun x => match x with JDict d => row_of d | _ => row_of [] end) l))
      else Raise (mk_exn TypeError "records are not dicts")
  | _ => Raise (mk_exn ValueError "DataFrame constructor not properly called!")
  end.

Definition kernel (std : list xq -> xq)
    (pearson : list xq -> list xq -> result (xq * xq)) : Kernel xq :=
  {| of_Q := Fin;
     of_Z := fun z => Fin (inject_Z z);
     fmul := xmul;
     fdiv := xdiv;
     fgt := xgt;
     flt := xlt;
     fabs := xabs;
     is_zero := xis_zero;
     series_sum := xsum;
     series_mean := xmean;
     series_median := xmedian;
     series_min := xmin;
     series_max := xmax;
     series_std := std;
     pct_change := xpct_change;
     sort_values_desc := xsort_desc;
     idxmax := arg_of xgt;
     idxmin := arg_of xlt;
     pearsonr := pearson;
     frame_of_records := xframe |}.

End XQ.

(* ================================================================== *)
(** * Part III.  The vocabulary of the statements                      *)
(* ================================================================== *)

Module Spec.

Import Text QueryParsing.

(** A list of integers that increases strictly. *)
Definition increasing (l : list Z) : Prop := StronglySorted Z.lt l.

Section Queries.
Context {U : Unicode}.

(** The text does not begin with a digit. *)
Definition no_leading_digit (s : text) : Prop :=
  match s with
  | [] => True
  | c :: _ => is_digit c = false
  end.

(** The query holds no year the pattern of [_extract_years] finds, no
    [last N years] and no decade. *)
Definition no_explicit_year (query : text) : Prop :=
  findall match_year_at 0 false query = [].
Definition no_last_n_years (query : text) : Prop :=
  search match_last_n_at (lower query) = None.
Definition no_decade (query : text) : Prop :=
  search match_decade_at (lower query) = None.

(** The lowered query holds the lowered name of a state or of a crop. *)
Definition names_state (query : text) (state : string) : Prop :=
  contains (lower (lit state)) (lower query) = true.
Definition names_crop (query : text) (crop : string) : Prop :=
  contains (lower (lit crop)) (lower query) = true.

(** The query holds an abbreviation as a word of its own: between blanks
    or before a comma. *)
Definition holds_abbreviation (query : text) (abbr : string) : Prop :=
  abbr_in_query abbr query = true.

(** The query holds the name of a crop category. *)
Definition names_category (query : text) (category : string) : Prop :=
  contains (lit category) (lower query) = true.

(** The text holds a digit. *)
Definition has_digit (s : text) : bool := existsb is_digit s.

(** The text is made of digits. *)
Definition digits_only (s : text) : Prop :=
  forall c, In c s -> is_digit c = true.

(** The leftmost [last N years] of the query has the digits [g] for N. *)
Definition last_n_years (query g : text) : Prop :=
  search match_last_n_at (lower query) = Some g.

End Queries.

(** The name holds characters below 128 only. *)
Definition plain (name : string) : bool :=
  forallb (fun c => (c <? 128)%N) (Text.lit name).

(** The number of distinct years in a frame. *)
Definition distinct_years {F} (df : Pandas.DataFrame F) : nat :=
  List.length (nodup Z.eq_dec (map Pandas.year (Pandas.rows df))).

(** The six analyses of [AnalyticsEngine]. *)
Definition analysis_routines {F} `{Kernel F}
    : list (ParsedQuery -> Types.DataResults F
            -> Py.result (AnalyticsEngine.Analysis F)) :=
  [ AnalyticsEngine.compare_analysis; AnalyticsEngine.top_n_analysis;
    AnalyticsEngine.trend_analysis; AnalyticsEngine.correlation_analysis;
    AnalyticsEngine.general_analysis; AnalyticsEngine.district_analysis ].

(** The request did not bring a decoded body. *)
Definition failed {F} (r : DataFetcher.Response F) : Prop :=
  match r with
  | DataFetcher.Body _ => False
  | _ => True
  end.

(** Every file of the cache directory that holds JSON holds a dict that is
    not empty: what [_write_cache] is given to write. *)
Definition holds_payloads {F} (w : DataFetcher.World F) : Prop :=
  forall path f j,
    Py.dict_get path (DataFetcher.files w) = Some f ->
    DataFetcher.content f = Some j ->
    exists d, j = Json.JDict d /\ d <> [].

(** The cache file at [path], if it holds JSON, holds a dict that is not
    empty. *)
Definition holds_payload_at {F} (path : string) (w : DataFetcher.World F)
    : Prop :=
  forall f j,
    Py.dict_get path (DataFetcher.files w) = Some f ->
    DataFetcher.content f = Some j ->
    exists d, j = Json.JDict d /\ d <> [].

(** The [state] filter, when there is one, is a string. *)
Definition textual_state (filters : Py.dict Types.pyval) : Prop :=
  match Py.dict_get "state" filters with
  | Some (Types.PStr _) | None => True
  | Some _ => False
  end.

Section Fetching.
Import DataFetcher.
Context {F : Type} {kernel : Kernel F} (env : Env).

(** The cache file of a request. *)
Definition path_of (endpoint : string) (filters : Py.dict Types.pyval)
    : string :=
  _get_cache_path env (_get_cache_key env endpoint (get_api_params env filters)).

(** The request a live fetch sends. *)
Definition request_of (url : string) (filters : Py.dict Types.pyval)
    : Request :=
  mk_request url (get_api_params env filters) Config.API_TIMEOUT.

(** The world as it is when the answer to that request comes: the rate
    limit has been waited for and the request is in the list of those
    sent. *)
Definition asked (url : string) (filters : Py.dict Types.pyval)
    (w : World F) : World F :=
  set_sent (sent (_check_rate_limit w) ++ [request_of url filters])
           (_check_rate_limit w).

(** The cache holds no entry for the request that is young enough and can
    be read. *)
Definition no_fresh_entry (endpoint : string) (filters : Py.dict Types.pyval)
    (w : World F) : Prop :=
  _is_cache_valid (path_of endpoint filters) w = true ->
  _read_cache (path_of endpoint filters) w = None.

(** The answer to that request. *)
Definition answer_to (url : string) (filters : Py.dict Types.pyval)
    (w : World F) : Response F :=
  network (asked url filters w) (sent (asked url filters w)).
End Fetching.

Section Raising.
Import Py DataFetcher QueryEngine.
Context {U : Unicode} {F : Type} {kernel : Kernel F} (env : Env)
  (ui : Presentation F).

(** A step of the pipeline of [process_query], run on [query] from the
    world [w], raises [e] and leaves the world [w']: the fetching, the
    analysis, the charts or the answer, each after the steps before it
    returned.  Parsing the query and collecting the sources are
    functions that return. *)
Inductive step_raises (query : text) (w : World F) (e : exn)
    (w' : World F) : Prop :=
| raise_in_fetch :
    _fetch_data_for_query env
      (QueryParsing._parse_query (year_of env (clock w)) query) w
    = (Raise e, w') ->
    step_raises query w e w'
| raise_in_analysis (dr : Types.DataResults F) :
    _fetch_data_for_query env
      (QueryParsing._parse_query (year_of env (clock w)) query) w
    = (Ok dr, w') ->
    _analyze_data (QueryParsing._parse_query (year_of env (clock w)) query) dr
    = Raise e ->
    step_raises query w e w'
| raise_in_charts (dr : Types.DataResults F)
    (a : AnalyticsEngine.Analysis F) :
    _fetch_data_for_query env
      (QueryParsing._parse_query (year_of env (clock w)) query) w
    = (Ok dr, w') ->
    _analyze_data (QueryParsing._parse_query (year_of env (clock w)) query) dr
    = Ok a ->
    _generate_visualizations ui
      (QueryParsing._parse_query (year_of env (clock w)) query) a
    = Raise e ->
    step_raises query w e w'
| raise_in_answer (dr : Types.DataResults F)
    (a : AnalyticsEngine.Analysis F) (charts : list (chart ui)) :
    _fetch_data_for_query env
      (QueryParsing._parse_query (year_of env (clock w)) query) w
    = (Ok dr, w') ->
    _analyze_data (QueryParsing._parse_query (year_of env (clock w)) query) dr
    = Ok a ->
    _generate_visualizations ui
      (QueryParsing._parse_query (year_of env (clock w)) query) a
    = Ok charts ->
    _generate_answer ui
      (QueryParsing._parse_query (year_of env (clock w)) query) a
    = Raise e ->
    step_raises query w e w'.
End Raising.

(** The ways of writing the decade that [_extract_years] knows. *)
Definition decade_phrases : list string :=
  [ "over decade"; "over the decade"; "over last decade"; "over past decade";
    "over the last decade"; "over the past decade" ].

(** A computation that leaves the world as it found it: it sends no
    request, writes no file and does not sleep. *)
Definition leaves_world {F A} (c : DataFetcher.M F A) : Prop :=
  forall w, snd (c w) = w.

(** The filters of the fetch [check_api_status] makes. *)
Definition status_filters : Py.dict Types.pyval := [("limit", Types.PInt 1)].

(** Every endpoint of the configuration reported as down. *)
Definition all_down : Py.dict bool :=
  map (fun e => (fst e, false)) Config.API_ENDPOINTS.

(** The sentence [_generate_general_answer] gives for a result without a
    summary. *)
Definition no_answer : string :=
  "I found some data but couldn't generate a comprehensive answer. Please refine your query.".

(** Two runs of an analysis find the same: both raise the same
    exception, or both return, with the same body, confidence and number of
    data points. *)
Definition same_findings {F} `{Kernel F}
    (r r' : Py.result (AnalyticsEngine.Analysis F)) : Prop :=
  match r, r' with
  | Py.Ok a, Py.Ok a' =>
      AnalyticsEngine.body a = AnalyticsEngine.body a'
      /\ AnalyticsEngine.confidence a = AnalyticsEngine.confidence a'
      /\ AnalyticsEngine.data_points a = AnalyticsEngine.data_points a'
  | Py.Raise e, Py.Raise e' => e = e'
  | _, _ => False
  end.

(** The five intents [_detect_intent] can give. *)
Definition intents : list string :=
  ["compare"; "top"; "trend"; "correlation"; "retrieve"].

End Spec.

(** ** Sample inputs *)

(** A kernel, Unicode tables, an environment and a few worlds and frames on
    which the model is run.  The tables and the functions that stand for
    [hashlib], [json.dumps], [hash], [str.strip], the clock's calendar, the
    standard deviation and [pearsonr] are stand-ins: what is proved holds for
    every choice of them. *)
Module Sample.

Import Py Json Pandas Types AnalyticsEngine DataFetcher QueryEngine XQ.

#[export] Instance K : Kernel xq :=
  XQ.kernel (fun _ => NaN) (fun _ _ => Ok (Fin (1 # 2), Fin (1 # 100))).

(** Tables that know the characters below 128 and no other: above 127
    nothing is a digit, a space or a letter, and lowering changes
    nothing.  They are not the tables of Python; they serve to run the
    model on queries of characters below 128, for which every table gives
    the same. *)
Definition ascii_decimal (c : Text.char) : option Z :=
  if Text.ascii_digit c then Some (Z.of_N c - 48) else None.

Definition ascii_caseless (p c : Text.char) : bool :=
  (Text.ascii_lower p =? Text.ascii_lower c)%N.

#[export, refine] Instance tables : Text.Unicode :=
  {| Text.decimal := ascii_decimal;
     Text.is_space := Text.ascii_space;
     Text.is_alnum := Text.ascii_alnum;
     Text.lower := map Text.ascii_lower;
     Text.caseless := ascii_caseless |}.
Proof.
  - reflexivity.
  - intros c v. unfold ascii_decimal, Text.ascii_digit, Text.between.
    destruct (N.leb_spec 48 c) as [Ha|Ha], (N.leb_spec c 57) as [Hb|Hb];
      simpl; intros E; try discriminate E.
    inversion E. lia.
  - intros c v. unfold ascii_decimal, Text.ascii_alnum.
    destruct (Text.ascii_digit c); [intros _|discriminate].
    now rewrite orb_true_r.
  - reflexivity.
  - intros c Hs.
    assert (Hle : (c <= 32)%N).
    { unfold Text.ascii_space, Text.between in Hs.
      destruct (N.leb_spec c 13) as [Ha|Ha], (N.leb_spec c 31) as [Hb|Hb],
        (N.eqb_spec c 32) as [Hc|Hc]; lia. }
    unfold Text.ascii_alnum, Text.ascii_upper, Text.ascii_small,
      Text.ascii_digit, Text.between.
    destruct (N.leb_spec 65 c) as [Ha|Ha], (N.leb_spec 97 c) as [Hb|Hb],
      (N.leb_spec 48 c) as [Hc|Hc]; simpl; try reflexivity; lia.
  - reflexivity.
  - reflexivity.
  - reflexivity.
Defined.

(** [str.strip] on the blanks below 128. *)
Definition blank (c : ascii) : bool := Text.ascii_space (N_of_ascii c).

Fixpoint lstrip (s : string) : string :=
  match s with
  | EmptyString => EmptyString
  | String c r => if blank c then lstrip r else s
  end.

Fixpoint rstrip (s : string) : string :=
  match s with
  | EmptyString => EmptyString
  | String c r =>
      match rstrip r with
      | EmptyString => if blank c then EmptyString else String c EmptyString
      | r' => String c r'
      end
  end.

Definition strip (s : string) : string := rstrip (lstrip s).

Definition dumps (d : dict pyval) : string :=
  Str.join "&" (map (fun kv => fst kv ++ "=" ++ py_str (snd kv)) d).

Definition env_with (key : string) : Env :=
  mk_env key "data/cache" (fun s => s) dumps
         (fun s => Z.of_nat (String.length s))
         (fun _ => "2026-01-01T00:00:00") (fun _ => 2026) strip.

(** No API key: demo mode. *)
Definition env_demo : Env := env_with "YOUR_API_KEY_HERE".
(** An API key is set. *)
Definition env_live : Env := env_with "key".

(** An empty cache directory at time 100. *)
Definition world (net : list Request -> Response xq) : World xq :=
  mk_world 100 [] true [] [] net.

Definition net_down : list Request -> Response xq :=
  fun _ => Failed "connection refused".

(** Two records that lack the measures. *)
Definition net_bare : list Request -> Response xq :=
  fun _ =>
    Body (JDict [("records",
                  JList [JDict [("state", JStr "Punjab"); ("year", JInt 2020)];
                         JDict [("state", JStr "Punjab"); ("year", JInt 2021)]])]).

Definition ui : Presentation xq :=
  mk_presentation xq K unit (fun _ _ => Ok []) (fun _ _ => Ok "answer").

Definition punjab : dict pyval := [("state", PStr "Punjab")].

Definition rain_url : string :=
  "https://api.data.gov.in/resource/9ef84268-d588-465a-a308-a864a43d0070".

(** A payload as [fetch_data] writes it. *)
Definition payload : dict (json xq) :=
  [ ("data", JDict [("records", JList [])]);
    ("endpoint", JStr "imd_rainfall");
    ("from_cache", JBool false);
    ("records_count", JInt 0) ].

(** The cache after [payload] was written at time 100 for the rainfall of
    Punjab, seen at a later time. *)
Definition cached_at (now : Q) (net : list Request -> Response xq) : World xq :=
  set_clock now
    (_write_cache (Spec.path_of env_live "imd_rainfall" punjab)
                  (JDict payload) (world net)).

(** A [state] filter that is a number. *)
Definition five : dict pyval := [("state", PInt 5)].

(** The cache file of the rainfall of Punjab holds a JSON list, written at
    time 100 and seen at a later time with the network down. *)
Definition listed_at (now : Q) : World xq :=
  set_clock now
    (_write_cache (Spec.path_of env_live "imd_rainfall" punjab)
                  (JList [JInt 1]) (world net_down)).

(** One record of rainfall. *)
Definition net_rain : list Request -> Response xq :=
  fun _ =>
    Body (JDict [("records",
                  JList [JDict [("state", JStr "Punjab"); ("year", JInt 2020);
                                ("annual_rainfall_mm", JInt 600)]])]).

(** The world after the rainfall of Punjab was fetched from the API at
    time 100, and that world at a later time. *)
Definition fetched : World xq :=
  snd (fetch_data env_live "imd_rainfall" punjab (world net_rain)).

Definition fetched_at (now : Q) : World xq := set_clock now fetched.

Definition citation : Citation :=
  mk_citation "n" "e" "u" [] "t" "s" "p".

Definition rain_row (y : Z) (mm : Q) : Row xq :=
  mk_row "Punjab" "" "" y (Fin mm) NaN.
Definition prod_row (y : Z) (t : Q) : Row xq :=
  mk_row "Punjab" "" "Wheat" y NaN (Fin t).

Definition rain_frame : DataFrame xq :=
  mk_df ["state"; "year"; "annual_rainfall_mm"]
    [ rain_row 2018 600; rain_row 2019 606; rain_row 2020 606;
      rain_row 2021 600; rain_row 2022 610; rain_row 2023 620 ].

Definition prod_frame : DataFrame xq :=
  mk_df ["state"; "crop"; "year"; "production_tonnes"]
    [ prod_row 2018 100; prod_row 2019 110; prod_row 2020 121;
      prod_row 2021 130; prod_row 2022 140; prod_row 2023 150 ].

Definition both : DataResults xq :=
  [ ("rainfall", mk_info rain_frame citation);
    ("production", mk_info prod_frame citation) ].

(** Rainfall and production that share two years only. *)
Definition two_years : DataResults xq :=
  [ ("rainfall",
     mk_info (mk_df ["state"; "year"; "annual_rainfall_mm"]
                [rain_row 2018 600; rain_row 2019 606]) citation);
    ("production", mk_info prod_frame citation) ].

Definition rain_only : DataResults xq :=
  [ ("rainfall", mk_info rain_frame citation) ].

Definition pq : ParsedQuery :=
  QueryParsing._parse_query 2026
    (Text.lit "trend of wheat production in Punjab").

(** What [groupby] raises for a frame without the production column. *)
Definition missing_column : exn :=
  mk_exn KeyError "'Column not found: production_tonnes'".

(** Production of one year only, beside six years of rainfall. *)
Definition one_year : DataResults xq :=
  [ ("rainfall", mk_info rain_frame citation);
    ("production",
     mk_info (mk_df ["state"; "crop"; "year"; "production_tonnes"]
                [prod_row 2023 150; prod_row 2023 160]) citation) ].

(** A hundred requests were sent at time 50; it is now time 100. *)
Definition busy : World xq :=
  mk_world 100 [] true (List.repeat (50 : Q) 100) [] net_down.

(** The cache after [payload] was written at time 100 for the fetch of the
    status check, seen at a later time with the network down. *)
Definition status_cached_at (now : Q) : World xq :=
  set_clock now
    (_write_cache (Spec.path_of env_live "imd_rainfall" Spec.status_filters)
                  (JDict payload) (world net_down)).

(** Stand-ins for the texts of the answer templates, and a presentation
    that answers with the templates. *)
Definition texts : AnswerTemplates.Texts xq :=
  AnswerTemplates.mk_texts xq K
    (fun _ _ => Ok "comparison") (fun _ _ => Ok "ranking")
    (fun _ _ => Ok "trend") (fun _ _ => Ok "summary").

Definition ui_templates : Presentation xq :=
  mk_presentation xq K unit (fun _ _ => Ok [])
    (AnswerTemplates._generate_answer texts).

Definition pq_top : ParsedQuery :=
  QueryParsing._parse_query 2026 (Text.lit "top 2 crops in Punjab").

(** Production of three crops in two states. *)
Definition crop_row (st c : string) (t : Q) : Row xq :=
  mk_row st "" c 2023 NaN (Fin t).

Definition crops_frame : DataFrame xq :=
  mk_df ["state"; "crop"; "year"; "production_tonnes"]
    [ crop_row "Punjab" "Wheat" 10; crop_row "Kerala" "Rice" 20;
      crop_row "Punjab" "Rice" 30; crop_row "Punjab" "Maize" 5 ].

Definition crops_only : DataResults xq :=
  [ ("production", mk_info crops_frame citation) ].

(** The two entries of [both] with district data beside them. *)
Definition with_district : DataResults xq :=
  (both ++ [("district_Punjab", mk_info crops_frame citation)])%list.

End Sample.

(* ================================================================== *)
(** * Part IV.  Properties                                             *)
(* ================================================================== *)

(** ** Searching a text *)

Section SearchFacts.
Import Text.
Context {A : Type} (m : text -> option A).

Lemma skip_app (pre rest : text) :
  skip (List.length pre) (pre ++ rest)%list = rest.
Proof. induction pre as [|c pre IH]; simpl; auto. Qed.

(** A search passes over a prefix in which no match begins. *)
Lemma search_past (pre rest : text) :
  (forall k, (k < List.length pre)%nat ->
             m (skip k (pre ++ rest)%list) = None) ->
  search m (pre ++ rest)%list = search m rest.
Proof.
  induction pre as [|c pre IH]; intros Hno.
  - reflexivity.
  - pose proof (Hno 0%nat ltac:(simpl; lia)) as H0.
    cbn [app skip] in H0. cbn [app search]. rewrite H0. apply IH. intros k Hk.
    apply (Hno (S k)). simpl. lia.
Qed.

Lemma search_here (s : text) (x : A) : m s = Some x -> search m s = Some x.
Proof. intros H. destruct s; simpl; rewrite H; reflexivity. Qed.
End SearchFacts.

Lemma span_stop (p : Text.char -> bool) (s : Text.text) :
  match s with
  | [] => True
  | c :: _ => p c = false
  end ->
  Text.span p s = ([], s).
Proof.
  intros H. destruct s as [|c r]; simpl; auto. now rewrite H.
Qed.

(** ** What the tables say of the literals *)

Section Literals.
Import Text.
Context {U : Unicode}.

Lemma is_digit_below_128 (c : char) :
  (c < 128)%N -> is_digit c = ascii_digit c.
Proof.
  intros H. unfold is_digit. rewrite (decimal_below_128 c H).
  destruct (ascii_digit c); reflexivity.
Qed.

Lemma digit_val_below_128 (c : char) :
  (c < 128)%N -> ascii_digit c = true -> digit_val c = Z.of_N c - 48.
Proof.
  intros H Hd. unfold digit_val. rewrite (decimal_below_128 c H), Hd.
  reflexivity.
Qed.

Lemma digit_val_range (c : char) : 0 <= digit_val c <= 9.
Proof.
  unfold digit_val. destruct (decimal c) as [v|] eqn:E; [|lia].
  exact (decimal_range c v E).
Qed.

Lemma is_word_below_128 (c : char) :
  (c < 128)%N -> is_word c = (ascii_alnum c || (c =? 95)%N)%bool.
Proof. intros H. unfold is_word. now rewrite (is_alnum_below_128 c H). Qed.

Lemma lit_below_128 (s : string) :
  forallb (fun c => (c <? 128)%N) (lit s) = true -> below_128 (lit s).
Proof.
  intros H. apply Forall_forall. intros c Hc.
  rewrite forallb_forall in H. now apply N.ltb_lt, H.
Qed.

(** [lower] of a literal of the source. *)
Lemma lower_lit (s : string) :
  forallb (fun c => (c <? 128)%N) (lit s) = true ->
  lower (lit s) = map ascii_lower (lit s).
Proof. intros H. apply lower_below_128, lit_below_128, H. Qed.

End Literals.

(** ** Top-N extraction *)

Section TopN.
Import Text QueryParsing Spec.
Context {U : Unicode}.

Lemma match_top_3 (post : text) :
  no_leading_digit post ->
  match_top_at (lit "top 3" ++ post)%list = Some (lit "3").
Proof.
  intros H. unfold match_top_at.
  change (lit "top 3" ++ post)%list
    with (lit "top" ++ 32%N :: 51%N :: post)%list.
  cbn [lit list_ascii_of_string map app strip_prefix].
  change (N_of_ascii "t") with 116%N. change (N_of_ascii "o") with 111%N.
  change (N_of_ascii "p") with 112%N. cbn [N.eqb Pos.eqb].
  cbn [span]. rewrite (is_space_below_128 32%N) by reflexivity.
  rewrite (is_space_below_128 51%N) by reflexivity.
  cbn [ascii_space between N.leb N.compare Pos.compare Pos.compare_cont
       N.eqb Pos.eqb andb orb].
  cbn [span]. rewrite (is_digit_below_128 51%N) by reflexivity.
  cbn [ascii_digit between N.leb N.compare Pos.compare Pos.compare_cont andb].
  rewrite (span_stop is_digit post H). reflexivity.
Qed.

Lemma int_of_3 : int_of_digits (lit "3") = 3.
Proof.
  unfold int_of_digits. cbn [lit list_ascii_of_string map fold_left].
  change (N_of_ascii "3") with 51%N.
  rewrite (digit_val_below_128 51%N) by reflexivity. reflexivity.
Qed.

(** C7, as the code has it: when the leftmost place of the lowered query
    at which [top], blanks and a digit begin reads ["top 3"] and no digit
    follows the 3, [_extract_top_n] returns 3. *)
Theorem extract_top_n_leftmost_top_3 (query pre post : text) :
  lower query = (pre ++ lit "top 3" ++ post)%list ->
  (forall k, (k < List.length pre)%nat ->
             match_top_at (skip k (lower query)) = None) ->
  no_leading_digit post ->
  _extract_top_n query = 3.
Proof.
  intros Hq Hleft Hpost. unfold _extract_top_n.
  rewrite Hq in *.
  rewrite (search_past match_top_at pre _ Hleft).
  rewrite (search_here match_top_at _ (lit "3") (match_top_3 post Hpost)).
  apply int_of_3.
Qed.

End TopN.

(** ** Year extraction *)

Section Years.
Import Text QueryParsing Spec.
Context {U : Unicode}.

Lemma insert_uniq_In (x y : Z) (l : list Z) :
  In y (insert_uniq x l) <-> y = x \/ In y l.
Proof.
  induction l as [|z l IH]; simpl.
  - intuition.
  - destruct (Z.ltb_spec x z); simpl; [intuition|].
    destruct (Z.eqb_spec x z); simpl.
    + subst. intuition.
    + rewrite IH. intuition.
Qed.

Lemma insert_uniq_increasing (x : Z) (l : list Z) :
  increasing l -> increasing (insert_uniq x l).
Proof.
  unfold increasing.
  induction l as [|z l IH]; simpl; intros Hl.
  - repeat constructor.
  - apply StronglySorted_inv in Hl as [Hl Hz].
    destruct (Z.ltb_spec x z).
    + constructor; [constructor; assumption|].
      constructor; [assumption|].
      eapply Forall_impl; [|exact Hz]. simpl. intros; lia.
    + destruct (Z.eqb_spec x z).
      * constructor; assumption.
      * constructor; [auto|].
        apply Forall_forall. intros y Hy.
        apply insert_uniq_In in Hy as [->|Hy]; [lia|].
        rewrite Forall_forall in Hz. auto.
Qed.

Lemma sorted_set_increasing (l : list Z) : increasing (sorted_set l).
Proof.
  induction l as [|x l IH]; simpl.
  - constructor.
  - apply insert_uniq_increasing, IH.
Qed.

Lemma sorted_set_In (y : Z) (l : list Z) : In y (sorted_set l) <-> In y l.
Proof.
  induction l as [|x l IH]; simpl; [tauto|].
  rewrite insert_uniq_In, IH. intuition.
Qed.

Lemma increasing_NoDup (l : list Z) : increasing l -> NoDup l.
Proof.
  induction 1 as [|x l _ IH Hx]; constructor; auto.
  intros Hin. rewrite Forall_forall in Hx. specialize (Hx _ Hin). lia.
Qed.

(** Sorting a list that increases already changes nothing. *)
Lemma sorted_set_fixed (l : list Z) : increasing l -> sorted_set l = l.
Proof.
  induction 1 as [|x l Hl IH Hx]; simpl; [reflexivity|].
  rewrite IH. destruct l as [|y l]; [reflexivity|]. simpl.
  inversion Hx; subst.
  destruct (Z.ltb_spec x y); [reflexivity|lia].
Qed.

Lemma range_5 (cy : Z) :
  range (cy - 5) cy = [cy - 5; cy - 4; cy - 3; cy - 2; cy - 1].
Proof.
  unfold range. replace (cy - (cy - 5)) with 5 by lia.
  simpl. repeat (f_equal; try lia).
Qed.

Lemma five_years_increasing (cy : Z) :
  increasing [cy - 5; cy - 4; cy - 3; cy - 2; cy - 1].
Proof.
  unfold increasing.
  repeat (constructor; [|repeat (constructor; try lia)]). constructor.
Qed.

(** The list handed to [sorted(set(...))] is never empty: the default sees
    to it. *)
Lemma nonempty_after_default (l : list Z) (cy : Z) :
  (match l with [] => range (cy - 5) cy | _ => l end) <> [].
Proof.
  destruct l; [rewrite range_5|]; discriminate.
Qed.

(** C10: the years [_extract_years] returns are never empty, increase
    strictly and so hold no year twice; a query with no year, no
    [last N years] and no decade gets the five years before the current
    one. *)
Theorem extract_years_shape (current_year : Z) (query : text) :
  _extract_years current_year query <> []
  /\ increasing (_extract_years current_year query)
  /\ NoDup (_extract_years current_year query)
  /\ (no_explicit_year query -> no_last_n_years query -> no_decade query ->
      _extract_years current_year query
      = [current_year - 5; current_year - 4; current_year - 3;
         current_year - 2; current_year - 1]).
Proof.
  unfold _extract_years.
  set (y1 := map int_of_digits (findall match_year_at 0 false query)).
  set (y2 := match search match_last_n_at (lower query) with
             | Some g => _ | None => y1 end).
  set (y3 := match search match_decade_at (lower query) with
             | Some _ => _ | None => y2 end).
  set (y4 := match y3 with [] => _ | _ => y3 end).
  assert (Hne : y4 <> []) by apply nonempty_after_default.
  repeat split.
  - destruct y4 as [|x l] eqn:E; [congruence|].
    intros Hnil.
    assert (Hin : In x (sorted_set (x :: l))) by (apply sorted_set_In; now left).
    rewrite Hnil in Hin. destruct Hin.
  - apply sorted_set_increasing.
  - apply increasing_NoDup, sorted_set_increasing.
  - intros Hy Hl Hd. unfold no_explicit_year, no_last_n_years, no_decade in *.
    subst y4 y3 y2 y1. rewrite Hd, Hl, Hy. simpl map. cbv iota.
    rewrite range_5. apply sorted_set_fixed, five_years_increasing.
Qed.

End Years.

(** ** States and crops *)

Section Entities.
Import Text QueryParsing Spec.
Context {U : Unicode}.

Lemma mem_In (x : string) (l : list string) : Str.mem x l = true <-> In x l.
Proof.
  unfold Str.mem. rewrite existsb_exists. split.
  - intros [y [Hy E]]. apply String.eqb_eq in E. now subst.
  - intros H. exists x. split; [assumption|apply String.eqb_refl].
Qed.

Lemma filter_exactly_two {A} (f : A -> bool) (L : list A) (a b : A) :
  NoDup L -> In a L -> In b L -> a <> b ->
  (forall x, In x L -> (f x = true <-> x = a \/ x = b)) ->
  Permutation (filter f L) [a; b].
Proof.
  intros HL Ha Hb Hab Hf.
  apply NoDup_Permutation.
  - now apply NoDup_filter.
  - constructor; [simpl; intuition congruence|].
    constructor; [simpl; tauto|constructor].
  - intros x. rewrite filter_In. simpl. split.
    + intros [Hx Hfx]. apply Hf in Hfx; [intuition|assumption].
    + intros [<-|[<-|[]]]; (split; [assumption|]); apply Hf; auto.
Qed.

Lemma filter_exactly_one {A} (f : A -> bool) (L : list A) (c : A) :
  NoDup L -> In c L ->
  (forall x, In x L -> (f x = true <-> x = c)) ->
  filter f L = [c].
Proof.
  intros HL Hc Hf.
  apply Permutation_length_1_inv, NoDup_Permutation.
  - repeat constructor. simpl. tauto.
  - now apply NoDup_filter.
  - intros x. rewrite filter_In. simpl. split.
    + intros [<-|[]]. split; [assumption|]. now apply Hf.
    + intros [Hx Hfx]. left. symmetry. now apply Hf.
Qed.

Lemma INDIAN_STATES_NoDup : NoDup Config.INDIAN_STATES.
Proof.
  assert (E : nodup string_dec Config.INDIAN_STATES = Config.INDIAN_STATES)
    by (vm_compute; reflexivity).
  rewrite <- E. apply NoDup_nodup.
Qed.

Lemma MAJOR_CROPS_NoDup : NoDup Config.MAJOR_CROPS.
Proof.
  assert (E : nodup string_dec Config.MAJOR_CROPS = Config.MAJOR_CROPS)
    by (vm_compute; reflexivity).
  rewrite <- E. apply NoDup_nodup.
Qed.

(** An abbreviation whose state is found already adds nothing. *)
Lemma abbreviations_idle (query : text) (abbrs : list (string * string))
    (found : list string) :
  (forall abbr full, In (abbr, full) abbrs ->
                     holds_abbreviation query abbr -> In full found) ->
  fold_left (add_abbreviation query) abbrs found = found.
Proof.
  induction abbrs as [|[abbr full] abbrs IH]; intros H; cbn [fold_left];
    [reflexivity|].
  assert (E : add_abbreviation query found (abbr, full) = found).
  { unfold add_abbreviation.
    destruct (abbr_in_query abbr query) eqn:Ha; [|reflexivity].
    assert (Hin : In full found) by (apply (H abbr full); [now left|exact Ha]).
    apply mem_In in Hin. now rewrite Hin. }
  rewrite E. apply IH. intros a f Hin. apply H. now right.
Qed.

(** A category the query does not name adds no crop. *)
Lemma categories_idle (query_lower : text)
    (cats : list (string * list string)) (found : list string) :
  (forall cat l, In (cat, l) cats -> contains (lit cat) query_lower <> true) ->
  fold_left
    (fun (found : list string) (item : string * list string) =>
       let (category, crop_list) := item in
       if contains (lit category) query_lower then (found ++ crop_list)%list
       else found)
    cats found = found.
Proof.
  revert found. induction cats as [|[cat l] cats IH]; intros found H;
    cbn [fold_left]; [reflexivity|].
  destruct (contains (lit cat) query_lower) eqn:E.
  - exfalso. apply (H cat l); [now left|exact E].
  - apply IH. intros c l' Hin. apply (H c l'). now right.
Qed.

(** C3, as the code has it: a query that names exactly two states of the
    list and exactly one crop, holds no abbreviation of another state and
    names no crop category, yields those two states and that crop, in
    whatever order the query has them. *)
Theorem extract_two_states_one_crop (query : text) (s1 s2 c : string) :
  In s1 Config.INDIAN_STATES -> In s2 Config.INDIAN_STATES -> s1 <> s2 ->
  (forall s, In s Config.INDIAN_STATES ->
             (names_state query s <-> s = s1 \/ s = s2)) ->
  (forall abbr full, In (abbr, full) Config.STATE_ABBREVIATIONS ->
                     holds_abbreviation query abbr -> full = s1 \/ full = s2) ->
  In c Config.MAJOR_CROPS ->
  (forall x, In x Config.MAJOR_CROPS -> (names_crop query x <-> x = c)) ->
  (forall cat l, In (cat, l) Config.CROP_CATEGORIES ->
                 ~ names_category query cat) ->
  Permutation (_extract_states query) [s1; s2]
  /\ _extract_crops query = [c].
Proof.
  intros H1 H2 Hne Hst Hab Hc Hcr Hcat. split.
  - unfold _extract_states.
    pose proof (filter_exactly_two
                  (fun state => contains (lower (lit state)) (lower query))
                  Config.INDIAN_STATES s1 s2 INDIAN_STATES_NoDup H1 H2 Hne Hst)
      as Hperm.
    rewrite abbreviations_idle; [exact Hperm|].
    intros abbr full Hin Hholds.
    apply (Permutation_in _ (Permutation_sym Hperm)).
    destruct (Hab abbr full Hin Hholds) as [->| ->]; simpl; auto.
  - unfold _extract_crops.
    rewrite categories_idle by exact Hcat.
    rewrite (filter_exactly_one _ Config.MAJOR_CROPS c MAJOR_CROPS_NoDup Hc Hcr).
    reflexivity.
Qed.

(** A statement about every element of a list that is written out is
    settled by running a test over the list. *)
Lemma checked_iff (f : string -> bool) (targets L : list string) :
  forallb (fun s => Bool.eqb (f s) (Str.mem s targets)) L = true ->
  forall s, In s L -> (f s = true <-> In s targets).
Proof.
  intros Hall s Hs. rewrite forallb_forall in Hall.
  specialize (Hall s Hs). apply Bool.eqb_prop in Hall.
  rewrite Hall. apply mem_In.
Qed.

Lemma checked_never {A} (f : A -> bool) (L : list A) :
  forallb (fun x => negb (f x)) L = true ->
  forall x, In x L -> f x <> true.
Proof.
  intros Hall x Hx. rewrite forallb_forall in Hall.
  specialize (Hall x Hx). destruct (f x); [discriminate Hall|discriminate].
Qed.

End Entities.

(** ** Grouping by year *)

Section GroupFacts.
Import Pandas Spec.
Context {V : Type}.

Lemma add_to_group_keys (k : Z) (v : V) (g : list (Z * list V)) (x : Z) :
  In x (map fst (add_to_group Z.eqb Z.leb k v g)) <-> x = k \/ In x (map fst g).
Proof.
  induction g as [|[k' vs] g IH]; simpl.
  - intuition.
  - destruct (Z.eqb_spec k k'); simpl; [subst; intuition|].
    destruct (Z.leb_spec k k'); simpl; [intuition|].
    rewrite IH. intuition.
Qed.

Lemma add_to_group_sorted (k : Z) (v : V) (g : list (Z * list V)) :
  increasing (map fst g) -> increasing (map fst (add_to_group Z.eqb Z.leb k v g)).
Proof.
  unfold increasing.
  induction g as [|[k' vs] g IH]; simpl; intros Hg.
  - repeat constructor.
  - apply StronglySorted_inv in Hg as [Hg Hk'].
    destruct (Z.eqb_spec k k'); simpl; [constructor; assumption|].
    destruct (Z.leb_spec k k'); simpl.
    + constructor; [constructor; assumption|].
      constructor; [lia|].
      eapply Forall_impl; [|exact Hk']. simpl. intros; lia.
    + constructor; [auto|].
      apply Forall_forall. intros y Hy.
      apply add_to_group_keys in Hy as [->|Hy]; [lia|].
      rewrite Forall_forall in Hk'. auto.
Qed.

Lemma fold_groups (l : list (Z * V)) (g : list (Z * list V)) :
  increasing (map fst g) ->
  let g' := fold_left (fun g kv => add_to_group Z.eqb Z.leb (fst kv) (snd kv) g) l g in
  increasing (map fst g')
  /\ forall x, In x (map fst g') <-> In x (map fst l) \/ In x (map fst g).
Proof.
  revert g. induction l as [|[k v] l IH]; simpl; intros g Hg.
  - split; [assumption|]. intuition.
  - destruct (IH (add_to_group Z.eqb Z.leb k v g) (add_to_group_sorted k v g Hg)) as [Hs Hin].
    split; [assumption|].
    intros x. rewrite Hin, add_to_group_keys. intuition.
Qed.

(** There is one group for each distinct key. *)
Lemma groups_length (l : list (Z * V)) :
  List.length (groups Z.eqb Z.leb l)
  = List.length (nodup Z.eq_dec (map fst l)).
Proof.
  destruct (fold_groups l [] ltac:(constructor)) as [Hs Hin].
  fold (groups Z.eqb Z.leb l) in Hs, Hin.
  rewrite <- (length_map fst (groups Z.eqb Z.leb l)).
  apply Permutation_length, NoDup_Permutation.
  - now apply increasing_NoDup.
  - apply NoDup_nodup.
  - intros x. rewrite Hin, nodup_In. simpl. tauto.
Qed.

End GroupFacts.

Lemma by_year_length {F R} (agg : list F -> R) (l : list (Z * F)) :
  List.length (Pandas.by_year agg l) = List.length (nodup Z.eq_dec (map fst l)).
Proof.
  unfold Pandas.by_year, Pandas.aggregate. rewrite length_map.
  apply groups_length.
Qed.

(** ** The analyses *)

Section AnalysisFacts.
Import Py Pandas Types AnalyticsEngine Spec.
Local Open Scope py_scope.
Context {F : Type} {kernel : Kernel F}.

Lemma len_nonneg (df : DataFrame F) : 0 <= len df.
Proof. unfold len. lia. Qed.

Lemma empty_false (df : DataFrame F) :
  rows df <> [] -> columns df <> [] -> empty df = false.
Proof.
  unfold empty. destruct (rows df), (columns df); congruence.
Qed.

Lemma has_column_nonempty (c : string) (df : DataFrame F) :
  has_column c df = true -> columns df <> [].
Proof.
  unfold has_column, Str.mem. destruct (columns df); [discriminate|discriminate].
Qed.

(** *** Confidence *)

Lemma confidence_monotone (a b : Z) :
  0 <= a <= b -> (_calculate_confidence a <= _calculate_confidence b)%Q.
Proof.
  intros H. unfold _calculate_confidence.
  repeat match goal with
         | |- context [?x =? ?y] => destruct (Z.eqb_spec x y)
         | |- context [?x <? ?y] => destruct (Z.ltb_spec x y)
         end;
    try lia; unfold Qle; simpl; lia.
Qed.

Lemma confidence_values (n : Z) :
  In (_calculate_confidence n) [0%Q; 5 # 10; 7 # 10; 85 # 100; 95 # 100].
Proof.
  unfold _calculate_confidence.
  repeat match goal with
         | |- context [?x =? ?y] => destruct (x =? y)
         | |- context [?x <? ?y] => destruct (x <? y)
         end; simpl; tauto.
Qed.

Lemma confidence_zero (n : Z) : (_calculate_confidence n == 0)%Q <-> n = 0.
Proof.
  unfold _calculate_confidence.
  destruct (Z.eqb_spec n 0); [split; [auto|reflexivity]|].
  split; [|contradiction].
  repeat match goal with
         | |- context [?x <? ?y] => destruct (x <? y)
         end; unfold Qeq; simpl; lia.
Qed.

(** Takes a computation in [result] apart, bind by bind. *)
Ltac step_result :=
  match goal with
  | H : Ok _ = Ok _ |- _ => inversion H; subst; clear H
  | H : Raise _ = Ok _ |- _ => discriminate H
  | H : Py.bind ?c _ = Ok _ |- _ =>
      let E := fresh "E" in destruct c eqn:E; simpl in H
  | H : match ?c with _ => _ end = Ok _ |- _ =>
      let E := fresh "E" in destruct c eqn:E; simpl in H
  | H : (let (_, _) := ?c in _) = Ok _ |- _ =>
      let E := fresh "E" in destruct c eqn:E; simpl in H
  end.

Lemma trend_of_points t vc val agg (df : DataFrame F) p :
  trend_of t vc val agg df = Ok p -> 0 <= snd p.
Proof.
  unfold trend_of. intros H. pose proof (len_nonneg df).
  repeat step_result; simpl; lia.
Qed.

Lemma correlate_points (r p : DataFrame F) x :
  correlate r p = Ok x -> 0 <= snd x.
Proof.
  unfold correlate. intros H.
  repeat step_result; simpl; lia.
Qed.

Lemma general_points (l : DataResults F) (acc : dict GeneralEntry * Z) :
  0 <= snd acc -> 0 <= snd (fold_left general_step l acc).
Proof.
  revert acc. induction l as [|item l IH]; simpl; intros acc H; [assumption|].
  apply IH. unfold general_step.
  pose proof (len_nonneg (dataframe (snd item))).
  destruct (negb (empty (dataframe (snd item)))); simpl; lia.
Qed.

Lemma district_points (l : DataResults F)
    (acc : result (dict DistrictEntry * Z)) a :
  (forall b, acc = Ok b -> 0 <= snd b) ->
  fold_left district_step l acc = Ok a -> 0 <= snd a.
Proof.
  revert acc. induction l as [|item l IH]; simpl; intros acc Hacc H.
  - auto.
  - apply IH with (acc := district_step acc item); [|exact H].
    intros b Hb. unfold district_step in Hb.
    pose proof (len_nonneg (dataframe (snd item))).
    destruct acc as [a0|e]; simpl in Hb; [|discriminate Hb].
    specialize (Hacc a0 eq_refl).
    repeat step_result; simpl; lia.
Qed.

Lemma routine_confidence routine pq (dr : DataResults F) a :
  In routine analysis_routines -> routine pq dr = Ok a ->
  confidence a = _calculate_confidence (data_points a) /\ 0 <= data_points a.
Proof.
  intros Hin H. simpl in Hin.
  destruct Hin as [<-|[<-|[<-|[<-|[<-|[<-|[]]]]]]].
  - unfold compare_analysis in H.
    destruct (dict_get "rainfall" dr) as [ri|], (dict_get "production" dr) as [pi|];
      try pose proof (len_nonneg (dataframe ri));
      try pose proof (len_nonneg (dataframe pi));
      repeat step_result; simpl; split; try reflexivity; lia.
  - unfold top_n_analysis in H.
    destruct (dict_get "rainfall" dr) as [ri|], (dict_get "production" dr) as [pi|];
      try pose proof (len_nonneg (dataframe ri));
      try pose proof (len_nonneg (dataframe pi));
      repeat step_result; simpl; split; try reflexivity; lia.
  - unfold trend_analysis in H.
    destruct (dict_get "production" dr) as [pi|];
      [|destruct (dict_get "rainfall" dr) as [ri|]];
      simpl in H;
      try (destruct (trend_of _ _ _ _ _) eqn:E; simpl in H;
           [apply trend_of_points in E|discriminate H]);
      inversion H; subst; simpl; split; try reflexivity; lia.
  - unfold correlation_analysis in H.
    destruct (dict_get "rainfall" dr) as [ri|], (dict_get "production" dr) as [pi|];
      simpl in H;
      try (destruct (correlate _ _) eqn:E; simpl in H;
           [apply correlate_points in E|discriminate H]);
      inversion H; subst; simpl; split; try reflexivity; lia.
  - unfold general_analysis in H. inversion H; subst; simpl.
    split; [reflexivity|]. apply general_points. simpl. lia.
  - unfold district_analysis in H.
    destruct (fold_left district_step dr (Ok ([], 0))) eqn:E; simpl in H;
      [|discriminate H].
    inversion H; subst; simpl. split; [reflexivity|].
    eapply district_points; [|exact E].
    intros b Hb. inversion Hb; subst. simpl. lia.
Qed.

(** C9: the confidence never decreases as the number of data points
    grows, is one of five values, is zero for no data point and for that
    only; each of the six analyses returns the confidence of the number of
    data points it returns, and that number is not negative. *)
Theorem confidence_of_data_points :
  (forall a b, 0 <= a <= b ->
               (_calculate_confidence a <= _calculate_confidence b)%Q)
  /\ (forall n, In (_calculate_confidence n)
                   [0%Q; 5 # 10; 7 # 10; 85 # 100; 95 # 100])
  /\ (forall n, (_calculate_confidence n == 0)%Q <-> n = 0)
  /\ (forall routine pq (dr : DataResults F) a,
        In routine analysis_routines -> routine pq dr = Ok a ->
        confidence a = _calculate_confidence (data_points a)
        /\ 0 <= data_points a).
Proof.
  split; [exact confidence_monotone|].
  split; [exact confidence_values|].
  split; [exact confidence_zero|].
  exact routine_confidence.
Qed.

End AnalysisFacts.

(** ** Trend and correlation *)

Section TrendFacts.
Import Py Pandas Types AnalyticsEngine Spec.
Local Open Scope py_scope.
Context {F : Type} {kernel : Kernel F}.

Lemma summarize_trend_some (t : Z) (yearly : list (Z * F)) :
  (1 < List.length yearly)%nat ->
  exists ts,
    summarize_trend t yearly = Some ts
    /\ growth_rate ts = average_growth yearly
    /\ direction ts = classify t (growth_rate ts)
    /\ yearly_data ts = yearly.
Proof.
  intros Hlen. unfold summarize_trend.
  destruct yearly as [|[y0 v0] [|b r]]; simpl in Hlen; try lia.
  destruct (rev ((y0, v0) :: b :: r)) as [|[y1 v1] r'] eqn:E.
  - apply (f_equal (@List.length _)) in E. rewrite length_rev in E.
    discriminate E.
  - eexists. split; [reflexivity|]. simpl. auto.
Qed.

Lemma distinct_years_rows (df : DataFrame F) :
  (1 < distinct_years df)%nat -> rows df <> [].
Proof.
  unfold distinct_years. destruct (rows df); simpl; [lia|discriminate].
Qed.

(** What [trend_of] returns for a frame with a year column, the column
    it measures and more than one distinct year. *)
Lemma trend_of_many_years (t : Z) (vc : string) (val : Row F -> F)
    (agg : list F -> F) (df : DataFrame F) :
  has_column "year" df = true -> has_column vc df = true ->
  (1 < distinct_years df)%nat ->
  let yearly := by_year agg (map (fun r => (year r, val r)) (rows df)) in
  exists ts,
    trend_of t vc val agg df = Ok (Some ts, len df)
    /\ growth_rate ts = average_growth yearly
    /\ direction ts = classify t (growth_rate ts).
Proof.
  intros Hy Hv Hd yearly. unfold trend_of.
  rewrite (empty_false df (distinct_years_rows df Hd)
             (has_column_nonempty _ df Hy)), Hy.
  unfold groupby_column. rewrite Hy, Hv. simpl.
  fold yearly.
  assert (Hlen : (1 < List.length yearly)%nat).
  { unfold yearly. rewrite by_year_length, map_map. exact Hd. }
  destruct (summarize_trend_some t yearly Hlen) as [ts [Hs [Hg [Hdir _]]]].
  exists ts. rewrite Hs.
  destruct (Z.ltb_spec 1 (Z.of_nat (List.length yearly))); [auto|lia].
Qed.

(** C1: for production data with more than one distinct year the
    direction is "increasing" when the mean growth rate is above 2,
    otherwise "decreasing" when it is below -2, otherwise "stable"; when
    there is no production entry and the rainfall data has more than one
    distinct year, the same holds with 1 and -1.  The growth rate is the
    mean of the yearly percentage changes of the totals, or of the means
    for rainfall. *)
Theorem trend_direction_thresholds (pq : ParsedQuery) (dr : DataResults F) :
  (forall info,
     dict_get "production" dr = Some info ->
     has_column "year" (dataframe info) = true ->
     has_column "production_tonnes" (dataframe info) = true ->
     (1 < distinct_years (dataframe info))%nat ->
     exists ts,
       trend_analysis pq dr
       = Ok (mk_analysis (trend_summary (Some ts)) dr
               (_calculate_confidence (len (dataframe info)))
               (len (dataframe info)))
       /\ growth_rate ts
          = average_growth
              (by_year series_sum
                 (map (fun r => (year r, production_tonnes r))
                      (rows (dataframe info))))
       /\ direction ts
          = if fgt (growth_rate ts) (of_Z 2) then "increasing"
            else if flt (growth_rate ts) (of_Z (-2)) then "decreasing"
            else "stable")
  /\ (forall info,
        dict_get "production" dr = None ->
        dict_get "rainfall" dr = Some info ->
        has_column "year" (dataframe info) = true ->
        has_column "annual_rainfall_mm" (dataframe info) = true ->
        (1 < distinct_years (dataframe info))%nat ->
        exists ts,
          trend_analysis pq dr
          = Ok (mk_analysis (trend_summary (Some ts)) dr
                  (_calculate_confidence (len (dataframe info)))
                  (len (dataframe info)))
          /\ growth_rate ts
             = average_growth
                 (by_year series_mean
                    (map (fun r => (year r, annual_rainfall_mm r))
                         (rows (dataframe info))))
          /\ direction ts
             = if fgt (growth_rate ts) (of_Z 1) then "increasing"
               else if flt (growth_rate ts) (of_Z (-1)) then "decreasing"
               else "stable").
Proof.
  split.
  - intros info Hp Hy Hv Hd.
    destruct (trend_of_many_years 2 "production_tonnes" production_tonnes
                series_sum (dataframe info) Hy Hv Hd) as [ts [Ht [Hg Hdir]]].
    exists ts. unfold trend_analysis. rewrite Hp, Ht. simpl. auto.
  - intros info Hnone Hr Hy Hv Hd.
    destruct (trend_of_many_years 1 "annual_rainfall_mm" annual_rainfall_mm
                series_mean (dataframe info) Hy Hv Hd) as [ts [Ht [Hg Hdir]]].
    exists ts. unfold trend_analysis. rewrite Hnone, Hr, Ht. simpl. auto.
Qed.

(** *** The join and the correlation *)

Lemma inner_join_In (left right : list (Row F)) (l r : Row F) :
  In (l, r) (inner_join left right)
  <-> In l left /\ In r right /\ state l = state r /\ year l = year r.
Proof.
  unfold inner_join. rewrite in_flat_map. split.
  - intros [x [Hx Hin]]. apply in_map_iff in Hin as [y [E Hy]].
    inversion E; subst. apply filter_In in Hy as [Hy Hk].
    unfold same_key in Hk. apply andb_true_iff in Hk as [Hs Hyr].
    apply String.eqb_eq in Hs. apply Z.eqb_eq in Hyr. auto.
  - intros [Hl [Hr [Hs Hy]]]. exists l. split; [assumption|].
    apply in_map, filter_In. split; [assumption|].
    unfold same_key. rewrite Hs, Hy, String.eqb_refl, Z.eqb_refl. reflexivity.
Qed.

Lemma correlate_joined (rdf pdf : DataFrame F) :
  empty rdf = false -> empty pdf = false ->
  has_column "state" rdf = true -> has_column "state" pdf = true ->
  has_column "year" rdf = true -> has_column "year" pdf = true ->
  correlate rdf pdf
  = let merged := mk_merged (columns rdf) (columns pdf)
                    (inner_join (rows rdf) (rows pdf)) in
    let n := Z.of_nat (List.length (pairs merged)) in
    if 5 <? n then
      xs <- merged_column "annual_rainfall_mm" annual_rainfall_mm merged ;;
      ys <- merged_column "production_tonnes" production_tonnes merged ;;
      cp <- pearsonr xs ys ;;
      Ok (Some (mk_corr (fst cp) (snd cp)
                  (if flt (snd cp) (of_Q (5 # 100)) then "significant"
                   else "not significant")
                  (_interpret_correlation (fst cp)) n), n)
    else Ok (None, 0).
Proof.
  intros Er Ep Hsr Hsp Hyr Hyp. unfold correlate, merge.
  rewrite Er, Ep, Hsr, Hsp, Hyr, Hyp. reflexivity.
Qed.

(** C2: two frames that are not empty and carry the state and the year
    are joined on both; five joined rows or fewer give the empty result
    with no data point; more than five give the result of [pearsonr] on the
    rainfall and the production of the joined rows; so a result that is not
    empty has more than five joined rows behind it. *)
Theorem correlation_needs_six_rows (pq : ParsedQuery) (dr : DataResults F)
    (rain prod : DataInfo F) :
  dict_get "rainfall" dr = Some rain ->
  dict_get "production" dr = Some prod ->
  empty (dataframe rain) = false -> empty (dataframe prod) = false ->
  has_column "state" (dataframe rain) = true ->
  has_column "state" (dataframe prod) = true ->
  has_column "year" (dataframe rain) = true ->
  has_column "year" (dataframe prod) = true ->
  let joined := inner_join (rows (dataframe rain)) (rows (dataframe prod)) in
  let n := Z.of_nat (List.length joined) in
  (forall l r,
     In (l, r) joined
     <-> In l (rows (dataframe rain)) /\ In r (rows (dataframe prod))
         /\ state l = state r /\ year l = year r)
  /\ (n <= 5 ->
      correlation_analysis pq dr
      = Ok (mk_analysis (correlation_results None) dr 0%Q 0))
  /\ (5 < n ->
      has_column "annual_rainfall_mm" (dataframe rain) = true ->
      has_column "annual_rainfall_mm" (dataframe prod) = false ->
      has_column "production_tonnes" (dataframe prod) = true ->
      has_column "production_tonnes" (dataframe rain) = false ->
      forall c p,
        pearsonr (map (fun x => annual_rainfall_mm (fst x)) joined)
                 (map (fun x => production_tonnes (snd x)) joined)
        = Ok (c, p) ->
        exists cr,
          correlation_analysis pq dr
          = Ok (mk_analysis (correlation_results (Some cr)) dr
                  (_calculate_confidence n) n)
          /\ correlation_coefficient cr = c /\ p_value cr = p
          /\ sample_size cr = n)
  /\ (forall a cr,
        correlation_analysis pq dr = Ok a ->
        body a = correlation_results (Some cr) -> 5 < n).
Proof.
  intros Hr Hp Er Ep Hsr Hsp Hyr Hyp joined n.
  assert (Hsmall : n <= 5 ->
            correlation_analysis pq dr
            = Ok (mk_analysis (correlation_results None) dr 0%Q 0)).
  { intros Hn. unfold correlation_analysis. rewrite Hr, Hp.
    rewrite (correlate_joined _ _ Er Ep Hsr Hsp Hyr Hyp). simpl.
    fold joined. fold n.
    destruct (Z.ltb_spec 5 n); [lia|]. reflexivity. }
  split; [intros l r; apply inner_join_In|].
  split; [exact Hsmall|]. split.
  - intros Hn Ha1 Ha2 Hp1 Hp2 c p Hpear.
    unfold correlation_analysis. rewrite Hr, Hp.
    rewrite (correlate_joined _ _ Er Ep Hsr Hsp Hyr Hyp). simpl.
    fold joined. fold n.
    destruct (Z.ltb_spec 5 n); [|lia].
    unfold merged_column. simpl.
    unfold has_column in Ha1, Ha2, Hp1, Hp2.
    rewrite Ha1, Ha2, Hp1, Hp2. simpl.
    fold joined. rewrite Hpear. simpl.
    eexists. split; [reflexivity|]. simpl. auto.
  - intros a cr Ha Hb.
    destruct (Z.lt_ge_cases 5 n) as [|Hn]; [assumption|].
    rewrite (Hsmall ltac:(lia)) in Ha. inversion Ha; subst.
    simpl in Hb. discriminate Hb.
Qed.

End TrendFacts.

(** ** The cache and the fallback chain *)

Section DictFacts.
Import Py.
Context {V : Type}.

Lemma dict_get_set_same (k : string) (v : V) (d : dict V) :
  dict_get k (dict_set k v d) = Some v.
Proof.
  induction d as [|[k' v'] d IH]; simpl.
  - now rewrite String.eqb_refl.
  - destruct (String.eqb k k') eqn:E; simpl.
    + now rewrite String.eqb_refl.
    + now rewrite E.
Qed.

Lemma dict_get_set_other (k k' : string) (v : V) (d : dict V) :
  k' <> k -> dict_get k' (dict_set k v d) = dict_get k' d.
Proof.
  intros Hne. induction d as [|[k0 v0] d IH]; simpl.
  - destruct (String.eqb_spec k' k); [contradiction|reflexivity].
  - destruct (String.eqb_spec k k0); simpl.
    + subst k0. destruct (String.eqb_spec k' k); [contradiction|reflexivity].
    + destruct (String.eqb k' k0); [reflexivity|exact IH].
Qed.

Lemma dict_set_nonempty (k : string) (v : V) (d : dict V) : dict_set k v d <> [].
Proof.
  destruct d as [|[k' v'] d]; simpl; [discriminate|].
  destruct (String.eqb k k'); discriminate.
Qed.
End DictFacts.

Section TimeFacts.
Import DataFetcher.

Lemma Qltb_lt (a b : Q) : Qltb a b = true <-> (a < b)%Q.
Proof.
  unfold Qltb. rewrite Qlt_alt. destruct (a ?= b)%Q; split; congruence.
Qed.

Lemma Qltb_ge (a b : Q) : Qltb a b = false <-> (b <= a)%Q.
Proof.
  split.
  - intros H. apply Qnot_lt_le. intros Hlt. apply Qltb_lt in Hlt. congruence.
  - intros H. destruct (Qltb a b) eqn:E; [|reflexivity].
    apply Qltb_lt in E. exfalso. exact (Qle_not_lt _ _ H E).
Qed.
End TimeFacts.

Section FetchFacts.
Import Py Json Types DataFetcher Spec.
Local Open Scope py_scope.
Context {F : Type} {kernel : Kernel F} (env : Env).

(** *** Writing and reading *)

Lemma write_then_read (path : string) (data : json F) (w : World F) :
  writable w = true ->
  _read_cache path (_write_cache path data w) = Some data
  /\ dict_get path (files (_write_cache path data w))
     = Some (mk_file (clock w) (Some data)).
Proof.
  intros Hw. unfold _read_cache, _write_cache. rewrite Hw. simpl.
  rewrite dict_get_set_same. auto.
Qed.

Lemma valid_iff (path : string) (w : World F) (f : File F) :
  dict_get path (files w) = Some f ->
  (_is_cache_valid path w = true
   <-> (clock w - st_mtime f < inject_Z Config.CACHE_TTL)%Q).
Proof.
  intros Hf. unfold _is_cache_valid. rewrite Hf. simpl. apply Qltb_lt.
Qed.

(** What a fetch returns when the entry of its request is young enough. *)
Lemma fetch_data_hit (endpoint url : string) (filters : dict pyval)
    (w : World F) (f : File F) (d : dict (json F)) :
  get_api_url endpoint = Ok url ->
  dict_get (path_of env endpoint filters) (files w) = Some f ->
  content f = Some (JDict d) -> d <> [] ->
  (clock w - st_mtime f < inject_Z Config.CACHE_TTL)%Q ->
  fetch_data env endpoint filters w
  = (Ok (JDict (dict_set "from_cache" (JBool true) d)), w).
Proof.
  intros Hu Hf Hc Hd Hage. unfold path_of in Hf. unfold fetch_data. rewrite Hu.
  rewrite (proj2 (valid_iff _ w f Hf) Hage).
  unfold _read_cache. rewrite Hf, Hc. simpl.
  destruct d; [contradiction|reflexivity].
Qed.

(** C4, as the code has it: a payload that is written and fetched again
    before [CACHE_TTL] seconds have passed comes back with its
    [from_cache] entry set to [True] and every other entry as it was
    written; no request is sent and the file stays as it is. *)
Theorem cache_round_trip (endpoint url : string) (filters : dict pyval)
    (w : World F) (d : dict (json F)) (now : Q) :
  get_api_url endpoint = Ok url ->
  writable w = true -> d <> [] ->
  (now - clock w < inject_Z Config.CACHE_TTL)%Q ->
  let written := _write_cache (path_of env endpoint filters) (JDict d) w in
  let later := set_clock now written in
  let returned := dict_set "from_cache" (JBool true) d in
  fetch_data env endpoint filters later = (Ok (JDict returned), later)
  /\ dict_get "from_cache" returned = Some (JBool true)
  /\ forall k, k <> "from_cache" -> dict_get k returned = dict_get k d.
Proof.
  intros Hu Hw Hd Hage written later returned.
  destruct (write_then_read (path_of env endpoint filters) (JDict d) w Hw)
    as [_ Hfile].
  split; [|split].
  - apply (fetch_data_hit endpoint url filters later
             (mk_file (clock w) (Some (JDict d))) d Hu); auto.
  - apply dict_get_set_same.
  - intros k Hk. now apply dict_get_set_other.
Qed.

(** *** Requests *)

Lemma check_rate_limit_keeps (w : World F) :
  sent (_check_rate_limit w) = sent w
  /\ network (_check_rate_limit w) = network w
  /\ files (_check_rate_limit w) = files w
  /\ writable (_check_rate_limit w) = writable w.
Proof.
  unfold _check_rate_limit.
  destruct (Nat.leb _ _); [|simpl; auto].
  destruct (filter _ _); [simpl; auto|].
  destruct (Qltb _ _); simpl; auto.
Qed.

Lemma demo_data_keeps (endpoint : string) (filters : dict pyval) (w : World F) :
  snd (_get_demo_data env endpoint filters w) = w.
Proof. reflexivity. Qed.

Lemma on_request_failure_keeps (endpoint : string) (filters : dict pyval)
    (path : string) (w : World F) :
  snd (on_request_failure env endpoint filters path w) = w.
Proof.
  unfold on_request_failure.
  destruct (if path_exists path w then _ else _); reflexivity.
Qed.

Lemma asked_sent url filters (w : World F) :
  sent (asked env url filters w) = (sent w ++ [request_of env url filters])%list.
Proof.
  unfold asked. simpl. now rewrite (proj1 (check_rate_limit_keeps w)).
Qed.

Lemma asked_files url filters (w : World F) :
  files (asked env url filters w) = files w.
Proof.
  unfold asked. simpl. apply (check_rate_limit_keeps w).
Qed.

(** A live fetch sends one request, whatever comes of it. *)
Lemma fetch_live_sends_once (endpoint url : string) (filters : dict pyval)
    (path : string) (w : World F) :
  sent (snd (fetch_live env endpoint url (get_api_params env filters)
               filters path w))
  = (sent w ++ [request_of env url filters])%list.
Proof.
  unfold fetch_live. fold (request_of env url filters). fold (asked env url filters w).
  destruct (network (asked env url filters w) (sent (asked env url filters w))).
  - rewrite on_request_failure_keeps. apply asked_sent.
  - rewrite on_request_failure_keeps. simpl. apply asked_sent.
  - destruct (records_count_of data); simpl.
    + unfold _write_cache. simpl. destruct (writable _); simpl; apply asked_sent.
    + apply asked_sent.
Qed.

End FetchFacts.

Section FallbackFacts.
Import Py Json Types DataFetcher Spec.
Local Open Scope py_scope.
Context {F : Type} {kernel : Kernel F} (env : Env).

(** [fetch_data] when the endpoint is known, nothing young enough can be read
    from the cache and an API key is set: the live fetch. *)
Lemma fetch_data_goes_live (endpoint url : string) (filters : dict pyval)
    (w : World F) :
  get_api_url endpoint = Ok url ->
  no_fresh_entry env endpoint filters w ->
  is_demo_mode env = false ->
  fetch_data env endpoint filters w
  = fetch_live env endpoint url (get_api_params env filters) filters
      (path_of env endpoint filters) w.
Proof.
  intros Hu Hn Hd. unfold no_fresh_entry, path_of in *. unfold fetch_data.
  rewrite Hu.
  destruct (_is_cache_valid _ w) eqn:Hv.
  - rewrite (Hn eq_refl), Hd. reflexivity.
  - rewrite Hd. reflexivity.
Qed.

Lemma expired_no_fresh_entry (endpoint : string) (filters : dict pyval)
    (w : World F) :
  _is_cache_valid (path_of env endpoint filters) w = false ->
  no_fresh_entry env endpoint filters w.
Proof. intros Hv Hyes. congruence. Qed.

Lemma fetch_live_cases (endpoint url : string) (filters : dict pyval)
    (path : string) (w : World F) :
  fetch_live env endpoint url (get_api_params env filters) filters path w
  = match answer_to env url filters w with
    | Failed _ =>
        on_request_failure env endpoint filters path (asked env url filters w)
    | Undecodable _ =>
        on_request_failure env endpoint filters path
          (set_request_times
             (request_times (asked env url filters w)
              ++ [clock (asked env url filters w)])
             (asked env url filters w))
    | Body data =>
        let w' :=
          set_request_times
            (request_times (asked env url filters w)
             ++ [clock (asked env url filters w)])
            (asked env url filters w) in
        match records_count_of data with
        | Raise e => (Raise e, w')
        | Ok count =>
            let result :=
              live_payload env endpoint url (get_api_params env filters)
                data count (clock w') in
            (Ok result, _write_cache path result w')
        end
    end.
Proof. reflexivity. Qed.

(** C5: an entry that is [CACHE_TTL] seconds old or older is not valid;
    the fetch then gives demo data in demo mode, and otherwise sends the
    request and, when a body comes whose records can be counted, returns
    the payload built from that body. *)
Theorem expired_entry_is_a_miss (endpoint url : string) (filters : dict pyval)
    (w : World F) (f : File F) :
  get_api_url endpoint = Ok url ->
  dict_get (path_of env endpoint filters) (files w) = Some f ->
  (inject_Z Config.CACHE_TTL <= clock w - st_mtime f)%Q ->
  _is_cache_valid (path_of env endpoint filters) w = false
  /\ (is_demo_mode env = true ->
      fetch_data env endpoint filters w
      = _get_demo_data env endpoint filters w)
  /\ (is_demo_mode env = false ->
      sent (snd (fetch_data env endpoint filters w))
      = (sent w ++ [request_of env url filters])%list
      /\ forall data count,
           answer_to env url filters w = Body data ->
           records_count_of data = Ok count ->
           fst (fetch_data env endpoint filters w)
           = Ok (live_payload env endpoint url (get_api_params env filters)
                   data count (clock (asked env url filters w)))).
Proof.
  intros Hu Hf Hage.
  assert (Hv : _is_cache_valid (path_of env endpoint filters) w = false).
  { unfold _is_cache_valid. rewrite Hf. simpl. now apply Qltb_ge. }
  split; [exact Hv|]. split.
  - intros Hd. unfold path_of in Hv. unfold fetch_data.
    rewrite Hu, Hv, Hd. reflexivity.
  - intros Hd.
    rewrite (fetch_data_goes_live endpoint url filters w Hu
               (expired_no_fresh_entry endpoint filters w Hv) Hd).
    split; [apply fetch_live_sends_once|].
    intros data count Ha Hc. rewrite fetch_live_cases, Ha, Hc. reflexivity.
Qed.

(** *** The fallback chain *)

Lemma files_set_request_times (l : list Q) (w : World F) :
  files (set_request_times l w) = files w.
Proof. reflexivity. Qed.

Lemma holds_payloads_files (w w' : World F) :
  files w' = files w -> holds_payloads w -> holds_payloads w'.
Proof.
  intros E Hwf p f j Hf Hc. rewrite E in Hf. exact (Hwf p f j Hf Hc).
Qed.

Lemma holds_payload_at_files (path : string) (w w' : World F) :
  files w' = files w -> holds_payload_at path w -> holds_payload_at path w'.
Proof.
  intros E Hwf f j Hf Hc. rewrite E in Hf. exact (Hwf f j Hf Hc).
Qed.

Lemma holds_payloads_at (path : string) (w : World F) :
  holds_payloads w -> holds_payload_at path w.
Proof. intros Hwf f j. apply Hwf. Qed.

Lemma demo_records_ok (endpoint : string) (filters : dict pyval) :
  textual_state filters ->
  exists records, demo_records env endpoint filters = Ok records.
Proof.
  unfold textual_state, demo_records, split_states, get_or. intros Ht.
  destruct (String.eqb endpoint "imd_rainfall");
    [|destruct (String.eqb endpoint "agriculture_production");
      [|destruct (String.eqb endpoint "district_wise_crops")]];
    try (eexists; reflexivity);
    destruct (dict_get "state" filters) as [[]|];
    try contradiction; eexists; reflexivity.
Qed.

(** The [except] clause on a world whose cache directory is that of [w]. *)
Lemma on_request_failure_result (endpoint : string) (filters : dict pyval)
    (path : string) (w : World F) :
  holds_payload_at path w -> textual_state filters ->
  (forall f d, dict_get path (files w) = Some f -> content f = Some (JDict d) ->
     on_request_failure env endpoint filters path w
     = (Ok (JDict (dict_set "cache_expired" (JBool true)
                     (dict_set "from_cache" (JBool true) d))), w))
  /\ ((forall f, dict_get path (files w) = Some f -> content f = None) ->
      exists records,
        demo_records env endpoint filters = Ok records
        /\ on_request_failure env endpoint filters path w
           = (Ok (demo_payload env endpoint filters records (clock w)), w))
  /\ is_ok (fst (on_request_failure env endpoint filters path w)) = true.
Proof.
  intros Hwf Ht.
  destruct (demo_records_ok endpoint filters Ht) as [records Hr].
  assert (Hdemo : _get_demo_data env endpoint filters w
                  = (Ok (demo_payload env endpoint filters records (clock w)), w)).
  { unfold _get_demo_data. rewrite Hr. reflexivity. }
  unfold on_request_failure, path_exists, dict_has, _read_cache.
  destruct (dict_get path (files w)) as [f|] eqn:Hf.
  - destruct (content f) as [j|] eqn:Hc.
    + destruct (Hwf f j Hf Hc) as [d [-> Hd]].
      destruct d as [|kv d]; [contradiction|]. simpl truthy. cbv iota.
      repeat split.
      * intros f' d' Hf' Hc'. inversion Hf'; subst f'.
        rewrite Hc in Hc'. inversion Hc'; subst d'. reflexivity.
      * intros Hnone. specialize (Hnone f eq_refl). congruence.
    + repeat split.
      * intros f' d' Hf' Hc'. inversion Hf'; subst f'. congruence.
      * intros _. exists records. split; [exact Hr|exact Hdemo].
      * rewrite Hdemo. reflexivity.
  - repeat split.
    + intros f' d' Hf'. discriminate Hf'.
    + intros _. exists records. split; [exact Hr|exact Hdemo].
    + rewrite Hdemo. reflexivity.
Qed.

(** C6, as the code has it: when the endpoint is known, an API key is set,
    the cache holds nothing that is young enough and can be read, the
    request fails, the cache file of the request, if it can be read, holds
    a dict that is not empty and the [state] filter, if there is one, is a
    string, [fetch_data]
    returns the payload of the cache file marked as stale when the file can
    be read, and demo data when there is no file or it cannot be read; it
    does not raise, and the request has been sent once.  Without the last
    two conditions [fetch_data] can raise from its except clause. *)
Theorem failed_request_falls_back (endpoint url : string)
    (filters : dict pyval) (w : World F) :
  get_api_url endpoint = Ok url ->
  is_demo_mode env = false ->
  no_fresh_entry env endpoint filters w ->
  failed (answer_to env url filters w) ->
  holds_payload_at (path_of env endpoint filters) w -> textual_state filters ->
  let out := fetch_data env endpoint filters w in
  (forall f d,
     dict_get (path_of env endpoint filters) (files w) = Some f ->
     content f = Some (JDict d) ->
     fst out = Ok (JDict (dict_set "cache_expired" (JBool true)
                            (dict_set "from_cache" (JBool true) d))))
  /\ ((forall f, dict_get (path_of env endpoint filters) (files w) = Some f ->
                 content f = None) ->
      exists records,
        demo_records env endpoint filters = Ok records
        /\ fst out = Ok (demo_payload env endpoint filters records
                           (clock (snd out))))
  /\ is_ok (fst out) = true
  /\ sent (snd out) = (sent w ++ [request_of env url filters])%list.
Proof.
  intros Hu Hd Hv Hfail Hwf Ht out. subst out.
  rewrite (fetch_data_goes_live endpoint url filters w Hu Hv Hd).
  split; [|split; [|split]]; try apply fetch_live_sends_once;
    rewrite fetch_live_cases;
    destruct (answer_to env url filters w) as [r|r|data];
    try contradiction;
    match goal with
    | |- context [on_request_failure env endpoint filters ?p ?w'] =>
        assert (Hfiles : files w' = files w)
          by (rewrite ?files_set_request_times; apply asked_files);
        assert (Hwf' : holds_payload_at p w')
          by (exact (holds_payload_at_files p w w' Hfiles Hwf));
        destruct (on_request_failure_result endpoint filters p w' Hwf' Ht)
          as [Hstale [Hnone Hok]]
    end;
    rewrite ?Hfiles in *.
  - intros f d Hf Hc. rewrite (Hstale f d Hf Hc). reflexivity.
  - intros f d Hf Hc. rewrite (Hstale f d Hf Hc). reflexivity.
  - intros Hno. destruct (Hnone Hno) as [records [Hr Hres]].
    exists records. split; [exact Hr|]. rewrite Hres. reflexivity.
  - intros Hno. destruct (Hnone Hno) as [records [Hr Hres]].
    exists records. split; [exact Hr|]. rewrite Hres. reflexivity.
  - exact Hok.
  - exact Hok.
Qed.

(** *** The cache directory keeps holding payloads *)

Lemma holds_payloads_write (path : string) (d : dict (json F)) (w : World F) :
  d <> [] -> holds_payloads w ->
  holds_payloads (_write_cache path (JDict d) w).
Proof.
  intros Hd Hwf p f j Hf Hc. unfold _write_cache in Hf.
  destruct (writable w); [|exact (Hwf p f j Hf Hc)].
  simpl in Hf. destruct (String.eqb_spec p path) as [->|Hne].
  - rewrite dict_get_set_same in Hf. inversion Hf; subst f.
    simpl in Hc. inversion Hc; subst j. eauto.
  - rewrite dict_get_set_other in Hf by assumption.
    exact (Hwf p f j Hf Hc).
Qed.

(** [fetch_data] leaves in the cache directory only what satisfies
    [holds_payloads]; an empty directory does. *)
Lemma fetch_data_holds_payloads (endpoint : string) (filters : dict pyval)
    (w : World F) :
  holds_payloads w -> holds_payloads (snd (fetch_data env endpoint filters w)).
Proof.
  intros Hwf. unfold fetch_data.
  destruct (get_api_url endpoint) as [url|e]; [|exact Hwf].
  destruct (if _is_cache_valid _ w then _ else _); [exact Hwf|].
  destruct (is_demo_mode env); [exact Hwf|].
  rewrite fetch_live_cases.
  destruct (answer_to env url filters w) as [r|r|data].
  - rewrite on_request_failure_keeps.
    apply (holds_payloads_files w); [apply asked_files|exact Hwf].
  - rewrite on_request_failure_keeps.
    apply (holds_payloads_files w);
      [rewrite files_set_request_times; apply asked_files|exact Hwf].
  - cbv zeta. destruct (records_count_of data); cbn [snd].
    + apply holds_payloads_write; [discriminate|].
      apply (holds_payloads_files w);
        [rewrite files_set_request_times; apply asked_files|exact Hwf].
    + apply (holds_payloads_files w);
        [rewrite files_set_request_times; apply asked_files|exact Hwf].
Qed.

Lemma empty_directory_holds_payloads (w : World F) :
  files w = [] -> holds_payloads w.
Proof. intros E p f j Hf. rewrite E in Hf. discriminate Hf. Qed.

End FallbackFacts.

(** ** The top-level handler *)

Section PipelineFacts.
Import Py Json Types AnalyticsEngine DataFetcher QueryEngine Spec.
Context {U : Text.Unicode} {F : Type} {kernel : Kernel F} (env : Env)
  (ui : Presentation F).

Lemma try_except_raise {A} (c : M F A) (h : exn -> M F A) (w w' : World F)
    (e : exn) :
  c w = (Raise e, w') -> try_except c h w = h e w'.
Proof. intros H. unfold try_except. now rewrite H. Qed.

Lemma try_except_ok {A} (c : M F A) (h : exn -> M F A) (w w' : World F)
    (a : A) :
  c w = (Ok a, w') -> try_except c h w = (Ok a, w').
Proof. intros H. unfold try_except. now rewrite H. Qed.

(** A step that raises makes the body of the [try] raise the same
    exception in the same world. *)
Lemma pipeline_raises (query : Text.text) (w w' : World F) (e : exn) :
  step_raises env ui query w e w' ->
  pipeline env ui (clock w) query w = (Raise e, w').
Proof.
  intros H. unfold pipeline, mbind, lift.
  destruct H as [Hf|dr Hf Ha|dr a Hf Ha Hc|dr a charts Hf Ha Hc Hans];
    rewrite Hf; try rewrite Ha; try rewrite Hc; try rewrite Hans; reflexivity.
Qed.

(** Whatever the body of the [try] does, [process_query] returns. *)
Lemma process_query_returns (query : Text.text) (w : World F) :
  is_ok (fst (process_query env ui query w)) = true.
Proof.
  unfold process_query, try_except.
  destruct (pipeline env ui (clock w) query w) as [[r|e] w']; reflexivity.
Qed.

(** C8: when a step of the pipeline raises an exception [e],
    [process_query] does not raise: it returns the reply whose answer is
    the error message built around [str(e)], with no data, no chart and no
    source, and confidence 0. *)
Theorem process_query_catches (query : Text.text) (w w' : World F) (e : exn) :
  step_raises env ui query w e w' ->
  exists reply,
    process_query env ui query w = (Ok reply, w')
    /\ answer ui reply
       = "I encountered an error processing your query: " ++ exn_str e
         ++ ". Please try rephrasing your question."
    /\ reply_data ui reply = []
    /\ visualizations ui reply = []
    /\ sources ui reply = []
    /\ reply_confidence ui reply = 0%Q
    /\ reply_data_points ui reply = 0
    /\ error ui reply = Some (exn_str e).
Proof.
  intros H. apply pipeline_raises in H.
  exists (error_reply ui e (clock w' - clock w)%Q).
  split; [|repeat split].
  unfold process_query. now rewrite (try_except_raise _ _ w w' e H).
Qed.

(** The three fetches of [_fetch_data_for_query] catch what they raise,
    so that step returns. *)
Lemma try_except_returns {A} (c : M F A) (a : A) (w : World F) :
  is_ok (fst (try_except c (fun _ => ret a) w)) = true.
Proof.
  unfold try_except, ret. destruct (c w) as [[x|e] w']; reflexivity.
Qed.

Lemma mbind_returns {A B} (c : M F A) (k : A -> M F B) :
  (forall w, is_ok (fst (c w)) = true) ->
  (forall a w, is_ok (fst (k a w)) = true) ->
  forall w, is_ok (fst (mbind c k w)) = true.
Proof.
  intros Hc Hk w. unfold mbind. specialize (Hc w).
  destruct (c w) as [[a|e] w']; [apply Hk|discriminate Hc].
Qed.

Lemma district_loop_returns (pq : ParsedQuery) (l : list string)
    (acc : M F (DataResults F)) :
  (forall w, is_ok (fst (acc w)) = true) ->
  forall w,
    is_ok (fst (fold_left
                  (fun acc state => mbind acc (fetch_district_entry env pq state))
                  l acc w)) = true.
Proof.
  revert acc. induction l as [|st l IH]; simpl; intros acc Hacc w; [apply Hacc|].
  apply IH. apply mbind_returns; [exact Hacc|].
  intros d w0. apply try_except_returns.
Qed.

Lemma fetch_data_for_query_returns (pq : ParsedQuery) (w : World F) :
  is_ok (fst (_fetch_data_for_query env pq w)) = true.
Proof.
  unfold _fetch_data_for_query. revert w.
  apply mbind_returns.
  - intros w.
    destruct (Str.mem "rainfall" (metrics pq) && nonempty (states pq))%bool;
      [apply try_except_returns|reflexivity].
  - intros d1. apply mbind_returns.
    + intros w.
      destruct (Str.mem "production" (metrics pq) && nonempty (states pq))%bool;
        [apply try_except_returns|reflexivity].
    + intros d2 w.
      destruct (nonempty (districts pq)
                || Text.contains (Text.lit "district")
                         (Text.lower (original_query pq)))%bool;
        [|reflexivity].
      apply district_loop_returns. reflexivity.
Qed.

End PipelineFacts.

(** ** The statements on the sample inputs *)

Section Runs.
Import Py Json Pandas Types AnalyticsEngine DataFetcher QueryEngine XQ.
Import Spec Sample.

Lemma trend_direction_thresholds_witness :
  (exists ts,
      trend_analysis pq both
      = Ok (mk_analysis (trend_summary (Some ts)) both (5 # 10) 6)
      /\ direction ts = "increasing")
  /\ (exists ts,
        trend_analysis pq rain_only
        = Ok (mk_analysis (trend_summary (Some ts)) rain_only (5 # 10) 6)
        /\ direction ts = "stable").
Proof.
  split.
  - destruct (proj1 (trend_direction_thresholds pq both)
                (mk_info prod_frame citation) eq_refl eq_refl eq_refl
                ltac:(vm_compute; lia)) as [ts [H1 [H2 H3]]].
    exists ts. split; [exact H1|]. rewrite H3, H2. vm_compute. reflexivity.
  - destruct (proj2 (trend_direction_thresholds pq rain_only)
                (mk_info rain_frame citation) eq_refl eq_refl eq_refl eq_refl
                ltac:(vm_compute; lia)) as [ts [H1 [H2 H3]]].
    exists ts. split; [exact H1|]. rewrite H3, H2. vm_compute. reflexivity.
Defined.

Lemma correlation_needs_six_rows_witness :
  exists cr,
    correlation_analysis pq both
    = Ok (mk_analysis (correlation_results (Some cr)) both (5 # 10) 6)
    /\ sample_size cr = 6.
Proof.
  destruct (correlation_needs_six_rows pq both
              (mk_info rain_frame citation) (mk_info prod_frame citation)
              eq_refl eq_refl eq_refl eq_refl eq_refl eq_refl eq_refl eq_refl)
    as [_ [_ [Hbig _]]].
  destruct (Hbig ltac:(vm_compute; reflexivity) eq_refl eq_refl eq_refl eq_refl
              (Fin (1 # 2)) (Fin (1 # 100)) eq_refl) as [cr [H [_ [_ Hn]]]].
  exists cr. split; [exact H|exact Hn].
Defined.

(** Two joined rows are too few. *)
Example correlation_two_rows :
  List.length (inner_join
                 (rows (mk_df ["state"; "year"; "annual_rainfall_mm"]
                          [rain_row 2018 600; rain_row 2019 606]))
                 (rows prod_frame)) = 2%nat
  /\ correlation_analysis pq two_years
     = Ok (mk_analysis (correlation_results None) two_years 0%Q 0).
Proof. split; vm_compute; reflexivity. Qed.

Lemma confidence_of_data_points_witness :
  (_calculate_confidence 3 <= _calculate_confidence 60)%Q
  /\ (forall a, compare_analysis pq both = Ok a ->
                confidence a = _calculate_confidence (data_points a)
                /\ 0 <= data_points a).
Proof.
  destruct (@confidence_of_data_points xq K) as [Hmono [_ [_ Hroutine]]].
  split.
  - apply Hmono. lia.
  - intros a. apply (Hroutine compare_analysis pq both a). simpl. tauto.
Defined.

Lemma cache_round_trip_witness :
  fetch_data env_live "imd_rainfall" punjab (cached_at 200 net_down)
  = (Ok (JDict (dict_set "from_cache" (JBool true) payload)),
     cached_at 200 net_down).
Proof.
  apply (cache_round_trip env_live "imd_rainfall" rain_url punjab
           (world net_down) payload 200).
  - reflexivity.
  - reflexivity.
  - discriminate.
  - vm_compute. reflexivity.
Defined.

(** C4 as the claim words it fails: the payload that a fetch from the API
    wrote at time 100 is in the cache at time 200 and is still valid, and
    the fetch at time 200 returns another value, whose [from_cache] is
    [True] where [False] was written. *)
Lemma cache_read_differs_from_written :
  exists written returned,
    fst (fetch_data env_live "imd_rainfall" punjab (world net_rain)) = Ok written
    /\ _read_cache (path_of env_live "imd_rainfall" punjab) (fetched_at 200)
       = Some written
    /\ _is_cache_valid (path_of env_live "imd_rainfall" punjab) (fetched_at 200)
       = true
    /\ fst (fetch_data env_live "imd_rainfall" punjab (fetched_at 200))
       = Ok returned
    /\ get_item "from_cache" written = Ok (JBool false)
    /\ get_item "from_cache" returned = Ok (JBool true)
    /\ returned <> written.
Proof.
  eexists. eexists.
  split; [vm_compute; reflexivity|].
  split; [vm_compute; reflexivity|].
  split; [vm_compute; reflexivity|].
  split; [vm_compute; reflexivity|].
  split; [vm_compute; reflexivity|].
  split; [vm_compute; reflexivity|].
  intros H. apply (f_equal (get_item "from_cache")) in H.
  vm_compute in H. discriminate H.
Qed.

Lemma expired_entry_is_a_miss_witness :
  _is_cache_valid (path_of env_live "imd_rainfall" punjab)
                  (cached_at 3700 net_rain) = false
  /\ sent (snd (fetch_data env_live "imd_rainfall" punjab
                  (cached_at 3700 net_rain)))
     = [request_of env_live rain_url punjab].
Proof.
  destruct (expired_entry_is_a_miss env_live "imd_rainfall" rain_url punjab
              (cached_at 3700 net_rain) (mk_file 100 (Some (JDict payload)))
              eq_refl eq_refl ltac:(vm_compute; discriminate))
    as [Hv [_ Hlive]].
  split; [exact Hv|].
  exact (proj1 (Hlive eq_refl)).
Defined.

Lemma failed_request_falls_back_witness :
  fst (fetch_data env_live "imd_rainfall" punjab (cached_at 5000 net_down))
  = Ok (JDict (dict_set "cache_expired" (JBool true)
                 (dict_set "from_cache" (JBool true) payload)))
  /\ sent (snd (fetch_data env_live "imd_rainfall" punjab
                  (cached_at 5000 net_down)))
     = [request_of env_live rain_url punjab].
Proof.
  assert (Hwf : holds_payload_at (path_of env_live "imd_rainfall" punjab)
                  (cached_at 5000 net_down)).
  { intros f j Hf Hc. vm_compute in Hf. inversion Hf; subst f.
    cbn in Hc. inversion Hc; subst j.
    exists payload. split; [reflexivity|discriminate]. }
  destruct (failed_request_falls_back env_live "imd_rainfall" rain_url punjab
              (cached_at 5000 net_down)
              eq_refl eq_refl ltac:(intros Hv; vm_compute in Hv; discriminate Hv)
              I Hwf I)
    as [Hstale [_ [_ Hsent]]].
  split; [|exact Hsent].
  exact (Hstale (mk_file 100 (Some (JDict payload))) payload eq_refl eq_refl).
Defined.

(** C6, as stated, fails: with the one request sent and failing, a [state]
    filter that is a number makes the demo fallback raise [AttributeError]
    out of the except clause, and a cache file that holds a JSON list makes
    the stale-cache branch raise [TypeError]. *)
Lemma failed_request_raises :
  (failed (answer_to env_live rain_url five (world net_down))
   /\ sent (snd (fetch_data env_live "imd_rainfall" five (world net_down)))
      = [request_of env_live rain_url five]
   /\ fst (fetch_data env_live "imd_rainfall" five (world net_down))
      = Raise (mk_exn AttributeError "'int' object has no attribute 'split'"))
  /\ (failed (answer_to env_live rain_url punjab (listed_at 5000))
      /\ sent (snd (fetch_data env_live "imd_rainfall" punjab (listed_at 5000)))
         = [request_of env_live rain_url punjab]
      /\ _read_cache (path_of env_live "imd_rainfall" punjab) (listed_at 5000)
         = Some (JList [JInt 1])
      /\ fst (fetch_data env_live "imd_rainfall" punjab (listed_at 5000))
         = Raise (mk_exn TypeError
                    "list indices must be integers or slices, not str")).
Proof. repeat split; vm_compute; reflexivity. Qed.

(** With no cache file the same failure ends in demo data. *)
Example failed_request_without_cache :
  exists records,
    demo_records env_live "imd_rainfall" punjab = Ok records
    /\ fst (fetch_data env_live "imd_rainfall" punjab (world net_down))
       = Ok (demo_payload env_live "imd_rainfall" punjab records 100).
Proof. eexists. split; vm_compute; reflexivity. Qed.

(** A response whose records lack the production column makes the trend
    analysis raise [KeyError]. *)
Lemma sample_step_raises :
  step_raises env_live ui (Text.lit "trend of wheat production in Punjab")
    (world net_bare) missing_column
    (snd (_fetch_data_for_query env_live pq (world net_bare))).
Proof.
  apply (raise_in_analysis env_live ui _ _ _ _
           (match fst (_fetch_data_for_query env_live pq (world net_bare)) with
            | Ok d => d
            | Raise _ => []
            end)); vm_compute; reflexivity.
Qed.

Lemma process_query_catches_witness :
  exists reply w',
    process_query env_live ui (Text.lit "trend of wheat production in Punjab")
      (world net_bare) = (Ok reply, w')
    /\ answer ui reply
       = "I encountered an error processing your query: 'Column not found: production_tonnes'. Please try rephrasing your question.".
Proof.
  destruct (process_query_catches env_live ui
              (Text.lit "trend of wheat production in Punjab")
              (world net_bare) _
              missing_column sample_step_raises) as [reply [H [Ha _]]].
  exists reply. eexists. split; [exact H|exact Ha].
Defined.

End Runs.

(** ** The statements on sample queries *)

Section ParsingRuns.
Import Text QueryParsing Spec Sample.

Lemma extract_top_n_leftmost_top_3_witness :
  _extract_top_n (lit "Show the top 3 rice states") = 3.
Proof.
  apply (extract_top_n_leftmost_top_3 (lit "Show the top 3 rice states")
           (lit "show the ") (lit " rice states")).
  - reflexivity.
  - intros k Hk.
    do 9 (destruct k as [|k]; [reflexivity|]).
    simpl in Hk. lia.
  - reflexivity.
Defined.

(** C7 as the claim words it fails: this query contains the phrase
    ["top 3"] and the value is 10, the number after the first [top]. *)
Lemma extract_top_n_not_always_3 :
  contains (lit "top 3") (lit "top 10 states and top 3 crops") = true
  /\ _extract_top_n (lit "top 10 states and top 3 crops") = 10
  /\ _extract_top_n (lit "top 10 states and top 3 crops") <> 3.
Proof. repeat split; try reflexivity. discriminate. Qed.

(** The digits after [top] are read to their end: ["top 30"] holds
    ["top 3"] as well. *)
Example extract_top_n_30 :
  contains (lit "top 3") (lit "top 30 crops") = true
  /\ _extract_top_n (lit "top 30 crops") = 30.
Proof. split; reflexivity. Qed.

Lemma extract_years_shape_witness :
  _extract_years 2026 (lit "Compare rice production in Punjab and Kerala")
  = [2021; 2022; 2023; 2024; 2025].
Proof.
  apply (proj2 (proj2 (proj2
           (extract_years_shape 2026
              (lit "Compare rice production in Punjab and Kerala")))));
    reflexivity.
Defined.

(** What the pattern keeps of a year written in the query is its group,
    the century: 2015 is read as 20. *)
Example extract_years_explicit :
  _extract_years 2026 (lit "rainfall in Kerala in 2015") = [20]
  /\ _extract_years 2026 (lit "rainfall from 1999 to 2020") = [19; 20].
Proof. split; reflexivity. Qed.

Lemma extract_two_states_one_crop_witness :
  Permutation
    (_extract_states (lit "Compare rice production in Punjab and Kerala"))
    ["Punjab"; "Kerala"]
  /\ _extract_crops (lit "Compare rice production in Punjab and Kerala")
     = ["Rice"].
Proof.
  apply (extract_two_states_one_crop
           (lit "Compare rice production in Punjab and Kerala")
           "Punjab" "Kerala" "Rice").
  - simpl; tauto.
  - simpl; tauto.
  - discriminate.
  - intros s Hs. unfold names_state.
    eapply iff_trans;
      [exact (checked_iff
                (fun n => contains (lower (Unicode := tables) (lit n))
                            (lower (Unicode := tables) (lit "Compare rice production in Punjab and Kerala")))
                ["Punjab"; "Kerala"] Config.INDIAN_STATES
                ltac:(vm_compute; reflexivity) s Hs)|].
    simpl. intuition congruence.
  - intros abbr full Hin Hh. exfalso. revert Hh.
    apply (checked_never
             (fun item => abbr_in_query (U := tables) (fst item)
                            (lit "Compare rice production in Punjab and Kerala"))
             Config.STATE_ABBREVIATIONS ltac:(vm_compute; reflexivity)
             (abbr, full) Hin).
  - simpl; tauto.
  - intros x Hx. unfold names_crop.
    eapply iff_trans;
      [exact (checked_iff
                (fun n => contains (lower (Unicode := tables) (lit n))
                            (lower (Unicode := tables) (lit "Compare rice production in Punjab and Kerala")))
                ["Rice"] Config.MAJOR_CROPS ltac:(vm_compute; reflexivity) x Hx)|].
    simpl. intuition congruence.
  - intros cat l Hin.
    apply (checked_never
             (fun item => contains (lit (fst item))
                            (lower (Unicode := tables)
                               (lit "Compare rice production in Punjab and Kerala")))
             Config.CROP_CATEGORIES ltac:(vm_compute; reflexivity)
             (cat, l) Hin).
Defined.

(** C3 as the claim words it fails: this query names Punjab and Haryana
    and no other state, names wheat and no other crop, ["as"] is read as
    the abbreviation of Assam, and three states come back. *)
Lemma extract_states_extra_state :
  (forall s, In s Config.INDIAN_STATES ->
     (names_state
        (lit "Compare wheat production in Punjab and Haryana as of 2020") s
      <-> s = "Punjab" \/ s = "Haryana"))
  /\ (forall x, In x Config.MAJOR_CROPS ->
     (names_crop
        (lit "Compare wheat production in Punjab and Haryana as of 2020") x
      <-> x = "Wheat"))
  /\ _extract_states
       (lit "Compare wheat production in Punjab and Haryana as of 2020")
     = ["Haryana"; "Punjab"; "Assam"]
  /\ ~ Permutation
         (_extract_states
            (lit "Compare wheat production in Punjab and Haryana as of 2020"))
         ["Punjab"; "Haryana"].
Proof.
  split; [|split; [|split]].
  - intros s Hs. unfold names_state.
    eapply iff_trans;
      [exact (checked_iff
                (fun n => contains (lower (Unicode := tables) (lit n))
                            (lower (Unicode := tables) (lit "Compare wheat production in Punjab and Haryana as of 2020")))
                ["Punjab"; "Haryana"] Config.INDIAN_STATES
                ltac:(vm_compute; reflexivity) s Hs)|].
    simpl. intuition congruence.
  - intros x Hx. unfold names_crop.
    eapply iff_trans;
      [exact (checked_iff
                (fun n => contains (lower (Unicode := tables) (lit n))
                            (lower (Unicode := tables) (lit "Compare wheat production in Punjab and Haryana as of 2020")))
                ["Wheat"] Config.MAJOR_CROPS ltac:(vm_compute; reflexivity) x Hx)|].
    simpl. intuition congruence.
  - vm_compute. reflexivity.
  - assert (E : _extract_states
                  (lit "Compare wheat production in Punjab and Haryana as of 2020")
                = ["Haryana"; "Punjab"; "Assam"]) by (vm_compute; reflexivity).
    rewrite E. intros Hp. apply Permutation_length in Hp. discriminate Hp.
Qed.

(** The crop named [Pulses] is a category too, and brings its six crops. *)
Example extract_crops_pulses :
  (forall x, In x Config.MAJOR_CROPS ->
     (names_crop (lit "pulses in Punjab and Haryana") x <-> x = "Pulses"))
  /\ List.length (_extract_crops (lit "pulses in Punjab and Haryana")) = 7%nat.
Proof.
  split.
  - intros x Hx. unfold names_crop.
    eapply iff_trans;
      [exact (checked_iff
                (fun n => contains (lower (Unicode := tables) (lit n))
                            (lower (Unicode := tables) (lit "pulses in Punjab and Haryana")))
                ["Pulses"] Config.MAJOR_CROPS ltac:(vm_compute; reflexivity) x Hx)|].
    simpl. intuition congruence.
  - reflexivity.
Qed.

End ParsingRuns.


(* ================================================================== *)
(** * Part V.  More of the code                                        *)
(* ================================================================== *)

(** ** What the parser returns *)

Section ParserFacts.
Import Text QueryParsing Spec.
Context {U : Unicode}.

(** *** States and crops come from the configured lists, each once *)

Lemma add_abbreviation_keeps (query : text) (known found : list string)
    (item : string * string) :
  In (snd item) known ->
  NoDup found -> (forall s, In s found -> In s known) ->
  NoDup (add_abbreviation query found item)
  /\ (forall s, In s (add_abbreviation query found item) -> In s known).
Proof.
  intros Hk Hnd Hin. destruct item as [abbr full]. simpl in Hk.
  unfold add_abbreviation.
  destruct (abbr_in_query abbr query); [|auto].
  destruct (Str.mem full found) eqn:Hm; [auto|].
  split.
  - apply (Permutation_NoDup (Permutation_cons_append found full)).
    constructor; [|assumption].
    intros Hf. apply mem_In in Hf. congruence.
  - intros s Hs. apply in_app_or in Hs as [Hs|[<-|[]]]; auto.
Qed.

Lemma abbreviations_keep (query : text) (known : list string)
    (abbrs : list (string * string)) (found : list string) :
  (forall item, In item abbrs -> In (snd item) known) ->
  NoDup found -> (forall s, In s found -> In s known) ->
  NoDup (fold_left (add_abbreviation query) abbrs found)
  /\ (forall s, In s (fold_left (add_abbreviation query) abbrs found) ->
                In s known).
Proof.
  revert found. induction abbrs as [|item abbrs IH]; intros found Hk Hnd Hin;
    cbn [fold_left]; [auto|].
  destruct (add_abbreviation_keeps query known found item
              (Hk item (or_introl eq_refl)) Hnd Hin) as [Hnd' Hin'].
  apply IH; auto. intros i Hi. apply Hk. now right.
Qed.

Lemma abbreviations_name_states :
  forall item, In item Config.STATE_ABBREVIATIONS ->
               In (snd item) Config.INDIAN_STATES.
Proof.
  assert (H : forallb (fun item => Str.mem (snd item) Config.INDIAN_STATES)
                Config.STATE_ABBREVIATIONS = true) by (vm_compute; reflexivity).
  rewrite forallb_forall in H. intros item Hi. apply mem_In, H, Hi.
Qed.

(** X1: whatever the query, [_extract_states] returns states of
    [Config.INDIAN_STATES] only, and none of them twice: a state that is
    named in full and by its abbreviation is listed once. *)
Theorem extract_states_known_once (query : text) :
  NoDup (_extract_states query)
  /\ forall s, In s (_extract_states query) -> In s Config.INDIAN_STATES.
Proof.
  unfold _extract_states.
  apply abbreviations_keep.
  - exact abbreviations_name_states.
  - apply NoDup_filter, INDIAN_STATES_NoDup.
  - intros s Hs. apply filter_In in Hs. tauto.
Qed.

Lemma categories_list_crops :
  forall item, In item Config.CROP_CATEGORIES ->
               forall c, In c (snd item) -> In c Config.MAJOR_CROPS.
Proof.
  assert (H : forallb (fun item =>
                         forallb (fun c => Str.mem c Config.MAJOR_CROPS)
                                 (snd item))
                Config.CROP_CATEGORIES = true) by (vm_compute; reflexivity).
  rewrite forallb_forall in H. intros item Hi c Hc.
  specialize (H item Hi). rewrite forallb_forall in H. apply mem_In, H, Hc.
Qed.

Lemma categories_add_known (query_lower : text)
    (cats : list (string * list string)) (known found : list string) :
  (forall item, In item cats -> forall c, In c (snd item) -> In c known) ->
  (forall c, In c found -> In c known) ->
  forall c,
    In c (fold_left
            (fun (found : list string) (item : string * list string) =>
               let (category, crop_list) := item in
               if contains (lit category) query_lower
               then (found ++ crop_list)%list
               else found)
            cats found) ->
    In c known.
Proof.
  revert found. induction cats as [|[cat l] cats IH]; intros found Hk Hin c;
    cbn [fold_left]; [apply Hin|].
  apply IH.
  - intros i Hi. apply Hk. now right.
  - intros x Hx. destruct (contains (lit cat) query_lower); [|auto].
    apply in_app_or in Hx as [Hx|Hx]; [auto|].
    apply (Hk (cat, l)); [now left|exact Hx].
Qed.

(** X2: whatever the query, [_extract_crops] returns crops of
    [Config.MAJOR_CROPS] only, and none of them twice, also when a crop is
    named and its category as well. *)
Theorem extract_crops_known_once (query : text) :
  NoDup (_extract_crops query)
  /\ forall c, In c (_extract_crops query) -> In c Config.MAJOR_CROPS.
Proof.
  unfold _extract_crops, list_of_set. split; [apply NoDup_nodup|].
  intros c Hc. apply nodup_In in Hc. revert c Hc.
  apply categories_add_known.
  - exact categories_list_crops.
  - intros c Hc. apply filter_In in Hc. tauto.
Qed.

End ParserFacts.

(** ** Numbers read from the query *)

Section NumberFacts.
Import Text QueryParsing Spec.
Context {U : Unicode}.

Lemma span_all (p : char -> bool) (s : text) :
  forall c, In c (fst (span p s)) -> p c = true.
Proof.
  induction s as [|a s IH]; simpl; [tauto|].
  destruct (p a) eqn:E; [|simpl; tauto].
  destruct (span p s) as [x y]. simpl in *.
  intros c [<-|Hc]; auto.
Qed.

Lemma span_append (p : char -> bool) (s : text) :
  s = (fst (span p s) ++ snd (span p s))%list.
Proof.
  induction s as [|a s IH]; simpl; [reflexivity|].
  destruct (p a); [|reflexivity].
  destruct (span p s) as [x y]. simpl in *. now rewrite <- IH.
Qed.

Lemma strip_prefix_append (p s r : text) :
  strip_prefix p s = Some r -> s = (p ++ r)%list.
Proof.
  revert s. induction p as [|a p IH]; intros s H; simpl in *.
  - now inversion H.
  - destruct s as [|b s]; [discriminate H|].
    destruct (N.eqb_spec a b); [|discriminate H].
    subst b. now rewrite (IH s H).
Qed.

Lemma has_digit_append (a b : text) :
  has_digit (a ++ b)%list = (has_digit a || has_digit b)%bool.
Proof. unfold has_digit. apply existsb_app. Qed.

Lemma has_digit_head (s : text) :
  is_empty s = false ->
  (forall c, In c s -> is_digit c = true) ->
  has_digit s = true.
Proof.
  destruct s as [|c s]; simpl; [discriminate|].
  intros _ H. unfold has_digit. simpl. now rewrite (H c (or_introl eq_refl)).
Qed.

(** What a search finds, one of the anchored matches had. *)
Lemma search_found {A} (m : text -> option A) (P : A -> Prop) (s : text)
    (x : A) :
  (forall t y, m t = Some y -> P y) -> search m s = Some x -> P x.
Proof.
  intros Hm. induction s as [|c s IH]; simpl.
  - destruct (m []) eqn:E; [|discriminate].
    intros H. inversion H; subst. eauto.
  - destruct (m (c :: s)) eqn:E; [|exact IH].
    intros H. inversion H; subst. eauto.
Qed.

(** A search finds nothing in a text without a digit when every match holds
    one. *)
Lemma search_needs_digit {A} (m : text -> option A) (s : text) :
  (forall t y, m t = Some y -> has_digit t = true) ->
  has_digit s = false -> search m s = None.
Proof.
  intros Hm. induction s as [|c s IH]; intros Hs; simpl.
  - destruct (m []) eqn:E; [|reflexivity].
    apply Hm in E. discriminate E.
  - destruct (m (c :: s)) eqn:E.
    + apply Hm in E. congruence.
    + apply IH. unfold has_digit in *. simpl in Hs.
      now apply orb_false_iff in Hs.
Qed.

Lemma int_of_digits_nonneg (s : text) : 0 <= int_of_digits s.
Proof.
  unfold int_of_digits.
  assert (H : forall l acc,
             0 <= acc ->
             0 <= fold_left (fun acc c => 10 * acc + digit_val c) l acc).
  { induction l as [|c l IH]; cbn [fold_left]; intros acc Ha; [assumption|].
    apply IH. pose proof (digit_val_range c). lia. }
  apply H. lia.
Qed.

Lemma match_top_at_digits (t g : text) :
  match_top_at t = Some g ->
  digits_only g /\ has_digit t = true.
Proof.
  unfold match_top_at. destruct (strip_prefix (lit "top") t) as [r|] eqn:Hp;
    [|discriminate].
  pose proof (span_append is_space r) as Hr.
  destruct (span is_space r) as [ws r1]. simpl in Hr.
  pose proof (span_append is_digit r1) as Hr1.
  pose proof (span_all is_digit r1) as Hall.
  destruct (span is_digit r1) as [ds r2]. simpl in Hr1, Hall.
  destruct (is_empty ws); [discriminate|].
  destruct (is_empty ds) eqn:Hds; [discriminate|].
  simpl. intros H. inversion H; subst g. split; [exact Hall|].
  apply strip_prefix_append in Hp. subst t. rewrite Hr, Hr1.
  rewrite !has_digit_append, (has_digit_head ds Hds Hall).
  now rewrite !orb_true_r.
Qed.

Lemma match_n_most_at_digits (t g : text) :
  match_n_most_at t = Some g ->
  digits_only g /\ has_digit t = true.
Proof.
  unfold match_n_most_at.
  pose proof (span_append is_digit t) as Ht.
  pose proof (span_all is_digit t) as Hall.
  destruct (span is_digit t) as [ds r]. simpl in Ht, Hall.
  destruct (span is_space r) as [ws r1].
  destruct (is_empty ds) eqn:Hds; [discriminate|].
  destruct (is_empty ws); [discriminate|]. simpl.
  destruct (_ || _)%bool; [|discriminate].
  intros H. inversion H; subst g. split; [exact Hall|].
  rewrite Ht, has_digit_append, (has_digit_head ds Hds Hall). reflexivity.
Qed.

(** X3: the number [_extract_top_n] returns is never negative, and it is
    the default 5 for every query whose lowered text holds no decimal
    digit, of any script. *)
Theorem extract_top_n_default (query : text) :
  0 <= _extract_top_n query
  /\ (has_digit (lower query) = false -> _extract_top_n query = 5).
Proof.
  unfold _extract_top_n. split.
  - destruct (search match_top_at (lower query)) as [g|];
      [apply int_of_digits_nonneg|].
    destruct (search match_n_most_at (lower query)) as [g|];
      [apply int_of_digits_nonneg|lia].
  - intros Hd.
    rewrite (search_needs_digit match_top_at _
               (fun t y H => proj2 (match_top_at_digits t y H)) Hd).
    rewrite (search_needs_digit match_n_most_at _
               (fun t y H => proj2 (match_n_most_at_digits t y H)) Hd).
    reflexivity.
Qed.

End NumberFacts.

(** ** Years *)

Section MoreYears.
Import Text QueryParsing Spec.
Context {U : Unicode}.

Lemma seq_map_increasing (a : Z) (n start : nat) :
  increasing (map (fun i => a + Z.of_nat i) (seq start n)).
Proof.
  unfold increasing. revert start.
  induction n as [|n IH]; intros start; simpl; constructor; [apply IH|].
  apply Forall_forall. intros y Hy.
  apply in_map_iff in Hy as [i [<- Hi]]. apply in_seq in Hi. lia.
Qed.

Lemma range_increasing (a b : Z) : increasing (range a b).
Proof. apply seq_map_increasing. Qed.

Lemma range_length (a b : Z) : List.length (range a b) = Z.to_nat (b - a).
Proof. unfold range. now rewrite length_map, length_seq. Qed.

Lemma range_In (a b y : Z) : In y (range a b) <-> a <= y < b.
Proof.
  unfold range. rewrite in_map_iff. split.
  - intros [i [<- Hi]]. apply in_seq in Hi. lia.
  - intros H. exists (Z.to_nat (y - a)). split; [lia|].
    apply in_seq. lia.
Qed.

Lemma range_10 (cy : Z) :
  range (cy - 10) cy
  = [cy - 10; cy - 9; cy - 8; cy - 7; cy - 6;
     cy - 5; cy - 4; cy - 3; cy - 2; cy - 1].
Proof.
  unfold range. replace (cy - (cy - 10)) with 10 by lia.
  simpl. repeat (f_equal; try lia).
Qed.

Lemma contains_split (needle hay : text) :
  contains needle hay = true ->
  exists pre post, hay = (pre ++ needle ++ post)%list.
Proof.
  induction hay as [|c hay IH]; simpl.
  - unfold startswith. destruct (strip_prefix needle []) as [r|] eqn:E;
      [|discriminate].
    intros _. exists [], r. simpl.
    exact (strip_prefix_append _ _ _ E).
  - intros H. apply orb_true_iff in H as [H|H].
    + unfold startswith in H.
      destruct (strip_prefix needle (c :: hay)) as [r|] eqn:E;
        [|discriminate].
      exists [], r. simpl.
      exact (strip_prefix_append _ _ _ E).
    + destruct (IH H) as [pre [post E]].
      exists (c :: pre), post. simpl. now rewrite E.
Qed.

(** A search finds a match when one begins somewhere in the text. *)
Lemma search_hits {A} (m : text -> option A) (pre rest : text) :
  m rest <> None -> search m (pre ++ rest)%list <> None.
Proof.
  intros Hm. induction pre as [|c pre IH]; simpl.
  - destruct rest; simpl; destruct (m _); congruence.
  - destruct (m (c :: (pre ++ rest)%list)); [discriminate|exact IH].
Qed.

Lemma decade_phrase_found (query : text) (phrase : string) :
  In phrase decade_phrases -> contains (lit phrase) (lower query) = true ->
  search match_decade_at (lower query) = Some tt.
Proof.
  intros Hp Hc. destruct (contains_split _ _ Hc) as [pre [post E]].
  assert (Hm : match_decade_at (lit phrase ++ post)%list <> None).
  { simpl in Hp.
    destruct Hp as [<-|[<-|[<-|[<-|[<-|[<-|[]]]]]]];
      unfold match_decade_at; simpl;
      unfold startswith; simpl; discriminate. }
  rewrite E. pose proof (search_hits match_decade_at pre _ Hm) as H.
  destruct (search match_decade_at (pre ++ lit phrase ++ post)%list) as [[]|];
    [reflexivity|congruence].
Qed.

(** X4: a query that holds one of the decade phrases gets the ten years
    before the current one, whatever years or [last N years] it holds as
    well. *)
Theorem extract_years_decade (current_year : Z) (query : text)
    (phrase : string) :
  In phrase decade_phrases -> contains (lit phrase) (lower query) = true ->
  _extract_years current_year query
  = [current_year - 10; current_year - 9; current_year - 8; current_year - 7;
     current_year - 6; current_year - 5; current_year - 4; current_year - 3;
     current_year - 2; current_year - 1].
Proof.
  intros Hp Hc. unfold _extract_years.
  rewrite (decade_phrase_found query phrase Hp Hc).
  rewrite <- range_10. pose proof (range_length (current_year - 10) current_year) as Hl.
  destruct (range (current_year - 10) current_year) as [|y l] eqn:E.
  - simpl in Hl. lia.
  - rewrite <- E. apply sorted_set_fixed, range_increasing.
Qed.

(** X5: when the leftmost [last N years] of a query without a decade phrase
    has N above 0, the years returned are the N years before the current
    one, whatever years the query writes out; [last 0 years] gets the five
    years of the default. *)
Theorem extract_years_last_n (current_year : Z) (query g : text) :
  last_n_years query g -> no_decade query ->
  0 <= int_of_digits g
  /\ (0 < int_of_digits g ->
      _extract_years current_year query
      = range (current_year - int_of_digits g) current_year
      /\ List.length (_extract_years current_year query)
         = Z.to_nat (int_of_digits g)
      /\ forall y, In y (_extract_years current_year query)
                   <-> current_year - int_of_digits g <= y < current_year)
  /\ (int_of_digits g = 0 ->
      _extract_years current_year query
      = [current_year - 5; current_year - 4; current_year - 3;
         current_year - 2; current_year - 1]).
Proof.
  unfold last_n_years, no_decade. intros Hl Hd.
  pose proof (int_of_digits_nonneg g) as Hn.
  split; [exact Hn|]. unfold _extract_years. rewrite Hl, Hd.
  set (n := int_of_digits g) in *. split.
  - intros Hpos.
    assert (E : sorted_set
                  (match range (current_year - n) current_year with
                   | [] => range (current_year - 5) current_year
                   | _ :: _ => range (current_year - n) current_year
                   end)
                = range (current_year - n) current_year).
    { pose proof (range_length (current_year - n) current_year) as Hlen.
      destruct (range (current_year - n) current_year) as [|y l] eqn:E.
      - simpl in Hlen. lia.
      - rewrite <- E. apply sorted_set_fixed, range_increasing. }
    rewrite E. split; [reflexivity|]. split.
    + rewrite range_length. f_equal. lia.
    + intros y. apply range_In.
  - intros Hz. rewrite Hz.
    replace (current_year - 0) with current_year by lia.
    assert (E : range current_year current_year = []).
    { unfold range. now rewrite Z.sub_diag. }
    rewrite E, range_5. apply sorted_set_fixed, five_years_increasing.
Qed.

(** What [findall] lists, the anchored matcher gave. *)
Lemma findall_all (m : bool -> text -> option (text * nat))
    (P : text -> Prop) :
  (forall b t g n, m b t = Some (g, n) -> P g) ->
  forall s busy b, Forall P (findall m busy b s).
Proof.
  intros Hm. induction s as [|c s IH]; intros busy b; simpl; [constructor|].
  destruct busy as [|k]; [|apply IH].
  destruct (m b (c :: s)) as [[g n]|] eqn:E; [|apply IH].
  constructor; [eauto|apply IH].
Qed.

Lemma int_of_19 : int_of_digits (lit "19") = 19.
Proof.
  unfold int_of_digits. cbn [lit list_ascii_of_string map fold_left].
  change (N_of_ascii "1") with 49%N. change (N_of_ascii "9") with 57%N.
  rewrite (digit_val_below_128 49%N), (digit_val_below_128 57%N);
    reflexivity.
Qed.

Lemma int_of_20 : int_of_digits (lit "20") = 20.
Proof.
  unfold int_of_digits. cbn [lit list_ascii_of_string map fold_left].
  change (N_of_ascii "2") with 50%N. change (N_of_ascii "0") with 48%N.
  rewrite (digit_val_below_128 50%N), (digit_val_below_128 48%N);
    reflexivity.
Qed.

Lemma match_year_at_century (b : bool) (t g : text) (n : nat) :
  match_year_at b t = Some (g, n) -> int_of_digits g = 19 \/ int_of_digits g = 20.
Proof.
  unfold match_year_at. destruct b; [discriminate|]. cbv zeta.
  destruct (strip_prefix (lit "19") t) as [r|].
  - destruct r as [|c [|d r]]; try discriminate.
    destruct (_ && _)%bool; [|discriminate].
    intros H. inversion H; subst g n. left. apply int_of_19.
  - destruct (strip_prefix (lit "20") t) as [r|]; [|discriminate].
    destruct r as [|c [|d r]]; try discriminate.
    destruct (_ && _)%bool; [|discriminate].
    intros H. inversion H; subst g n. right. apply int_of_20.
Qed.

(** X6: in a query without [last N years] and without a decade phrase, a
    year that is written out is returned as its century: every year
    returned is 19 or 20. *)
Theorem extract_years_explicit_century (current_year : Z) (query : text) :
  ~ no_explicit_year query -> no_last_n_years query -> no_decade query ->
  forall y, In y (_extract_years current_year query) -> y = 19 \/ y = 20.
Proof.
  unfold no_explicit_year, no_last_n_years, no_decade.
  intros Hy Hl Hd y. unfold _extract_years. rewrite Hl, Hd.
  pose proof (findall_all match_year_at
                (fun g => int_of_digits g = 19 \/ int_of_digits g = 20)
                match_year_at_century query 0 false) as Hall.
  destruct (findall match_year_at 0 false query) as [|g l] eqn:E;
    [contradiction|].
  cbn [map]. cbv iota. rewrite sorted_set_In. intros Hin.
  change (In y (map int_of_digits (g :: l))) in Hin.
  apply in_map_iff in Hin as [x [<- Hx]].
  rewrite Forall_forall in Hall. auto.
Qed.

(** *** Intent and metrics *)

Lemma detect_intent_known (query : text) : In (_detect_intent query) intents.
Proof.
  unfold _detect_intent.
  destruct (find (fun p => snd p query) intent_patterns) as [[i f]|] eqn:E.
  - apply find_some in E as [Hin _]. simpl in Hin.
    destruct Hin as [H|[H|[H|[H|[]]]]]; inversion H; subst; simpl; tauto.
  - destruct (existsb _ _); simpl; tauto.
Qed.

(** X7: the parsed query has one of the five intents, its metrics are
    never empty and hold nothing but rainfall and production, and both are
    asked for when the query names neither. *)
Theorem parse_query_intent_and_metrics (current_year : Z) (query : text) :
  In (intent (_parse_query current_year query)) intents
  /\ metrics (_parse_query current_year query) <> []
  /\ (forall m, In m (metrics (_parse_query current_year query)) ->
                m = "rainfall" \/ m = "production")
  /\ (search_words ["rainfall"; "precipitation"; "monsoon"] false (lower query)
      = false ->
      search_words ["production"; "yield"; "output"; "harvest"] false (lower query)
      = false ->
      metrics (_parse_query current_year query) = ["production"; "rainfall"]).
Proof.
  unfold _parse_query. cbn [intent metrics].
  split; [apply detect_intent_known|].
  destruct (search_words ["rainfall"; "precipitation"; "monsoon"] false
              (lower query)),
    (search_words ["production"; "yield"; "output"; "harvest"] false
       (lower query)); simpl;
    (split; [discriminate|]); (split; [intuition|]); intros; congruence.
Qed.

End MoreYears.

(** ** More of the analyses *)

Section MoreAnalyses.
Import Py Pandas Types AnalyticsEngine Spec.
Local Open Scope py_scope.
Context {F : Type} {kernel : Kernel F}.

(** X8: when there is an entry for production, the trend is read from it
    and from nothing else: with an empty frame, with no year column, or
    with one distinct year or none, the trend summary is empty, with no data
    point and confidence 0, whatever rainfall data there is. *)
Theorem trend_needs_two_years (pq : ParsedQuery) (dr : DataResults F)
    (info : DataInfo F) :
  dict_get "production" dr = Some info ->
  empty (dataframe info) = true
  \/ has_column "year" (dataframe info) = false
  \/ (has_column "production_tonnes" (dataframe info) = true
      /\ (distinct_years (dataframe info) <= 1)%nat) ->
  trend_analysis pq dr = Ok (mk_analysis (trend_summary None) dr 0 0).
Proof.
  intros Hp Hcase. unfold trend_analysis. rewrite Hp. unfold trend_of.
  destruct (empty (dataframe info)) eqn:He; [reflexivity|].
  destruct (has_column "year" (dataframe info)) eqn:Hy; [|reflexivity].
  destruct Hcase as [H|[H|[Hv Hd]]]; try discriminate H.
  unfold groupby_column. rewrite Hy, Hv. cbn [negb andb bind].
  rewrite by_year_length, map_map. cbn [fst].
  unfold distinct_years in Hd.
  match goal with
  | |- context [1 <? Z.of_nat ?n] =>
      change n
        with (List.length (nodup Z.eq_dec (map year (rows (dataframe info)))));
      destruct (Z.ltb_spec 1
                  (Z.of_nat
                     (List.length
                        (nodup Z.eq_dec (map year (rows (dataframe info)))))));
      [lia|reflexivity]
  end.
Qed.

Lemma head_length {A} (n : Z) (l : list A) :
  0 <= n -> Z.of_nat (List.length (head n l)) <= n.
Proof.
  intros Hn. unfold head. destruct (Z.leb_spec 0 n); [|lia].
  rewrite length_firstn. lia.
Qed.

(** X9: for a number N that is not negative, the ranking holds N results
    at most; they are crops measured in tonnes when there is an entry for
    production, and states measured in mm otherwise. *)
Theorem top_n_at_most (pq : ParsedQuery) (dr : DataResults F) (a : Analysis F) :
  0 <= top_n pq -> top_n_analysis pq dr = Ok a ->
  exists l,
    body a = top_results l
    /\ Z.of_nat (List.length l) <= top_n pq
    /\ forall r, In r l ->
         top_unit r = if dict_has "production" dr then "tonnes" else "mm".
Proof.
  intros Hn H. unfold top_n_analysis in H. unfold dict_has.
  assert (Hunit : forall u n (l : list (string * F)) r,
             In r (as_top u (head n l)) -> top_unit r = u).
  { intros u n l r Hr. unfold as_top in Hr.
    apply in_map_iff in Hr as [kv [<- _]]. reflexivity. }
  assert (Hlen : forall u (l : list (string * F)),
             Z.of_nat (List.length (as_top u (head (top_n pq) l))) <= top_n pq).
  { intros u l. unfold as_top. rewrite length_map. now apply head_length. }
  destruct (dict_get "production" dr) as [pi|].
  - destruct (negb (empty (dataframe pi))); simpl in H.
    + destruct (groupby_column _ _ _ _ _) as [kv|e]; simpl in H;
        [|discriminate H].
      inversion H; subst a. eexists. split; [reflexivity|]. eauto.
    + inversion H; subst a. exists []. simpl. repeat split; [lia|tauto].
  - destruct (dict_get "rainfall" dr) as [ri|].
    + destruct (negb (empty (dataframe ri))); simpl in H.
      * destruct (groupby_column _ _ _ _ _) as [kv|e]; simpl in H;
          [|discriminate H].
        inversion H; subst a. eexists. split; [reflexivity|]. eauto.
      * inversion H; subst a. exists []. simpl. repeat split; [lia|tauto].
    + inversion H; subst a. exists []. simpl. repeat split; [lia|tauto].
Qed.

Lemma unique_In (x : string) (l : list string) : In x (unique l) <-> In x l.
Proof.
  induction l as [|y l IH]; simpl; [tauto|].
  rewrite filter_In, IH. split.
  - intros [H|[H _]]; auto.
  - intros [H|H]; [auto|].
    destruct (String.eqb_spec y x); [auto|right; auto].
Qed.

Lemma fold_dict_set_get {A V} (f : A -> string) (g : A -> V) (l : list A)
    (d : dict V) (k : string) (v : V) :
  dict_get k (fold_left (fun acc x => dict_set (f x) (g x) acc) l d) = Some v ->
  (exists x, In x l /\ f x = k /\ v = g x) \/ dict_get k d = Some v.
Proof.
  revert d. induction l as [|x l IH]; intros d H; cbn [fold_left] in H; [auto|].
  destruct (IH _ H) as [[y [Hy Hk]]|Hd].
  - left. exists y. split; [now right|exact Hk].
  - destruct (String.eqb_spec k (f x)) as [E|E].
    + subst k. rewrite dict_get_set_same in Hd. inversion Hd; subst v.
      left. exists x. split; [now left|auto].
    + rewrite dict_get_set_other in Hd by exact E. auto.
Qed.

Lemma fold_dict_set_has {A V} (f : A -> string) (g : A -> V) (l : list A)
    (d : dict V) (k : string) :
  dict_has k (fold_left (fun acc x => dict_set (f x) (g x) acc) l d) = true
  <-> (exists x, In x l /\ f x = k) \/ dict_has k d = true.
Proof.
  revert d. induction l as [|x l IH]; intros d; cbn [fold_left].
  - split; [auto|]. intros [[x [[] _]]|H]; exact H.
  - rewrite IH. unfold dict_has. split.
    + intros [[y [Hy Hk]]|H].
      * left. exists y. split; [now right|exact Hk].
      * destruct (String.eqb_spec k (f x)) as [E|E].
        -- left. exists x. split; [now left|auto].
        -- rewrite dict_get_set_other in H by exact E. auto.
    + intros [[y [[<-|Hy] Hk]]|H].
      * right. subst k. now rewrite dict_get_set_same.
      * left. exists y. auto.
      * right. destruct (String.eqb_spec k (f x)) as [E|E].
        -- subst k. now rewrite dict_get_set_same.
        -- now rewrite dict_get_set_other by exact E.
Qed.

Lemma crop_summary_shape (df : DataFrame F) (cs : dict (list (string * F))) :
  crop_summary_of df = Ok cs ->
  (forall st, dict_has st cs = true
              <-> exists r, In r (rows df) /\ state r = st)
  /\ (forall st l, dict_get st cs = Some l -> (List.length l <= 5)%nat).
Proof.
  unfold crop_summary_of, column. intros H.
  destruct (has_column "state" df); simpl in H; [|discriminate H].
  destruct (has_column "crop" df); simpl in H; [|discriminate H].
  destruct (has_column "production_tonnes" df); simpl in H; [|discriminate H].
  inversion H as [E]. clear H. split.
  - intros st.
    rewrite (fold_dict_set_has (fun st => st)
               (fun st => top_crops_of
                            (filter (fun r => String.eqb (state r) st) (rows df)))).
    split.
    + intros [[x [Hx <-]]|Hf]; [|discriminate Hf].
      apply unique_In, in_map_iff in Hx as [r [Hr Hin]]. eauto.
    + intros [r [Hr <-]]. left. exists (state r). split; [|reflexivity].
      apply unique_In, in_map_iff. eauto.
  - intros st l Hl.
    apply (fold_dict_set_get (fun st => st)
             (fun st => top_crops_of
                          (filter (fun r => String.eqb (state r) st) (rows df))))
      in Hl as [[x [_ [_ ->]]]|Hf]; [|discriminate Hf].
    unfold top_crops_of.
    match goal with
    | |- (List.length (head 5 ?x) <= 5)%nat =>
        pose proof (head_length 5 x ltac:(lia))
    end. lia.
Qed.

(** X10: in a comparison, the crops are listed for each state that has a
    row in the production data and for no other, and no state is given more
    than five crops. *)
Theorem compare_crops_per_state (pq : ParsedQuery) (dr : DataResults F)
    (info : DataInfo F) (a : Analysis F) (s : CompareSummary)
    (cs : dict (list (string * F))) :
  dict_get "production" dr = Some info ->
  compare_analysis pq dr = Ok a ->
  body a = summary_compare s -> crop_comparison s = Some cs ->
  (forall st, dict_has st cs = true
              <-> exists r, In r (rows (dataframe info)) /\ state r = st)
  /\ (forall st l, dict_get st cs = Some l -> (List.length l <= 5)%nat).
Proof.
  intros Hp H Hb Hc. unfold compare_analysis in H. rewrite Hp in H.
  destruct (match dict_get "rainfall" dr with Some _ => _ | None => _ end)
    as [rain|e]; simpl in H; [|discriminate H].
  destruct (negb (empty (dataframe info))); simpl in H.
  - destruct (crop_summary_of (dataframe info)) as [cs'|e] eqn:E; simpl in H;
      [|discriminate H].
    inversion H; subst a. simpl in Hb. inversion Hb; subst s. simpl in Hc.
    inversion Hc; subst cs'. now apply crop_summary_shape.
  - inversion H; subst a. simpl in Hb. inversion Hb; subst s. discriminate Hc.
Qed.

Lemma general_step_sum (l : DataResults F) (acc : dict GeneralEntry * Z) :
  snd (fold_left general_step l acc)
  = snd acc
    + fold_right Z.add 0
        (map (fun item => len (dataframe (snd item)))
             (filter (fun item => negb (empty (dataframe (snd item)))) l)).
Proof.
  revert acc. induction l as [|item l IH]; intros acc; cbn [fold_left filter].
  - simpl. lia.
  - rewrite IH. unfold general_step.
    destruct (negb (empty (dataframe (snd item)))); simpl; lia.
Qed.

Lemma general_step_has (l : DataResults F) (acc : dict GeneralEntry * Z)
    (k : string) :
  dict_has k (fst (fold_left general_step l acc)) = true
  <-> (exists info, In (k, info) l /\ empty (dataframe info) = false)
      \/ dict_has k (fst acc) = true.
Proof.
  revert acc. induction l as [|[k' info'] l IH]; intros acc; cbn [fold_left].
  - split; [auto|]. intros [[x [[] _]]|H]; exact H.
  - rewrite IH. unfold general_step, dict_has. cbn [fst snd]. split.
    + intros [[info [Hin He]]|H].
      * left. exists info. split; [now right|exact He].
      * destruct (empty (dataframe info')) eqn:He; cbn [negb fst] in H;
          [now right|].
        destruct (String.eqb_spec k k') as [E|E].
        -- subst k'. left. exists info'. split; [now left|exact He].
        -- rewrite dict_get_set_other in H by exact E. now right.
    + intros [[info [[Hin|Hin] He]]|H].
      * inversion Hin; subst k' info'. right. rewrite He. cbn [negb fst].
        now rewrite dict_get_set_same.
      * left. exists info. auto.
      * right. destruct (empty (dataframe info')); cbn [negb fst]; [exact H|].
        destruct (String.eqb_spec k k') as [E|E].
        -- subst k'. now rewrite dict_get_set_same.
        -- now rewrite dict_get_set_other by exact E.
Qed.

(** X11: the general analysis returns for any data; it counts the rows
    of the frames that are not empty, and describes the entries that hold
    such a frame and no other. *)
Theorem general_analysis_counts (pq : ParsedQuery) (dr : DataResults F) :
  exists s,
    general_analysis pq dr
    = Ok (mk_analysis (summary_general s) dr
            (_calculate_confidence
               (fold_right Z.add 0
                  (map (fun item => len (dataframe (snd item)))
                       (filter (fun item => negb (empty (dataframe (snd item))))
                               dr))))
            (fold_right Z.add 0
               (map (fun item => len (dataframe (snd item)))
                    (filter (fun item => negb (empty (dataframe (snd item))))
                            dr))))
    /\ forall k, dict_has k s = true
                 <-> exists info, In (k, info) dr
                                  /\ empty (dataframe info) = false.
Proof.
  exists (fst (fold_left general_step dr ([], 0))). split.
  - unfold general_analysis. rewrite general_step_sum. reflexivity.
  - intros k. rewrite general_step_has. split; [|auto].
    intros [H|H]; [exact H|discriminate H].
Qed.

End MoreAnalyses.

Section MoreAnalysesRuns.
Import Py Pandas Types AnalyticsEngine XQ Spec Sample.

Lemma trend_needs_two_years_witness :
  trend_analysis pq one_year
  = Ok (mk_analysis (trend_summary None) one_year 0 0).
Proof.
  apply (trend_needs_two_years pq one_year
           (mk_info (mk_df ["state"; "crop"; "year"; "production_tonnes"]
                       [prod_row 2023 150; prod_row 2023 160]) citation)).
  - reflexivity.
  - right. right. split; [reflexivity|]. vm_compute. lia.
Defined.

Lemma top_n_at_most_witness :
  exists l,
    body (mk_analysis
            (top_results [mk_top "Rice" (Fin 50) "tonnes";
                          mk_top "Wheat" (Fin 10) "tonnes"])
            crops_only (5 # 10) 4)
    = top_results l
    /\ Z.of_nat (List.length l) <= top_n pq_top
    /\ forall r, In r l ->
         top_unit r = if dict_has "production" crops_only then "tonnes" else "mm".
Proof.
  apply (top_n_at_most pq_top crops_only).
  - vm_compute. discriminate.
  - vm_compute. reflexivity.
Defined.

Lemma compare_crops_per_state_witness :
  (forall st,
      dict_has st [("Punjab", [("Rice", Fin 30); ("Wheat", Fin 10);
                               ("Maize", Fin 5)]);
                   ("Kerala", [("Rice", Fin 20)])] = true
      <-> exists r, In r (rows crops_frame) /\ state r = st)
  /\ (forall st l,
         dict_get st [("Punjab", [("Rice", Fin 30); ("Wheat", Fin 10);
                                  ("Maize", Fin 5)]);
                      ("Kerala", [("Rice", Fin 20)])] = Some l ->
         (List.length l <= 5)%nat).
Proof.
  apply (compare_crops_per_state pq crops_only (mk_info crops_frame citation)
           (mk_analysis
              (summary_compare
                 (mk_compare None
                    (Some [("Punjab", [("Rice", Fin 30); ("Wheat", Fin 10);
                                       ("Maize", Fin 5)]);
                           ("Kerala", [("Rice", Fin 20)])])))
              crops_only (5 # 10) 4)
           (mk_compare None
              (Some [("Punjab", [("Rice", Fin 30); ("Wheat", Fin 10);
                                 ("Maize", Fin 5)]);
                     ("Kerala", [("Rice", Fin 20)])]))).
  - reflexivity.
  - vm_compute. reflexivity.
  - reflexivity.
  - reflexivity.
Defined.

End MoreAnalysesRuns.

(** ** More of the fetcher *)

Section RateLimit.
Import Py Json Types DataFetcher Spec.
Context {F : Type} {kernel : Kernel F}.

Lemma Qmin_cases (a b : Q) : Qmin a b = a \/ Qmin a b = b.
Proof.
  unfold Qmin, GenericMinMax.gmin. destruct (a ?= b)%Q; auto.
Qed.

Lemma fold_min_In (ts : list Q) (t : Q) : In (fold_left Qmin ts t) (t :: ts).
Proof.
  revert t. induction ts as [|u ts IH]; intros t; cbn [fold_left].
  - now left.
  - destruct (IH (Qmin t u)) as [H|H].
    + rewrite <- H. destruct (Qmin_cases t u) as [E|E]; rewrite E.
      * now left.
      * right. now left.
    + right. now right.
Qed.

Lemma fold_min_le (ts : list Q) (t : Q) :
  forall u, In u (t :: ts) -> (fold_left Qmin ts t <= u)%Q.
Proof.
  revert t. induction ts as [|v ts IH]; intros t u Hu; cbn [fold_left].
  - destruct Hu as [<-|[]]. apply Qle_refl.
  - destruct Hu as [<-|[<-|Hu]].
    + apply Qle_trans with (Qmin t v); [apply IH; now left|apply Q.le_min_l].
    + apply Qle_trans with (Qmin t v); [apply IH; now left|apply Q.le_min_r].
    + apply IH. now right.
Qed.

(** X12: the rate limit keeps the request times of the last hour and
    forgets the others; the clock never goes back; below 100 requests in
    the last hour nothing is waited for, and from 100 on the call sleeps
    until the oldest of them is one hour old. *)
Theorem check_rate_limit_waits (w : World F) :
  let recent :=
    filter (fun t => Qltb (clock w - t)%Q (inject_Z 3600)) (request_times w) in
  request_times (_check_rate_limit w) = recent
  /\ (clock w <= clock (_check_rate_limit w))%Q
  /\ ((List.length recent < Config.API_RATE_LIMIT)%nat ->
      clock (_check_rate_limit w) = clock w)
  /\ ((Config.API_RATE_LIMIT <= List.length recent)%nat ->
      exists oldest,
        In oldest recent
        /\ (forall t, In t recent -> (oldest <= t)%Q)
        /\ (clock (_check_rate_limit w) == oldest + inject_Z 3600)%Q).
Proof.
  intros recent. unfold _check_rate_limit. fold recent.
  destruct (Nat.leb_spec Config.API_RATE_LIMIT (List.length recent)) as [Hfull|Hfew].
  - destruct recent as [|t ts] eqn:E.
    { unfold Config.API_RATE_LIMIT in Hfull. simpl in Hfull. lia. }
    pose proof (fold_min_In ts t) as Hin.
    pose proof (fold_min_le ts t) as Hle.
    set (oldest := fold_left Qmin ts t) in *.
    assert (Hrecent : (clock w - oldest < inject_Z 3600)%Q).
    { rewrite <- E in Hin. unfold recent in Hin.
      apply filter_In in Hin as [_ Hin]. now apply Qltb_lt in Hin. }
    assert (Hwait : Qltb 0 (inject_Z 3600 - (clock w - oldest)) = true).
    { apply Qltb_lt. apply (Qplus_lt_l _ _ (clock w - oldest)).
      ring_simplify. ring_simplify in Hrecent. exact Hrecent. }
    cbn [set_request_times clock request_times]. rewrite Hwait.
    cbn [set_clock clock request_times].
    split; [reflexivity|]. split; [|split].
    + apply Qltb_lt in Hwait.
      apply Qle_trans with (clock w + 0)%Q.
      * rewrite Qplus_0_r. apply Qle_refl.
      * apply Qplus_le_r. now apply Qlt_le_weak.
    + intros Hlt. simpl in Hlt. unfold Config.API_RATE_LIMIT in *.
      simpl in Hfull. lia.
    + intros _. exists oldest. split; [exact Hin|]. split; [exact Hle|]. ring.
  - cbn [set_request_times clock request_times].
    split; [reflexivity|]. split; [apply Qle_refl|]. split; [reflexivity|].
    intros Hfull. lia.
Qed.

End RateLimit.

Section MoreFetching.
Import Py Json Types DataFetcher Spec.
Local Open Scope py_scope.
Context {F : Type} {kernel : Kernel F} (env : Env).

(** X13: for a name that is not among the endpoints of the
    configuration, [fetch_data] does not raise: it returns the demo payload
    with no record, in demo mode or not, and touches neither the cache nor
    the network. *)
Theorem fetch_data_unknown_endpoint (endpoint : string) (filters : dict pyval)
    (w : World F) :
  dict_get endpoint Config.API_ENDPOINTS = None ->
  fetch_data env endpoint filters w
  = (Ok (demo_payload env endpoint filters [] (clock w)), w).
Proof.
  intros Hnone. unfold fetch_data, get_api_url. rewrite Hnone.
  unfold _get_demo_data, demo_records.
  destruct (String.eqb_spec endpoint "imd_rainfall") as [->|_];
    [discriminate Hnone|].
  destruct (String.eqb_spec endpoint "agriculture_production") as [->|_];
    [discriminate Hnone|].
  destruct (String.eqb_spec endpoint "district_wise_crops") as [->|_];
    [discriminate Hnone|].
  reflexivity.
Qed.

(** X14: a fetch that the API answers with a body whose records can be
    counted writes its payload to the cache, and the same fetch made again
    less than [CACHE_TTL] seconds later returns that payload marked
    [from_cache] without a second request. *)
Theorem fetch_then_refetch (endpoint url : string) (filters : dict pyval)
    (w : World F) (data : json F) (count : Z) (now : Q) :
  get_api_url endpoint = Ok url ->
  is_demo_mode env = false ->
  no_fresh_entry env endpoint filters w ->
  answer_to env url filters w = Body data ->
  records_count_of data = Ok count ->
  writable w = true ->
  let out := fetch_data env endpoint filters w in
  (now - clock (snd out) < inject_Z Config.CACHE_TTL)%Q ->
  let later := set_clock now (snd out) in
  exists d,
    fst out = Ok (JDict d)
    /\ fetch_data env endpoint filters later
       = (Ok (JDict (dict_set "from_cache" (JBool true) d)), later)
    /\ sent later = (sent w ++ [request_of env url filters])%list.
Proof.
  intros Hu Hd Hn Ha Hc Hw. cbv zeta.
  rewrite (fetch_data_goes_live env endpoint url filters w Hu Hn Hd).
  rewrite fetch_live_cases, Ha, Hc. cbv zeta. cbn [fst snd].
  set (w' := set_request_times _ (asked env url filters w)).
  set (result := live_payload env endpoint url _ data count (clock w')).
  intros Hage.
  set (later := set_clock now
                  (_write_cache (path_of env endpoint filters) result w')).
  assert (Hw' : writable w' = true).
  { unfold w', asked. simpl. now rewrite (proj2 (proj2 (proj2
      (check_rate_limit_keeps w)))). }
  destruct (write_then_read (path_of env endpoint filters) result w' Hw')
    as [_ Hfile].
  assert (Hclock : clock (_write_cache (path_of env endpoint filters) result w')
                   = clock w').
  { unfold _write_cache. rewrite Hw'. reflexivity. }
  rewrite Hclock in Hage.
  eexists. split; [reflexivity|]. split.
  - apply (fetch_data_hit env endpoint url filters later
             (mk_file (clock w') (Some result)) _ Hu).
    + exact Hfile.
    + reflexivity.
    + discriminate.
    + exact Hage.
  - subst later. cbn [set_clock sent]. unfold _write_cache. rewrite Hw'.
    cbn [set_files sent]. unfold w'. cbn [set_request_times sent].
    apply asked_sent.
Qed.

(** The parameters of a request: what [get_api_params] starts from, and
    the filters it adds. *)
Lemma conditional_fold {A B} (c : A -> bool) (f : B -> A -> B) (l : list A)
    (b : B) :
  fold_left (fun acc x => if c x then f acc x else acc) l b
  = fold_left f (filter c l) b.
Proof.
  revert b. induction l as [|x l IH]; intros b; cbn [fold_left filter];
    [reflexivity|].
  destruct (c x); cbn [fold_left]; apply IH.
Qed.

Lemma filter_key_injective (k k' : string) :
  ("filters[" ++ k ++ "]")%string = ("filters[" ++ k' ++ "]")%string -> k = k'.
Proof.
  intros H. simpl in H. repeat (injection H as H).
  revert k' H. induction k as [|c k IH]; intros [|c' k'] H; simpl in H.
  - reflexivity.
  - destruct k'; discriminate H.
  - destruct k; discriminate H.
  - injection H as -> H. f_equal. now apply IH.
Qed.

(** X15: every request carries the API key, the format [json], and a
    limit and an offset, 1000 and 0 unless given; a filter is sent under
    [filters[name]] exactly when it is given with a value that is not
    [None] and is neither the limit nor the offset. *)
Theorem get_api_params_shape (kwargs : dict pyval) :
  let params := get_api_params env kwargs in
  dict_get "api-key" params = Some (PStr (DATA_GOV_API_KEY env))
  /\ dict_get "format" params = Some (PStr "json")
  /\ dict_get "limit" params = Some (get_or "limit" (PInt 1000) kwargs)
  /\ dict_get "offset" params = Some (get_or "offset" (PInt 0) kwargs)
  /\ forall k,
       dict_has ("filters[" ++ k ++ "]") params = true
       <-> exists v, In (k, v) kwargs /\ v <> PNone
                     /\ k <> "limit" /\ k <> "offset".
Proof.
  intros params. subst params. unfold get_api_params.
  set (c := fun kv : string * pyval =>
              (negb (Str.mem (fst kv) ["limit"; "offset"])
               && negb (is_none (snd kv)))%bool).
  set (start := [("api-key", PStr (DATA_GOV_API_KEY env)); _; _; _]).
  rewrite (conditional_fold c
             (fun params kv => dict_set ("filters[" ++ fst kv ++ "]") (snd kv)
                                        params)).
  assert (Hkeep : forall k v,
             (forall x, ("filters[" ++ x ++ "]")%string <> k) ->
             dict_get k start = Some v ->
             dict_get k
               (fold_left
                  (fun params kv =>
                     dict_set ("filters[" ++ fst kv ++ "]") (snd kv) params)
                  (filter c kwargs) start) = Some v).
  { intros k v Hk. generalize start.
    induction (filter c kwargs) as [|kv l IH]; intros d Hd; cbn [fold_left];
      [exact Hd|].
    apply IH. rewrite dict_get_set_other; [exact Hd|].
    intros E. exact (Hk (fst kv) (eq_sym E)). }
  repeat split; try (apply Hkeep; [intros x; discriminate|reflexivity]).
  - intros Hhas.
    apply (fold_dict_set_has (fun kv => ("filters[" ++ fst kv ++ "]")%string)
             snd) in Hhas.
    destruct Hhas as [[[k' v] [Hin Hk]]|Hs].
    + apply filter_key_injective in Hk. cbn [fst] in Hk. subst k'.
      apply filter_In in Hin as [Hin Hc]. unfold c in Hc. cbn [fst snd] in Hc.
      apply andb_true_iff in Hc as [Hk Hv].
      exists v. split; [exact Hin|]. split.
      * intros ->. discriminate Hv.
      * split; intros ->; discriminate Hk.
    + unfold dict_has, start in Hs. simpl in Hs. discriminate Hs.
  - intros [v [Hin [Hv [Hl Ho]]]].
    apply (fold_dict_set_has (fun kv => ("filters[" ++ fst kv ++ "]")%string)
             snd).
    left. exists (k, v). split; [|reflexivity].
    apply filter_In. split; [exact Hin|]. unfold c. cbn [fst snd].
    apply andb_true_iff. split.
    + unfold Str.mem. cbn [existsb].
      destruct (String.eqb_spec k "limit"); [contradiction|].
      destruct (String.eqb_spec k "offset"); [contradiction|]. reflexivity.
    + destruct v; [contradiction|reflexivity..].
Qed.

End MoreFetching.

(** ** Demo mode and the status of the API *)

Section StatusFacts.
Import Py Json Pandas Types AnalyticsEngine DataFetcher QueryEngine Spec.
Local Open Scope py_scope.
Context {U : Text.Unicode} {F : Type} {kernel : Kernel F} (env : Env)
  (ui : Presentation F).

Lemma mbind_leaves {A B} (c : M F A) (k : A -> M F B) :
  leaves_world c -> (forall a, leaves_world (k a)) -> leaves_world (mbind c k).
Proof.
  intros Hc Hk w. unfold mbind. specialize (Hc w).
  destruct (c w) as [[a|e] w']; simpl in Hc; subst w'; [apply Hk|reflexivity].
Qed.

Lemma try_except_leaves {A} (c : M F A) (h : exn -> M F A) :
  leaves_world c -> (forall e, leaves_world (h e)) ->
  leaves_world (try_except c h).
Proof.
  intros Hc Hh w. unfold try_except. specialize (Hc w).
  destruct (c w) as [[a|e] w']; simpl in Hc; subst w'; [reflexivity|apply Hh].
Qed.

Lemma fold_leaves {A B} (k : B -> A -> M F A) (l : list B) (acc : M F A) :
  leaves_world acc -> (forall b a, leaves_world (k b a)) ->
  leaves_world (fold_left (fun acc b => mbind acc (k b)) l acc).
Proof.
  intros Hacc Hk. revert acc Hacc.
  induction l as [|b l IH]; intros acc Hacc; cbn [fold_left]; [exact Hacc|].
  apply IH. apply mbind_leaves; [exact Hacc|apply Hk].
Qed.

Section Demo.
Hypothesis demo : is_demo_mode env = true.

Lemma fetch_data_demo_leaves (endpoint : string) (filters : dict pyval) :
  leaves_world (fetch_data env endpoint filters).
Proof.
  intros w. unfold fetch_data.
  destruct (get_api_url endpoint); [|reflexivity].
  destruct (if _is_cache_valid _ w then _ else _); [reflexivity|].
  rewrite demo. reflexivity.
Qed.

Lemma fetch_frame_demo_leaves (endpoint : string) (filters : dict pyval) :
  leaves_world (fetch_frame env endpoint filters).
Proof.
  unfold fetch_frame. apply mbind_leaves; [apply fetch_data_demo_leaves|].
  intros a w. reflexivity.
Qed.

Lemma citation_leaves (endpoint : string) (parameters : dict pyval) :
  leaves_world (get_source_citation (F := F) env endpoint parameters).
Proof. intros w. reflexivity. Qed.

Lemma fetch_for_query_demo_leaves (pq : ParsedQuery) :
  leaves_world (_fetch_data_for_query env pq).
Proof.
  assert (Hret : forall d : DataResults F, leaves_world (ret (F := F) d))
    by (intros d w; reflexivity).
  unfold _fetch_data_for_query. apply mbind_leaves; [|intros d1; apply mbind_leaves].
  - destruct (_ && _)%bool; [|apply Hret].
    apply try_except_leaves; [|intros e; apply Hret].
    apply mbind_leaves.
    + intros w. unfold fetch_rainfall_data. apply fetch_frame_demo_leaves.
    + intros df. apply mbind_leaves; [apply citation_leaves|intros c; apply Hret].
  - destruct (_ && _)%bool; [|apply Hret].
    apply try_except_leaves; [|intros e; apply Hret].
    apply mbind_leaves.
    + unfold fetch_crop_production. apply fetch_frame_demo_leaves.
    + intros df. apply mbind_leaves; [apply citation_leaves|intros c; apply Hret].
  - intros d2. destruct (_ || _)%bool; [|apply Hret].
    apply (fold_leaves (fun state => fetch_district_entry env pq state));
      [apply Hret|].
    intros state d. apply try_except_leaves; [|intros e; apply Hret].
    apply mbind_leaves.
    + unfold fetch_district_data. apply fetch_frame_demo_leaves.
    + intros df. apply mbind_leaves; [apply citation_leaves|intros c; apply Hret].
Qed.

Lemma check_api_status_demo_leaves : leaves_world (check_api_status env).
Proof.
  unfold check_api_status.
  apply (fold_leaves (fun name => check_endpoint env name));
    [intros w; reflexivity|].
  intros name status. apply try_except_leaves; [|intros e w; reflexivity].
  apply mbind_leaves; [apply fetch_data_demo_leaves|].
  intros r. apply mbind_leaves; [intros w; reflexivity|].
  intros x w. reflexivity.
Qed.

Lemma process_query_demo_leaves (query : Text.text) :
  leaves_world (process_query env ui query).
Proof.
  intros w. unfold process_query.
  apply (try_except_leaves (pipeline env ui (clock w) query));
    [|intros e w'; reflexivity].
  intros w0. unfold pipeline.
  apply (mbind_leaves
           (_fetch_data_for_query env
              (QueryParsing._parse_query (year_of env (clock w0)) query)));
    [apply fetch_for_query_demo_leaves|].
  intros dr. apply mbind_leaves; [intros w1; reflexivity|].
  intros a. apply mbind_leaves; [intros w1; reflexivity|].
  intros charts. apply mbind_leaves; [intros w1; reflexivity|].
  intros ans w1. reflexivity.
Qed.

Lemma fetch_data_demo (endpoint : string) (filters : dict pyval) (w : World F) :
  no_fresh_entry env endpoint filters w ->
  fetch_data env endpoint filters w = _get_demo_data env endpoint filters w.
Proof.
  unfold no_fresh_entry, path_of. intros Hn. unfold fetch_data.
  destruct (get_api_url endpoint); [|reflexivity].
  destruct (_is_cache_valid _ w).
  - rewrite (Hn eq_refl), demo. reflexivity.
  - rewrite demo. reflexivity.
Qed.

Lemma check_endpoint_demo (endpoint : string) (status : dict bool)
    (w : World F) :
  no_fresh_entry env endpoint status_filters w ->
  check_endpoint env endpoint status w = (Ok (dict_set endpoint false status), w).
Proof.
  intros Hn. unfold check_endpoint, try_except, mbind.
  fold status_filters. rewrite (fetch_data_demo endpoint status_filters w Hn).
  destruct (demo_records_ok env endpoint status_filters I) as [records Hr].
  unfold _get_demo_data. rewrite Hr. reflexivity.
Qed.

End Demo.

(** X16: without an API key, in demo mode, nothing reaches the network
    or the cache directory: a fetch, a query and a status check each leave
    the world as they found it. *)
Theorem demo_mode_leaves_world :
  is_demo_mode env = true ->
  (forall endpoint filters, leaves_world (fetch_data env endpoint filters))
  /\ (forall query, leaves_world (process_query env ui query))
  /\ leaves_world (check_api_status env).
Proof.
  intros demo. split; [|split].
  - intros endpoint filters. now apply fetch_data_demo_leaves.
  - intros query. now apply process_query_demo_leaves.
  - now apply check_api_status_demo_leaves.
Qed.

(** X17: in demo mode, when the cache holds nothing young enough for the
    four fetches of the status check, every endpoint is reported as down. *)
Theorem check_api_status_demo (w : World F) :
  is_demo_mode env = true ->
  (forall endpoint, In endpoint (map fst Config.API_ENDPOINTS) ->
                    no_fresh_entry env endpoint status_filters w) ->
  check_api_status env w = (Ok all_down, w).
Proof.
  intros demo Hn. unfold check_api_status. cbn [map fst Config.API_ENDPOINTS].
  cbn [fold_left]. unfold mbind at 1 2 3 4. unfold ret.
  rewrite !(check_endpoint_demo demo) by (apply Hn; simpl; tauto).
  reflexivity.
Qed.

(** X18: an endpoint whose cache file holds a payload without a
    [demo_mode] entry, as a fetch from the API writes it, is reported as up
    while its request fails, however old the file is. *)
Theorem check_endpoint_stale_cache (endpoint url : string)
    (status : dict bool) (w : World F) (f : File F) (d : dict (json F)) :
  get_api_url endpoint = Ok url ->
  is_demo_mode env = false ->
  dict_get (path_of env endpoint status_filters) (files w) = Some f ->
  content f = Some (JDict d) -> d <> [] ->
  dict_get "demo_mode" d = None ->
  failed (answer_to env url status_filters w) ->
  fst (check_endpoint env endpoint status w)
  = Ok (dict_set endpoint true status).
Proof.
  intros Hu Hd Hf Hc Hne Hdm Hfail.
  assert (Hup : forall d',
             dict_get "demo_mode" d' = None ->
             not_demo_mode (JDict d') = Ok true).
  { intros d' E. unfold not_demo_mode, get_or. now rewrite E. }
  assert (Hfrom : dict_get "demo_mode" (dict_set "from_cache" (JBool true) d)
                  = None).
  { rewrite dict_get_set_other by discriminate. exact Hdm. }
  unfold check_endpoint, try_except, mbind. fold status_filters.
  destruct (_is_cache_valid (path_of env endpoint status_filters) w) eqn:Hv.
  - rewrite (fetch_data_hit env endpoint url status_filters w f d Hu Hf Hc Hne
               (proj1 (valid_iff _ w f Hf) Hv)).
    unfold lift. rewrite (Hup _ Hfrom). reflexivity.
  - rewrite (fetch_data_goes_live env endpoint url status_filters w Hu
               (expired_no_fresh_entry env endpoint status_filters w Hv) Hd).
    rewrite fetch_live_cases.
    assert (Hstale : forall w',
               files w' = files w ->
               on_request_failure env endpoint status_filters
                 (path_of env endpoint status_filters) w'
               = (Ok (JDict (dict_set "cache_expired" (JBool true)
                               (dict_set "from_cache" (JBool true) d))), w')).
    { intros w' E. unfold on_request_failure, path_exists, dict_has, _read_cache.
      rewrite E, Hf, Hc. destruct d; [contradiction|reflexivity]. }
    assert (Hexp : not_demo_mode
                     (JDict (dict_set "cache_expired" (JBool true)
                               (dict_set "from_cache" (JBool true) d)))
                   = Ok true).
    { apply Hup. rewrite dict_get_set_other by discriminate. exact Hfrom. }
    destruct (answer_to env url status_filters w) as [r|r|data];
      [| |contradiction].
    + rewrite Hstale by apply asked_files. unfold lift. rewrite Hexp.
      reflexivity.
    + rewrite Hstale by (rewrite files_set_request_times; apply asked_files).
      unfold lift. rewrite Hexp. reflexivity.
Qed.

End StatusFacts.

(** ** More of the pipeline *)

Section MorePipeline.
Import Py Json Pandas Types AnalyticsEngine DataFetcher QueryEngine Spec.
Local Open Scope py_scope.
Context {U : Text.Unicode} {F : Type} {kernel : Kernel F} (env : Env)
  (ui : Presentation F).

Lemma fetch_nothing (pq : ParsedQuery) (w : World F) :
  states pq = [] -> _fetch_data_for_query env pq w = (Ok [], w).
Proof.
  intros Hs. unfold _fetch_data_for_query. rewrite Hs. cbn [nonempty fold_left].
  rewrite !andb_false_r.
  destruct (_ || _)%bool; reflexivity.
Qed.

Lemma analyze_nothing (pq : ParsedQuery) :
  exists a : Analysis F,
    _analyze_data pq [] = Ok a
    /\ data a = [] /\ confidence a = 0%Q /\ data_points a = 0.
Proof.
  unfold _analyze_data.
  destruct (String.eqb (intent pq) "compare");
    [|destruct (String.eqb (intent pq) "top");
      [|destruct (String.eqb (intent pq) "trend");
        [|destruct (String.eqb (intent pq) "correlation")]]];
    eexists; (split; [reflexivity|]); repeat split.
Qed.

(** X19: a query in which no state is found fetches nothing, whatever
    crops or years it names: the reply carries no data and no source, counts
    no data point and has confidence 0, and the world is left as it was. *)
Theorem no_state_no_data (query : Text.text) (w : World F) :
  QueryParsing._extract_states query = [] ->
  exists reply,
    process_query env ui query w = (Ok reply, w)
    /\ reply_data ui reply = []
    /\ sources ui reply = []
    /\ reply_confidence ui reply = 0%Q
    /\ reply_data_points ui reply = 0.
Proof.
  intros Hs. unfold process_query, try_except, pipeline.
  set (pq := QueryParsing._parse_query (year_of env (clock w)) query).
  unfold mbind at 1. rewrite (fetch_nothing pq w Hs).
  destruct (analyze_nothing pq) as [a [Ha [Hdata [Hconf Hpoints]]]].
  unfold mbind, lift. rewrite Ha.
  destruct (_generate_visualizations ui pq a) as [charts|e];
    [|eexists; split; [reflexivity|repeat split]].
  destruct (_generate_answer ui pq a) as [ans|e];
    eexists; (split; [reflexivity|]); cbn; repeat split; assumption.
Qed.

(** Takes a computation in [result] apart, bind by bind. *)
Ltac open_result :=
  match goal with
  | H : Ok _ = Ok _ |- _ => inversion H; subst; clear H
  | H : Raise _ = Ok _ |- _ => discriminate H
  | H : Py.bind ?c _ = Ok _ |- _ =>
      let E := fresh "E" in destruct c eqn:E; simpl in H
  | H : match ?c with _ => _ end = Ok _ |- _ =>
      let E := fresh "E" in destruct c eqn:E; simpl in H
  end.

Lemma analyze_data_keeps (pq : ParsedQuery) (dr : DataResults F)
    (a : Analysis F) :
  _analyze_data pq dr = Ok a ->
  data a = dr
  /\ confidence a = _calculate_confidence (data_points a)
  /\ 0 <= data_points a.
Proof.
  intros H. split.
  - unfold _analyze_data in H.
    destruct (String.eqb (intent pq) "compare");
      [|destruct (String.eqb (intent pq) "top");
        [|destruct (String.eqb (intent pq) "trend");
          [|destruct (String.eqb (intent pq) "correlation")]]].
    + unfold compare_analysis in H. repeat open_result; reflexivity.
    + unfold top_n_analysis in H. repeat open_result; reflexivity.
    + unfold trend_analysis in H. repeat open_result; reflexivity.
    + unfold correlation_analysis in H. repeat open_result; reflexivity.
    + unfold general_analysis in H. repeat open_result; reflexivity.
  - unfold _analyze_data in H.
    destruct (String.eqb (intent pq) "compare");
      [|destruct (String.eqb (intent pq) "top");
        [|destruct (String.eqb (intent pq) "trend");
          [|destruct (String.eqb (intent pq) "correlation")]]];
      (eapply routine_confidence; [|exact H]); simpl; tauto.
Qed.

(** X20: whatever the query, [process_query] returns a reply whose
    confidence is the confidence of the number of data points it reports;
    that number is not negative, and the sources are those of the data the
    reply carries. *)
Theorem reply_confidence_of_data_points (query : Text.text) (w : World F) :
  exists reply w',
    process_query env ui query w = (Ok reply, w')
    /\ reply_confidence ui reply
       = _calculate_confidence (reply_data_points ui reply)
    /\ 0 <= reply_data_points ui reply
    /\ sources ui reply = _collect_sources (reply_data ui reply).
Proof.
  unfold process_query, try_except, pipeline.
  set (pq := QueryParsing._parse_query (year_of env (clock w)) query).
  unfold mbind, lift.
  destruct (_fetch_data_for_query env pq w) as [[dr|e] w1];
    [|do 2 eexists; split; [reflexivity|cbn; repeat split; lia]].
  destruct (_analyze_data pq dr) as [a|e] eqn:Ea;
    [|do 2 eexists; split; [reflexivity|cbn; repeat split; lia]].
  destruct (analyze_data_keeps pq dr a Ea) as [Hdata [Hconf Hpoints]].
  destruct (_generate_visualizations ui pq a) as [charts|e];
    [|do 2 eexists; split; [reflexivity|cbn; repeat split; lia]].
  destruct (_generate_answer ui pq a) as [ans|e];
    [|do 2 eexists; split; [reflexivity|cbn; repeat split; lia]].
  do 2 eexists. split; [reflexivity|]. cbn. rewrite Hdata. auto.
Qed.

Lemma correlation_has_no_summary (pq : ParsedQuery) (dr : DataResults F)
    (a : Analysis F) :
  correlation_analysis pq dr = Ok a -> AnswerTemplates.has_summary a = false.
Proof.
  unfold correlation_analysis. intros H. repeat open_result; reflexivity.
Qed.

(** X21: a query whose intent is [correlation] never gets the
    correlation it asked for in its answer: when the templates of
    [_generate_answer] write the answer, the reply either reports an error
    or answers with the sentence for a result without a summary. *)
Theorem correlation_query_answer (texts : AnswerTemplates.Texts F)
    (query : Text.text) (w : World F) :
  generate_answer ui = AnswerTemplates._generate_answer texts ->
  QueryParsing._detect_intent (Text.lower query) = "correlation" ->
  exists reply w',
    process_query env ui query w = (Ok reply, w')
    /\ (error ui reply = None -> answer ui reply = no_answer).
Proof.
  intros Hui Hintent. unfold process_query, try_except, pipeline.
  set (pq := QueryParsing._parse_query (year_of env (clock w)) query).
  assert (Hpq : intent pq = "correlation") by exact Hintent.
  unfold mbind, lift.
  destruct (_fetch_data_for_query env pq w) as [[dr|e] w1];
    [|do 2 eexists; split; [reflexivity|cbn; discriminate]].
  destruct (_analyze_data pq dr) as [a|e] eqn:Ea;
    [|do 2 eexists; split; [reflexivity|cbn; discriminate]].
  destruct (_generate_visualizations ui pq a) as [charts|e];
    [|do 2 eexists; split; [reflexivity|cbn; discriminate]].
  destruct (_generate_answer ui pq a) as [ans|e] eqn:Eans;
    [|do 2 eexists; split; [reflexivity|cbn; discriminate]].
  do 2 eexists. split; [reflexivity|]. cbn.
  intros _. unfold _generate_answer in Eans. rewrite Hui in Eans.
  unfold _analyze_data in Ea. rewrite Hpq in Ea. cbn in Ea.
  unfold AnswerTemplates._generate_answer in Eans. rewrite Hpq in Eans.
  cbn in Eans. unfold AnswerTemplates._generate_general_answer in Eans.
  rewrite (correlation_has_no_summary pq dr a Ea) in Eans.
  cbn in Eans. inversion Eans. reflexivity.
Qed.

(** X22: for the intents compare, top, trend and correlation the
    analysis reads the entries for rainfall and production and no other:
    with the same two entries it finds the same, whatever district data was
    fetched beside them. *)
Theorem analysis_reads_two_entries (pq : ParsedQuery)
    (dr dr' : DataResults F) :
  In (intent pq) ["compare"; "top"; "trend"; "correlation"] ->
  dict_get "rainfall" dr = dict_get "rainfall" dr' ->
  dict_get "production" dr = dict_get "production" dr' ->
  same_findings (_analyze_data pq dr) (_analyze_data pq dr').
Proof.
  intros Hin Hr Hp. unfold _analyze_data, same_findings.
  simpl in Hin. destruct Hin as [<-|[<-|[<-|[<-|[]]]]]; cbn [String.eqb Ascii.eqb Bool.eqb].
  - unfold compare_analysis. rewrite Hr, Hp.
    repeat match goal with
           | |- context [Py.bind ?c _] => destruct c; cbn [Py.bind]
           end; auto.
  - unfold top_n_analysis. rewrite ?Hr, Hp.
    repeat match goal with
           | |- context [Py.bind ?c _] => destruct c; cbn [Py.bind]
           end; auto.
  - unfold trend_analysis. rewrite ?Hr, Hp.
    repeat match goal with
           | |- context [Py.bind ?c _] => destruct c; cbn [Py.bind]
           end; auto.
  - unfold correlation_analysis. rewrite Hr, Hp.
    repeat match goal with
           | |- context [Py.bind ?c _] => destruct c; cbn [Py.bind]
           end; auto.
Qed.

End MorePipeline.

(** ** Districts *)

Section MoreParsing.
Import Text QueryParsing Spec.
Context {U : Unicode}.

Lemma word_is_no_space (c : char) : is_word c = true -> is_space c = false.
Proof.
  unfold is_word. intros Hw. destruct (is_space c) eqn:Hs; [|reflexivity].
  rewrite (is_space_not_alnum c Hs) in Hw. cbn [orb] in Hw.
  apply N.eqb_eq in Hw. subst c.
  rewrite is_space_below_128 in Hs by reflexivity. discriminate Hs.
Qed.

Lemma match_district_at_word (b : bool) (t g : text) (n : nat) :
  match_district_at b t = Some (g, n) ->
  g <> [] /\ forall c, In c g -> is_word c = true /\ is_space c = false.
Proof.
  unfold match_district_at.
  pose proof (span_all is_word t) as Hall.
  destruct (span is_word t) as [w r]. cbn [fst] in Hall.
  destruct (span is_space r) as [ws r1].
  destruct (is_empty w) eqn:Ew; [discriminate|]. cbn [orb].
  destruct (is_empty ws); [discriminate|].
  destruct (caseless_prefix (lit "district") r1); [|discriminate].
  intros H. inversion H; subst g n. split.
  - intros ->. discriminate Ew.
  - intros c Hc. split; [|apply word_is_no_space]; exact (Hall c Hc).
Qed.

(** X23: a district name taken from a query is one run of word
    characters: it is not empty, it holds letters, digits and underscores
    of any script, and it holds no whitespace. *)
Theorem extract_districts_words (query d : text) :
  In d (_extract_districts query) ->
  d <> [] /\ forall c, In c d -> is_word c = true /\ is_space c = false.
Proof.
  unfold _extract_districts. intros Hin.
  pose proof (findall_all match_district_at
                (fun g => g <> []
                          /\ forall c, In c g ->
                               is_word c = true /\ is_space c = false)
                match_district_at_word query 0 false) as Hall.
  rewrite Forall_forall in Hall. exact (Hall d Hin).
Qed.

End MoreParsing.

(** ** Queries of characters below 128

    The tables are fixed below 128, so a query of such characters is
    parsed in the same way whatever the tables are: what is computed for
    it with one [Unicode] structure holds for every other. *)

Section AnyTables.
Import Text QueryParsing Spec.
Context (U V : Unicode).

Lemma below_128_cons (c : char) (s : text) :
  below_128 (c :: s) -> (c < 128)%N /\ below_128 s.
Proof. intros H. inversion H; auto. Qed.

Lemma ascii_lower_below_128 (s : text) :
  below_128 s -> below_128 (map ascii_lower s).
Proof.
  intros H. induction H as [|c s Hc _ IH]; [constructor|].
  simpl. constructor; [|exact IH].
  unfold ascii_lower, ascii_upper, between.
  destruct (N.leb_spec 65 c), (N.leb_spec c 90); simpl; lia.
Qed.

Lemma lower_any_tables (s : text) :
  below_128 s -> lower (Unicode := U) s = lower (Unicode := V) s.
Proof.
  intros H. now rewrite (lower_below_128 (Unicode := U) s H),
                        (lower_below_128 (Unicode := V) s H).
Qed.

Lemma lower_stays_below_128 (s : text) :
  below_128 s -> below_128 (lower (Unicode := V) s).
Proof.
  intros H. rewrite (lower_below_128 s H). now apply ascii_lower_below_128.
Qed.

Lemma is_digit_any_tables (c : char) :
  (c < 128)%N -> is_digit (U := U) c = is_digit (U := V) c.
Proof.
  intros H. now rewrite (is_digit_below_128 (U := U) c H),
                        (is_digit_below_128 (U := V) c H).
Qed.

Lemma is_space_any_tables (c : char) :
  (c < 128)%N -> is_space (Unicode := U) c = is_space (Unicode := V) c.
Proof.
  intros H. now rewrite (is_space_below_128 (Unicode := U) c H),
                        (is_space_below_128 (Unicode := V) c H).
Qed.

Lemma is_word_any_tables (c : char) :
  (c < 128)%N -> is_word (U := U) c = is_word (U := V) c.
Proof.
  intros H. now rewrite (is_word_below_128 (U := U) c H),
                        (is_word_below_128 (U := V) c H).
Qed.

Lemma digit_val_any_tables (c : char) :
  (c < 128)%N -> digit_val (U := U) c = digit_val (U := V) c.
Proof.
  intros H. unfold digit_val.
  now rewrite (decimal_below_128 (Unicode := U) c H),
              (decimal_below_128 (Unicode := V) c H).
Qed.

Lemma int_of_digits_any_tables (s : text) :
  below_128 s -> int_of_digits (U := U) s = int_of_digits (U := V) s.
Proof.
  unfold int_of_digits. generalize 0.
  induction s as [|c s IH]; intros acc Hs; [reflexivity|].
  apply below_128_cons in Hs as [Hc Hs]. cbn [fold_left].
  rewrite (digit_val_any_tables c Hc). exact (IH _ Hs).
Qed.

Lemma boundary_before_any_tables (s : text) :
  below_128 s -> boundary_before (U := U) s = boundary_before (U := V) s.
Proof.
  intros Hs. destruct s as [|c s]; [reflexivity|].
  apply below_128_cons in Hs as [Hc _]. simpl.
  now rewrite (is_word_any_tables c Hc).
Qed.

Lemma span_any_tables (p q : char -> bool) (s : text) :
  (forall c, (c < 128)%N -> p c = q c) -> below_128 s ->
  span p s = span q s.
Proof.
  intros Hpq. induction s as [|c s IH]; intros Hs; [reflexivity|].
  apply below_128_cons in Hs as [Hc Hs]. simpl.
  now rewrite (Hpq c Hc), (IH Hs).
Qed.

Lemma span_below_128 (p : char -> bool) (s : text) :
  below_128 s ->
  below_128 (fst (span p s)) /\ below_128 (snd (span p s)).
Proof.
  induction s as [|c s IH]; intros Hs; simpl.
  - split; constructor.
  - destruct (below_128_cons c s Hs) as [Hc Hr]. destruct (p c).
    + destruct (IH Hr) as [Ha Hb]. destruct (span p s) as [a b].
      simpl in *. split; [constructor; assumption|assumption].
    + split; [constructor|exact Hs].
Qed.

Lemma strip_prefix_below_128 (p s r : text) :
  below_128 s -> strip_prefix p s = Some r -> below_128 r.
Proof.
  revert s. induction p as [|a p IH]; intros s Hs E.
  - destruct s; simpl in E; inversion E; subst; exact Hs.
  - destruct s as [|b s]; [discriminate E|]. simpl in E.
    destruct (a =? b)%N; [|discriminate E].
    apply below_128_cons in Hs as [_ Hs]. exact (IH s Hs E).
Qed.

Lemma caseless_prefix_any_tables (p s : text) :
  below_128 p -> below_128 s ->
  caseless_prefix (U := U) p s = caseless_prefix (U := V) p s.
Proof.
  intros Hp. revert s. induction Hp as [|a p Ha _ IH]; intros s Hs.
  - destruct s; reflexivity.
  - destruct s as [|b s]; [reflexivity|].
    apply below_128_cons in Hs as [Hb Hs]. simpl.
    now rewrite (caseless_below_128 (Unicode := U) a b Ha Hb),
                (caseless_below_128 (Unicode := V) a b Ha Hb), (IH s Hs).
Qed.

Lemma search_any_tables {A : Type} (m1 m2 : text -> option A) (s : text) :
  (forall t, below_128 t -> m1 t = m2 t) -> below_128 s ->
  search m1 s = search m2 s.
Proof.
  intros Hm. induction s as [|c s IH]; intros Hs; simpl; rewrite (Hm _ Hs).
  - reflexivity.
  - destruct (m2 (c :: s)); [reflexivity|].
    apply IH. now apply below_128_cons in Hs.
Qed.

Lemma search_below_128 {A : Type} (P : A -> Prop) (m : text -> option A)
    (s : text) (x : A) :
  (forall t y, below_128 t -> m t = Some y -> P y) -> below_128 s ->
  search m s = Some x -> P x.
Proof.
  intros Hm. induction s as [|c s IH]; intros Hs; simpl.
  - destruct (m []) eqn:E; [|discriminate].
    intros H. inversion H; subst. exact (Hm _ _ Hs E).
  - destruct (m (c :: s)) eqn:E.
    + intros H. inversion H; subst. exact (Hm _ _ Hs E).
    + apply IH. now apply below_128_cons in Hs.
Qed.

Lemma findall_any_tables (m1 m2 : bool -> text -> option (text * nat))
    (s : text) :
  (forall b t, below_128 t -> m1 b t = m2 b t) -> below_128 s ->
  forall busy prev,
    findall (U := U) m1 busy prev s = findall (U := V) m2 busy prev s.
Proof.
  intros Hm. induction s as [|c s IH]; intros Hs busy prev; [reflexivity|].
  destruct (below_128_cons c s Hs) as [Hc Hr]. simpl.
  rewrite (is_word_any_tables c Hc). destruct busy as [|k].
  - rewrite (Hm prev _ Hs).
    destruct (m2 prev (c :: s)) as [[g n]|]; [f_equal|]; apply IH; exact Hr.
  - apply IH; exact Hr.
Qed.

Lemma existsb_agree {A : Type} (f g : A -> bool) (l : list A) :
  (forall a, f a = g a) -> existsb f l = existsb g l.
Proof.
  intros H. induction l as [|a l IH]; simpl; [reflexivity|].
  now rewrite (H a), IH.
Qed.

Lemma fold_left_agree {A B : Type} (f g : A -> B -> A) (l : list B) :
  (forall a b, In b l -> f a b = g a b) ->
  forall a, fold_left f l a = fold_left g l a.
Proof.
  induction l as [|b l IH]; intros H a; [reflexivity|]. simpl.
  rewrite (H a b (or_introl eq_refl)). apply IH.
  intros a' b' Hin. apply H. now right.
Qed.

Lemma search_words_any_tables (alts : list string) (s : text) :
  below_128 s ->
  forall prev,
    search_words (U := U) alts prev s = search_words (U := V) alts prev s.
Proof.
  induction s as [|c s IH]; intros Hs prev; [reflexivity|].
  destruct (below_128_cons c s Hs) as [Hc Hr]. simpl.
  rewrite (is_word_any_tables c Hc), (IH Hr). f_equal. f_equal.
  apply existsb_agree. intros a.
  destruct (strip_prefix (lit a) (c :: s)) as [rest|] eqn:E; [|reflexivity].
  apply boundary_before_any_tables.
  exact (strip_prefix_below_128 _ _ _ Hs E).
Qed.

(** One step of a greedy class: the two tables consume the same. *)
Ltac same_span p q Hpq :=
  match goal with
  | H : below_128 ?r |- context [span p ?r] =>
      rewrite (span_any_tables p q r Hpq H);
      let Ha := fresh "Ha" in
      let Hb := fresh "Hb" in
      destruct (span_below_128 q r H) as [Ha Hb];
      destruct (span q r) as [? ?]; cbn [fst snd] in Ha, Hb
  end.

Ltac same_spaces :=
  same_span (is_space (Unicode := U)) (is_space (Unicode := V))
            is_space_any_tables.
Ltac same_digits :=
  same_span (is_digit (U := U)) (is_digit (U := V)) is_digit_any_tables.
Ltac same_words :=
  same_span (is_word (U := U)) (is_word (U := V)) is_word_any_tables.

Lemma search_top_pattern_any_tables (s : text) :
  below_128 s ->
  forall prev,
    search_top_pattern (U := U) prev s = search_top_pattern (U := V) prev s.
Proof.
  induction s as [|c s IH]; intros Hs prev; [reflexivity|].
  destruct (below_128_cons c s Hs) as [Hc Hr]. cbn [search_top_pattern].
  rewrite (is_word_any_tables c Hc), (IH Hr). f_equal. f_equal.
  apply existsb_agree. intros a.
  destruct (strip_prefix (lit a) (c :: s)) as [rest|] eqn:E; [|reflexivity].
  pose proof (strip_prefix_below_128 _ _ _ Hs E) as Hrest.
  same_spaces. same_digits.
  now rewrite (boundary_before_any_tables _ Hb0).
Qed.

Lemma match_year_at_any_tables (b : bool) (t : text) :
  below_128 t -> match_year_at (U := U) b t = match_year_at (U := V) b t.
Proof.
  intros Ht. unfold match_year_at. destruct b; [reflexivity|]. cbv zeta.
  assert (Hrest : forall g r,
            below_128 r ->
            match r with
            | c :: d :: r' =>
                if (is_digit (U := U) c && is_digit (U := U) d
                    && boundary_before (U := U) r')%bool
                then Some (g, 4%nat) else None
            | _ => @None (text * nat)
            end
            = match r with
              | c :: d :: r' =>
                  if (is_digit (U := V) c && is_digit (U := V) d
                      && boundary_before (U := V) r')%bool
                  then Some (g, 4%nat) else None
              | _ => None
              end).
  { intros g r Hr. destruct r as [|c [|d r']]; try reflexivity.
    apply below_128_cons in Hr as [Hc Hr].
    apply below_128_cons in Hr as [Hd Hr].
    now rewrite (is_digit_any_tables c Hc), (is_digit_any_tables d Hd),
                (boundary_before_any_tables r' Hr). }
  destruct (strip_prefix (lit "19") t) as [r|] eqn:E19.
  - exact (Hrest _ r (strip_prefix_below_128 _ _ _ Ht E19)).
  - destruct (strip_prefix (lit "20") t) as [r|] eqn:E20; [|reflexivity].
    exact (Hrest _ r (strip_prefix_below_128 _ _ _ Ht E20)).
Qed.

Lemma match_last_n_at_any_tables (t : text) :
  below_128 t -> match_last_n_at (U := U) t = match_last_n_at (U := V) t.
Proof.
  intros Ht. unfold match_last_n_at.
  destruct (strip_prefix (lit "last") t) as [r|] eqn:E; [|reflexivity].
  pose proof (strip_prefix_below_128 _ _ _ Ht E) as Hr.
  same_spaces. same_digits. same_spaces. reflexivity.
Qed.

Lemma match_top_at_any_tables (t : text) :
  below_128 t -> match_top_at (U := U) t = match_top_at (U := V) t.
Proof.
  intros Ht. unfold match_top_at.
  destruct (strip_prefix (lit "top") t) as [r|] eqn:E; [|reflexivity].
  pose proof (strip_prefix_below_128 _ _ _ Ht E) as Hr.
  same_spaces. same_digits. reflexivity.
Qed.

Lemma match_n_most_at_any_tables (t : text) :
  below_128 t -> match_n_most_at (U := U) t = match_n_most_at (U := V) t.
Proof.
  intros Ht. unfold match_n_most_at. same_digits. same_spaces. reflexivity.
Qed.

Lemma match_district_at_any_tables (b : bool) (t : text) :
  below_128 t ->
  match_district_at (U := U) b t = match_district_at (U := V) b t.
Proof.
  intros Ht. unfold match_district_at. same_words. same_spaces.
  rewrite (caseless_prefix_any_tables (lit "district") _
             (lit_below_128 "district" eq_refl) Hb0).
  reflexivity.
Qed.

(** The groups of the matchers are parts of the text. *)
Lemma match_last_n_at_below_128 (t g : text) :
  below_128 t -> match_last_n_at (U := V) t = Some g -> below_128 g.
Proof.
  intros Ht. unfold match_last_n_at.
  destruct (strip_prefix (lit "last") t) as [r|] eqn:E; [|discriminate].
  pose proof (strip_prefix_below_128 _ _ _ Ht E) as Hr.
  destruct (span_below_128 (is_space (Unicode := V)) r Hr) as [_ H1].
  destruct (span is_space r) as [ws1 r1]. cbn [snd] in H1.
  destruct (span_below_128 (is_digit (U := V)) r1 H1) as [H2 _].
  destruct (span is_digit r1) as [ds r2]. cbn [fst] in H2.
  destruct (span is_space r2) as [ws2 r3].
  destruct (_ || _)%bool; [discriminate|].
  destruct (startswith _ r3); [|discriminate].
  intros H. inversion H; subst g. exact H2.
Qed.

Lemma match_top_at_below_128 (t g : text) :
  below_128 t -> match_top_at (U := V) t = Some g -> below_128 g.
Proof.
  intros Ht. unfold match_top_at.
  destruct (strip_prefix (lit "top") t) as [r|] eqn:E; [|discriminate].
  pose proof (strip_prefix_below_128 _ _ _ Ht E) as Hr.
  destruct (span_below_128 (is_space (Unicode := V)) r Hr) as [_ H1].
  destruct (span is_space r) as [ws1 r1]. cbn [snd] in H1.
  destruct (span_below_128 (is_digit (U := V)) r1 H1) as [H2 _].
  destruct (span is_digit r1) as [ds r2]. cbn [fst] in H2.
  destruct (_ || _)%bool; [discriminate|].
  intros H. inversion H; subst g. exact H2.
Qed.

Lemma match_n_most_at_below_128 (t g : text) :
  below_128 t -> match_n_most_at (U := V) t = Some g -> below_128 g.
Proof.
  intros Ht. unfold match_n_most_at.
  destruct (span_below_128 (is_digit (U := V)) t Ht) as [H2 _].
  destruct (span is_digit t) as [ds r]. cbn [fst] in H2.
  destruct (span is_space r) as [ws r1].
  destruct (_ || _)%bool; [discriminate|].
  destruct (_ || _)%bool; [|discriminate].
  intros H. inversion H; subst g. exact H2.
Qed.

Lemma match_year_at_below_128 (b : bool) (t g : text) (n : nat) :
  match_year_at (U := V) b t = Some (g, n) -> below_128 g.
Proof.
  unfold match_year_at. destruct b; [discriminate|]. cbv zeta.
  destruct (strip_prefix (lit "19") t) as [r|].
  - destruct r as [|c [|d r]]; try discriminate.
    destruct (_ && _)%bool; [|discriminate].
    intros H. inversion H; subst g n. now apply lit_below_128.
  - destruct (strip_prefix (lit "20") t) as [r|]; [|discriminate].
    destruct r as [|c [|d r]]; try discriminate.
    destruct (_ && _)%bool; [|discriminate].
    intros H. inversion H; subst g n. now apply lit_below_128.
Qed.

(** The names of the configuration are plain. *)
Lemma lower_name_any_tables (name : string) :
  plain name = true ->
  lower (Unicode := U) (lit name) = lower (Unicode := V) (lit name).
Proof. intros H. apply lower_any_tables, lit_below_128, H. Qed.

Lemma plain_in (names : list string) (name : string) :
  forallb plain names = true -> In name names -> plain name = true.
Proof. intros H Hin. rewrite forallb_forall in H. exact (H name Hin). Qed.

Lemma extract_states_any_tables (query : text) :
  below_128 query ->
  _extract_states (U := U) query = _extract_states (U := V) query.
Proof.
  intros Hq. unfold _extract_states. cbv zeta.
  rewrite (lower_any_tables query Hq).
  rewrite (filter_ext_in
             (fun state => contains (lower (Unicode := U) (lit state))
                             (lower (Unicode := V) query))
             (fun state => contains (lower (Unicode := V) (lit state))
                             (lower (Unicode := V) query))
             Config.INDIAN_STATES).
  2:{ intros state Hin.
      now rewrite (lower_name_any_tables state
                     (plain_in Config.INDIAN_STATES state eq_refl Hin)). }
  apply fold_left_agree. intros found [abbr full_name] Hin.
  unfold add_abbreviation, abbr_in_query.
  rewrite (lower_any_tables query Hq).
  rewrite (lower_name_any_tables abbr
             (plain_in (map fst Config.STATE_ABBREVIATIONS) abbr eq_refl
                (in_map fst _ _ Hin))).
  reflexivity.
Qed.

Lemma extract_crops_any_tables (query : text) :
  below_128 query ->
  _extract_crops (U := U) query = _extract_crops (U := V) query.
Proof.
  intros Hq. unfold _extract_crops. cbv zeta.
  rewrite (lower_any_tables query Hq).
  rewrite (filter_ext_in
             (fun crop => contains (lower (Unicode := U) (lit crop))
                            (lower (Unicode := V) query))
             (fun crop => contains (lower (Unicode := V) (lit crop))
                            (lower (Unicode := V) query))
             Config.MAJOR_CROPS).
  - reflexivity.
  - intros crop Hin.
    now rewrite (lower_name_any_tables crop
                   (plain_in Config.MAJOR_CROPS crop eq_refl Hin)).
Qed.

Lemma extract_years_any_tables (current_year : Z) (query : text) :
  below_128 query ->
  _extract_years (U := U) current_year query
  = _extract_years (U := V) current_year query.
Proof.
  intros Hq. unfold _extract_years. cbv zeta.
  pose proof (lower_stays_below_128 query Hq) as Hl.
  rewrite (lower_any_tables query Hq).
  rewrite (findall_any_tables _ _ query match_year_at_any_tables Hq 0%nat false).
  rewrite (search_any_tables _ _ _ match_last_n_at_any_tables Hl).
  rewrite (map_ext_in (int_of_digits (U := U)) (int_of_digits (U := V))).
  2:{ intros g Hin. apply int_of_digits_any_tables.
      pose proof (findall_all (U := V) match_year_at below_128
                    match_year_at_below_128 query 0%nat false) as Hall.
      rewrite Forall_forall in Hall. exact (Hall g Hin). }
  destruct (search match_last_n_at (lower query)) as [g|] eqn:E;
    [|reflexivity].
  rewrite (int_of_digits_any_tables g
             (search_below_128 below_128 _ _ g match_last_n_at_below_128 Hl E)).
  reflexivity.
Qed.

Lemma extract_top_n_any_tables (query : text) :
  below_128 query ->
  _extract_top_n (U := U) query = _extract_top_n (U := V) query.
Proof.
  intros Hq. unfold _extract_top_n.
  pose proof (lower_stays_below_128 query Hq) as Hl.
  rewrite (lower_any_tables query Hq).
  rewrite (search_any_tables _ _ _ match_top_at_any_tables Hl).
  rewrite (search_any_tables _ _ _ match_n_most_at_any_tables Hl).
  destruct (search match_top_at (lower query)) as [g|] eqn:E.
  - exact (int_of_digits_any_tables g
             (search_below_128 below_128 _ _ g match_top_at_below_128 Hl E)).
  - destruct (search match_n_most_at (lower query)) as [g|] eqn:E';
      [|reflexivity].
    exact (int_of_digits_any_tables g
             (search_below_128 below_128 _ _ g match_n_most_at_below_128 Hl E')).
Qed.

Lemma extract_districts_any_tables (query : text) :
  below_128 query ->
  _extract_districts (U := U) query = _extract_districts (U := V) query.
Proof.
  intros Hq. unfold _extract_districts.
  exact (findall_any_tables _ _ query match_district_at_any_tables Hq
           0%nat false).
Qed.

Lemma detect_intent_any_tables (query : text) :
  below_128 query ->
  _detect_intent (U := U) query = _detect_intent (U := V) query.
Proof.
  intros Hq. unfold _detect_intent, intent_patterns. cbn [find snd].
  rewrite !(fun alts => search_words_any_tables alts query Hq false),
          (search_top_pattern_any_tables query Hq false).
  repeat match goal with
         | |- context [if ?c then Some _ else _] => destruct c
         end; reflexivity.
Qed.

(** A query of characters below 128 is parsed in the same way with any
    two tables. *)
Theorem parse_query_any_tables (current_year : Z) (query : text) :
  below_128 query ->
  _parse_query (U := U) current_year query
  = _parse_query (U := V) current_year query.
Proof.
  intros Hq. unfold _parse_query. cbv zeta.
  pose proof (lower_stays_below_128 query Hq) as Hl.
  rewrite (lower_any_tables query Hq).
  rewrite (detect_intent_any_tables _ Hl),
          (extract_states_any_tables query Hq),
          (extract_crops_any_tables query Hq),
          (extract_years_any_tables current_year query Hq),
          (extract_top_n_any_tables query Hq),
          (extract_districts_any_tables query Hq).
  rewrite !(fun alts => search_words_any_tables alts _ Hl false).
  reflexivity.
Qed.

End AnyTables.

(** ** The statements on further sample queries *)

Section MoreParsingRuns.
Import Text QueryParsing Spec Sample.

Lemma extract_top_n_default_witness :
  _extract_top_n (lit "Which are the best rice states") = 5.
Proof.
  apply (proj2 (extract_top_n_default (lit "Which are the best rice states"))).
  reflexivity.
Defined.

Lemma extract_years_decade_witness :
  _extract_years 2026 (lit "Rice in Punjab in 2015 over the last decade")
  = [2016; 2017; 2018; 2019; 2020; 2021; 2022; 2023; 2024; 2025].
Proof.
  apply (extract_years_decade 2026
           (lit "Rice in Punjab in 2015 over the last decade")
           "over the last decade").
  - simpl. tauto.
  - reflexivity.
Defined.

Lemma extract_years_last_n_witness :
  _extract_years 2026 (lit "Wheat in Punjab since 2015 for the last 3 years")
  = [2023; 2024; 2025].
Proof.
  destruct (extract_years_last_n (U := tables) 2026
              (lit "Wheat in Punjab since 2015 for the last 3 years") (lit "3")
              ltac:(vm_compute; reflexivity) ltac:(vm_compute; reflexivity))
    as [_ [Hpos _]].
  exact (proj1 (Hpos ltac:(vm_compute; reflexivity))).
Defined.

Lemma extract_years_explicit_century_witness :
  Forall (fun y => y = 19 \/ y = 20)
         (_extract_years 2026 (lit "rainfall in Kerala in 2015")).
Proof.
  apply Forall_forall.
  apply (extract_years_explicit_century 2026
           (lit "rainfall in Kerala in 2015")).
  - unfold no_explicit_year. vm_compute. discriminate.
  - reflexivity.
  - reflexivity.
Defined.

Lemma parse_query_intent_and_metrics_witness :
  metrics (_parse_query 2026 (lit "Compare Punjab and Kerala"))
  = ["production"; "rainfall"].
Proof.
  apply (proj2 (proj2 (proj2
           (parse_query_intent_and_metrics 2026
              (lit "Compare Punjab and Kerala")))));
    reflexivity.
Defined.

Lemma extract_districts_words_witness :
  lit "Godavari" <> []
  /\ forall c, In c (lit "Godavari") ->
       is_word c = true /\ is_space c = false.
Proof.
  apply (extract_districts_words (lit "rice in West Godavari district")
           (lit "Godavari")).
  vm_compute. tauto.
Defined.

(** Of a name of two words the second alone is taken. *)
Example extract_districts_last_word :
  _extract_districts (lit "rice in West Godavari district")
  = [lit "Godavari"].
Proof. reflexivity. Qed.

End MoreParsingRuns.

(** ** The sample queries with any tables

    The queries above hold characters below 128 only, so what the sample
    tables give for them every table gives. *)

Section AnyTablesRuns.
Import Text QueryParsing Spec.
Context {U : Unicode}.

Lemma parse_with_any_tables (current_year : Z) (query : string) :
  plain query = true ->
  _parse_query current_year (lit query)
  = _parse_query (U := Sample.tables) current_year (lit query).
Proof.
  intros H. apply parse_query_any_tables, lit_below_128, H.
Qed.

Example top_10_with_any_tables :
  _extract_top_n (lit "top 10 states and top 3 crops") = 10.
Proof.
  rewrite (extract_top_n_any_tables U Sample.tables _
             (lit_below_128 "top 10 states and top 3 crops" eq_refl)).
  vm_compute. reflexivity.
Qed.

Example top_30_with_any_tables : _extract_top_n (lit "top 30 crops") = 30.
Proof.
  rewrite (extract_top_n_any_tables U Sample.tables _
             (lit_below_128 "top 30 crops" eq_refl)).
  vm_compute. reflexivity.
Qed.

Example extra_state_with_any_tables :
  _extract_states
    (lit "Compare wheat production in Punjab and Haryana as of 2020")
  = ["Haryana"; "Punjab"; "Assam"].
Proof.
  rewrite (extract_states_any_tables U Sample.tables _
             (lit_below_128 "Compare wheat production in Punjab and Haryana as of 2020" eq_refl)).
  vm_compute. reflexivity.
Qed.

Example century_with_any_tables :
  _extract_years 2026 (lit "rainfall in Kerala in 2015") = [20].
Proof.
  rewrite (extract_years_any_tables U Sample.tables _ _
             (lit_below_128 "rainfall in Kerala in 2015" eq_refl)).
  vm_compute. reflexivity.
Qed.

Example last_word_with_any_tables :
  _extract_districts (lit "rice in West Godavari district")
  = [lit "Godavari"].
Proof.
  rewrite (extract_districts_any_tables U Sample.tables _
             (lit_below_128 "rice in West Godavari district" eq_refl)).
  vm_compute. reflexivity.
Qed.

End AnyTablesRuns.

(** ** The further statements on the sample inputs *)

Section MoreRuns.
Import Py Json Pandas Types AnalyticsEngine DataFetcher QueryEngine XQ.
Import Spec Sample.

Lemma check_rate_limit_waits_witness :
  exists oldest,
    In oldest (filter (fun t => Qltb (clock busy - t)%Q (inject_Z 3600))
                      (request_times busy))
    /\ (forall t,
          In t (filter (fun t => Qltb (clock busy - t)%Q (inject_Z 3600))
                       (request_times busy)) ->
          (oldest <= t)%Q)
    /\ (clock (_check_rate_limit busy) == oldest + inject_Z 3600)%Q.
Proof.
  apply (proj2 (proj2 (proj2 (check_rate_limit_waits busy)))).
  apply Nat.leb_le. vm_compute. reflexivity.
Defined.

Lemma fetch_data_unknown_endpoint_witness :
  fetch_data env_live "soil_health" punjab (world net_down)
  = (Ok (demo_payload env_live "soil_health" punjab [] 100), world net_down).
Proof.
  apply (fetch_data_unknown_endpoint env_live "soil_health" punjab
           (world net_down)).
  reflexivity.
Defined.

Lemma fetch_then_refetch_witness :
  exists d,
    fst (fetch_data env_live "imd_rainfall" punjab (world net_rain))
    = Ok (JDict d)
    /\ fetch_data env_live "imd_rainfall" punjab (fetched_at 200)
       = (Ok (JDict (dict_set "from_cache" (JBool true) d)), fetched_at 200)
    /\ sent (fetched_at 200) = [request_of env_live rain_url punjab].
Proof.
  apply (fetch_then_refetch env_live "imd_rainfall" rain_url punjab
           (world net_rain)
           (JDict [("records",
                    JList [JDict [("state", JStr "Punjab"); ("year", JInt 2020);
                                  ("annual_rainfall_mm", JInt 600)]])])
           1 200).
  - reflexivity.
  - reflexivity.
  - intros Hv. vm_compute in Hv. discriminate Hv.
  - reflexivity.
  - reflexivity.
  - reflexivity.
  - vm_compute. reflexivity.
Defined.

Lemma demo_mode_leaves_world_witness :
  (forall endpoint filters,
      leaves_world (fetch_data (F := xq) env_demo endpoint filters))
  /\ (forall query, leaves_world (process_query env_demo ui query))
  /\ leaves_world (check_api_status (F := xq) env_demo).
Proof.
  apply (demo_mode_leaves_world env_demo ui). reflexivity.
Defined.

Lemma check_api_status_demo_witness :
  check_api_status env_demo (world net_down) = (Ok all_down, world net_down).
Proof.
  apply (check_api_status_demo env_demo (world net_down)).
  - reflexivity.
  - intros endpoint _ Hv. discriminate Hv.
Defined.

Lemma check_endpoint_stale_cache_witness :
  fst (check_endpoint env_live "imd_rainfall" [] (status_cached_at 5000))
  = Ok [("imd_rainfall", true)].
Proof.
  apply (check_endpoint_stale_cache env_live "imd_rainfall" rain_url []
           (status_cached_at 5000) (mk_file 100 (Some (JDict payload))) payload).
  - reflexivity.
  - reflexivity.
  - reflexivity.
  - reflexivity.
  - discriminate.
  - reflexivity.
  - exact I.
Defined.

Lemma no_state_no_data_witness :
  exists reply,
    process_query env_live ui
                  (Text.lit "What is the trend of wheat production")
                  (world net_rain)
    = (Ok reply, world net_rain)
    /\ reply_data ui reply = []
    /\ sources ui reply = []
    /\ reply_confidence ui reply = 0%Q
    /\ reply_data_points ui reply = 0.
Proof.
  apply (no_state_no_data env_live ui
           (Text.lit "What is the trend of wheat production")
           (world net_rain)).
  vm_compute. reflexivity.
Defined.

Lemma correlation_query_answer_witness :
  exists reply w',
    process_query env_demo ui_templates
      (Text.lit "correlation between rainfall and wheat production in Punjab")
      (world net_down)
    = (Ok reply, w')
    /\ (error ui_templates reply = None
        -> answer ui_templates reply = no_answer).
Proof.
  apply (correlation_query_answer env_demo ui_templates texts
           (Text.lit "correlation between rainfall and wheat production in Punjab")
           (world net_down)).
  - reflexivity.
  - vm_compute. reflexivity.
Defined.

Lemma analysis_reads_two_entries_witness :
  same_findings (_analyze_data pq both) (_analyze_data pq with_district).
Proof.
  apply (analysis_reads_two_entries pq both with_district).
  - vm_compute. tauto.
  - reflexivity.
  - reflexivity.
Defined.

(** The reply to that query in demo mode: the analysis found a
    correlation on the joined rows, and the answer does not tell it. *)
Example correlation_found_and_not_told :
  match fst (process_query env_demo ui_templates
               (Text.lit "correlation between rainfall and wheat production in Punjab")
               (world net_down)) with
  | Ok reply =>
      answer ui_templates reply = no_answer
      /\ error ui_templates reply = None
      /\ (5 <? reply_data_points ui_templates reply) = true
  | Raise _ => False
  end.
Proof. vm_compute. repeat split. Qed.

End MoreRuns.
